(** * check_mongodb_mms: a Nagios probe for MMS / Ops Manager

    Shallow embedding of [check_mongodb_mms.go] (package [main]) and of
    [util/api.go] (package [util]), followed by the properties of the
    threshold evaluation, of the API-response interpretation, of the
    requests and of the command line.

    What the program imports and does not define itself is kept abstract:
    the Go runtime and standard library ([GoStd]), the dependency
    [github.com/fractalcat/nagiosplugin] ([Nagios]) and the sibling package
    [./model] ([ModelPkg]).  The network, the clock and the digest
    transport are inputs of a run ([World]). *)

From Stdlib Require Import ZArith List String Ascii Bool Lia DecimalString.
From Stdlib Require Import Floats.SpecFloat.
Import ListNotations.
Local Open Scope string_scope.
Local Open Scope Z_scope.

(** ** Go values shared by both packages *)

(** A Go [error] is carried by the text of its [Error()] method, the only
    thing this program ever does with one (it prints it with [%v]). *)
Definition error := string.

(** The pair [(T, error)] returned by fallible Go functions. *)
Inductive result (A : Type) : Type :=
| Ok (a : A)
| Err (e : error).
Arguments Ok {A} a.
Arguments Err {A} e.

(** [time.Duration]: a signed 64-bit count of nanoseconds. *)
Definition Duration := Z.
Definition minDuration : Duration := - 2 ^ 63.
Definition maxDuration : Duration := 2 ^ 63 - 1.

(** [time.Time] as nanoseconds since a fixed instant. *)
Definition Time := Z.

(** [t.Sub(u)]: the difference, saturated to the range of [Duration]. *)
Definition Sub (t u : Time) : Duration :=
  let d := t - u in
  if d <? minDuration then minDuration
  else if maxDuration <? d then maxDuration
  else d.

(** An [interface{}] holding what [encoding/json] decodes into it. *)
#[local] Unset Elimination Schemes.
Inductive gvalue (F : Type) : Type :=
| GNil
| GBool (b : bool)
| GFloat (f : F)
| GString (s : string)
| GSlice (l : list (gvalue F))
| GMap (m : list (string * gvalue F)).
#[local] Set Elimination Schemes.
Arguments GNil {F}.
Arguments GBool {F} b.
Arguments GFloat {F} f.
Arguments GString {F} s.
Arguments GSlice {F} l.
Arguments GMap {F} m.

(** Operands handed to [fmt.Sprintf]. *)
Inductive operand (F : Type) : Type :=
| OString (s : string)
| OInt (n : Z)
| OFloat (f : F)
| OError (e : error)
| OValue (v : gvalue F).
Arguments OString {F} s.
Arguments OInt {F} n.
Arguments OFloat {F} f.
Arguments OError {F} e.
Arguments OValue {F} v.

(** A byte and its numeric value. *)
Definition code (c : ascii) : Z := Z.of_N (N_of_ascii c).
Definition chr (n : Z) : ascii := ascii_of_N (Z.to_N n).
Definition between (lo hi : Z) (c : ascii) : bool :=
  (lo <=? code c) && (code c <=? hi).

(** ** Package [strings] *)
Module strings.

Fixpoint HasPrefix (s prefix : string) {struct prefix} : bool :=
  match prefix, s with
  | EmptyString, _ => true
  | String p prefix', String c s' => Ascii.eqb c p && HasPrefix s' prefix'
  | String _ _, EmptyString => false
  end.

(** [replace old new s skip]: scan [s] left to right; [skip] bytes of a
    match already replaced are still to be dropped. *)
Fixpoint replace (old new s : string) (skip : nat) : string :=
  match s with
  | EmptyString => EmptyString
  | String c s' =>
      match skip with
      | S k => replace old new s' k
      | O =>
          if HasPrefix s old
          then new ++ replace old new s' (Nat.pred (String.length old))
          else String c (replace old new s' O)
      end
  end.

(** [strings.Replace(s, old, new, -1)] for a non-empty [old]: every
    non-overlapping occurrence, leftmost first.  (With an empty [old] Go
    inserts [new] around every rune; the program never does that, and the
    model returns [s] there.) *)
Definition Replace (s old new : string) : string :=
  match old with
  | EmptyString => s
  | String _ _ => replace old new s O
  end.

Fixpoint Join (l : list string) (sep : string) : string :=
  match l with
  | [] => ""
  | [x] => x
  | x :: rest => x ++ sep ++ Join rest sep
  end.

End strings.

(** ** Package [net/url] *)
Module url.

(** [shouldEscape(c, encodeQueryComponent)]: letters, digits and the
    marks [- _ . ~] pass; the reserved characters and everything else are
    escaped. *)
Definition shouldEscape (c : ascii) : bool :=
  if between (code "a") (code "z") c || between (code "A") (code "Z") c
     || between (code "0") (code "9") c then false
  else if Ascii.eqb c "-" || Ascii.eqb c "_" || Ascii.eqb c "." || Ascii.eqb c "~" then false
  else true.

(** ["0123456789ABCDEF"[n]] for [n < 16]. *)
Definition upperhex (n : Z) : ascii :=
  match String.get (Z.to_nat n) "0123456789ABCDEF" with
  | Some h => h
  | None => "0"%char
  end.

(** [url.QueryEscape]: a space becomes [+], any other byte that
    [shouldEscape] becomes [%XX]. *)
Fixpoint QueryEscape (s : string) : string :=
  match s with
  | EmptyString => EmptyString
  | String c s' =>
      if Ascii.eqb c " " then String "+" (QueryEscape s')
      else if shouldEscape c
      then String "%" (String (upperhex (Z.shiftr (code c) 4))
                      (String (upperhex (Z.land (code c) 15)) (QueryEscape s')))
      else String c (QueryEscape s')
  end.

End url.

(** ** Package [unicode/utf8], as far as [encoding/json] uses it *)
Module utf8.

(** The replacement character U+FFFD, encoded. *)
Definition RuneError : string :=
  String (chr 239) (String (chr 191) (String (chr 189) EmptyString)).

(** [utf8.EncodeRune]: surrogates and values above U+10FFFF are written
    as U+FFFD. *)
Definition EncodeRune (r : Z) : string :=
  if r <=? 127 then String (chr r) EmptyString
  else if r <=? 2047 then
    String (chr (192 + r / 64)) (String (chr (128 + r mod 64)) EmptyString)
  else if (55296 <=? r) && (r <=? 57343) then RuneError
  else if r <=? 65535 then
    String (chr (224 + r / 4096))
      (String (chr (128 + (r / 64) mod 64))
         (String (chr (128 + r mod 64)) EmptyString))
  else if r <=? 1114111 then
    String (chr (240 + r / 262144))
      (String (chr (128 + (r / 4096) mod 64))
         (String (chr (128 + (r / 64) mod 64))
            (String (chr (128 + r mod 64)) EmptyString)))
  else RuneError.

(** The width of the well-formed sequence that starts [s], or [0] when
    the first byte does not start one ([utf8.DecodeRune] then returns
    [RuneError] with width 1). *)
Definition width (s : string) : nat :=
  match s with
  | EmptyString => 0%nat
  | String c0 t =>
      if between 0 127 c0 then 1%nat
      else
        match t with
        | EmptyString => 0%nat
        | String c1 t1 =>
            if between 194 223 c0 then (if between 128 191 c1 then 2 else 0)%nat
            else
              let second3 :=
                (between 224 224 c0 && between 160 191 c1)
                || ((between 225 236 c0 || between 238 239 c0) && between 128 191 c1)
                || (between 237 237 c0 && between 128 159 c1) in
              let second4 :=
                (between 240 240 c0 && between 144 191 c1)
                || (between 241 243 c0 && between 128 191 c1)
                || (between 244 244 c0 && between 128 143 c1) in
              match t1 with
              | EmptyString => 0%nat
              | String c2 t2 =>
                  if second3 then (if between 128 191 c2 then 3 else 0)%nat
                  else if second4 then
                    match t2 with
                    | String c3 _ =>
                        (if between 128 191 c2 && between 128 191 c3 then 4 else 0)%nat
                    | EmptyString => 0%nat
                    end
                  else 0%nat
              end
        end
  end.

End utf8.

(** ** Package [encoding/json]: the grammar *)
Module json.

(** A parsed JSON text.  String literals are unquoted the way the decoder
    does it; number literals are kept as written, their conversion being
    [strconv.ParseFloat]'s business. *)
#[local] Unset Elimination Schemes.
Inductive value : Type :=
| Null
| Bool (b : bool)
| Number (literal : string)
| Str (s : string)
| Array (elements : list value)
| Object (members : list (string * value)).
#[local] Set Elimination Schemes.

Definition isSpace (c : ascii) : bool :=
  Ascii.eqb c " " || (code c =? 9) || (code c =? 13) || (code c =? 10).

Fixpoint skip (s : string) : string :=
  match s with
  | String c r => if isSpace c then skip r else s
  | EmptyString => s
  end.

Definition isDigit (c : ascii) : bool := between 48 57 c.

(** The longest run of digits that starts [s], and what follows it. *)
Fixpoint digits (s : string) : string * string :=
  match s with
  | String c r =>
      if isDigit c then let (d, r') := digits r in (String c d, r') else (EmptyString, s)
  | EmptyString => (EmptyString, s)
  end.

Definition fraction (s : string) : option (string * string) :=
  match s with
  | String "." r =>
      match digits r with
      | (EmptyString, _) => None
      | (d, r') => Some (String "." d, r')
      end
  | _ => Some (EmptyString, s)
  end.

Definition exponent (s : string) : option (string * string) :=
  match s with
  | String c r =>
      if Ascii.eqb c "e" || Ascii.eqb c "E" then
        let (sign, r1) :=
          match r with
          | String "+" r1 => ("+", r1)
          | String "-" r1 => ("-", r1)
          | _ => (EmptyString, r)
          end in
        match digits r1 with
        | (EmptyString, _) => None
        | (d, r') => Some (String c (sign ++ d), r')
        end
      else Some (EmptyString, s)
  | EmptyString => Some (EmptyString, s)
  end.

(** An optional minus sign, an integer part without a leading zero (or a
    lone zero), an optional fraction and an optional exponent. *)
Definition number (s : string) : option (string * string) :=
  let (sign, s1) :=
    match s with
    | String "-" r => ("-", r)
    | _ => (EmptyString, s)
    end in
  let int :=
    match s1 with
    | String "0" r => Some ("0", r)
    | String c _ => if isDigit c then Some (digits s1) else None
    | EmptyString => None
    end in
  match int with
  | None => None
  | Some (i, r) =>
      match fraction r with
      | None => None
      | Some (f, r1) =>
          match exponent r1 with
          | None => None
          | Some (e, r2) => Some (sign ++ i ++ f ++ e, r2)
          end
      end
  end.

Definition hexval (c : ascii) : option Z :=
  if between 48 57 c then Some (code c - 48)
  else if between 97 102 c then Some (code c - 87)
  else if between 65 70 c then Some (code c - 55)
  else None.

(** [getu4] after the [\u]: four hexadecimal digits. *)
Definition hex4 (s : string) : option (Z * string) :=
  match s with
  | String a (String b (String c (String d r))) =>
      match hexval a, hexval b, hexval c, hexval d with
      | Some x, Some y, Some z, Some w => Some (((x * 16 + y) * 16 + z) * 16 + w, r)
      | _, _, _, _ => None
      end
  | _ => None
  end.

Definition prepend (p : string) (x : option (string * string)) : option (string * string) :=
  match x with
  | Some (s, r) => Some (p ++ s, r)
  | None => None
  end.

Fixpoint drop (n : nat) (s : string) : string :=
  match n, s with
  | S k, String _ r => drop k r
  | _, _ => s
  end.

(** The double quote and the backslash. *)
Definition quote : ascii := chr 34.
Definition backslash : ascii := chr 92.

Definition escaped (e : ascii) : option ascii :=
  if Ascii.eqb e quote || Ascii.eqb e backslash || Ascii.eqb e "/" then Some e
  else if Ascii.eqb e "b" then Some (chr 8)
  else if Ascii.eqb e "f" then Some (chr 12)
  else if Ascii.eqb e "n" then Some (chr 10)
  else if Ascii.eqb e "r" then Some (chr 13)
  else if Ascii.eqb e "t" then Some (chr 9)
  else None.

(** The rune of a [\uXXXX] escape [u] given what follows it: a high
    surrogate takes a following low one with it, any other surrogate is
    replaced by U+FFFD. *)
Definition escaped_rune (u : Z) (r : string) : Z * string :=
  if (55296 <=? u) && (u <? 57344) then
    match r with
    | String b (String "u" r1) =>
        match hex4 r1 with
        | Some (u2, r2) =>
            if Ascii.eqb b backslash && (u <? 56320) && (56320 <=? u2) && (u2 <? 57344)
            then ((u - 55296) * 1024 + (u2 - 56320) + 65536, r2)
            else (65533, r)
        | None => (65533, r)
        end
    | _ => (65533, r)
    end
  else (u, r).

(** The characters of a string literal after its opening quote, unquoted
    ([unquoteBytes]), and what follows the closing quote. *)
Fixpoint chars (fuel : nat) (s : string) : option (string * string) :=
  match fuel, s with
  | S n, String c r =>
      if Ascii.eqb c quote then Some (EmptyString, r)
      else if Ascii.eqb c backslash then
        match r with
        | String "u" r1 =>
            match hex4 r1 with
            | Some (u, r2) =>
                let (rune, r3) := escaped_rune u r2 in
                prepend (utf8.EncodeRune rune) (chars n r3)
            | None => None
            end
        | String e r1 =>
            match escaped e with
            | Some b => prepend (String b EmptyString) (chars n r1)
            | None => None
            end
        | EmptyString => None
        end
      else if code c <? 32 then None
      else if code c <? 128 then prepend (String c EmptyString) (chars n r)
      else
        match utf8.width s with
        | O => prepend utf8.RuneError (chars n r)
        | w => prepend (substring 0 w s) (chars n (drop w s))
        end
  | _, _ => None
  end.

Definition literal (word : string) (v : value) (s : string) : option (value * string) :=
  if strings.HasPrefix s word then Some (v, drop (String.length word) s) else None.

Section Composite.
(** The parser of one value, for the elements of arrays and objects. *)
Variable element : string -> option (value * string).

(** After [[] and a first non-[]] character. *)
Fixpoint elements (fuel : nat) (s : string) (acc : list value) : option (value * string) :=
  match fuel with
  | O => None
  | S n =>
      match element s with
      | Some (v, r) =>
          match skip r with
          | String "," r1 => elements n r1 (v :: acc)
          | String "]" r1 => Some (Array (rev (v :: acc)), r1)
          | _ => None
          end
      | None => None
      end
  end.

(** After [{] and a first non-[}] character. *)
Fixpoint members (fuel : nat) (s : string) (acc : list (string * value)) : option (value * string) :=
  match fuel with
  | O => None
  | S n =>
      match skip s with
      | String q r =>
          match (if Ascii.eqb q quote then chars (String.length r) r else None) with
          | Some (k, r1) =>
              match skip r1 with
              | String ":" r2 =>
                  match element r2 with
                  | Some (v, r3) =>
                      match skip r3 with
                      | String "," r4 => members n r4 ((k, v) :: acc)
                      | String "}" r4 => Some (Object (rev ((k, v) :: acc)), r4)
                      | _ => None
                      end
                  | None => None
                  end
              | _ => None
              end
          | None => None
          end
      | EmptyString => None
      end
  end.
End Composite.

(** One value, leading white space allowed; [fuel] bounds the nesting. *)
Fixpoint element (fuel : nat) (s : string) : option (value * string) :=
  match fuel with
  | O => None
  | S n =>
      match skip s with
      | EmptyString => None
      | String c r as t =>
          if Ascii.eqb c "n" then literal "null" Null t
          else if Ascii.eqb c "t" then literal "true" (Bool true) t
          else if Ascii.eqb c "f" then literal "false" (Bool false) t
          else if Ascii.eqb c quote then
            match chars (String.length r) r with
            | Some (str, r1) => Some (Str str, r1)
            | None => None
            end
          else if Ascii.eqb c "[" then
            match skip r with
            | String "]" r1 => Some (Array [], r1)
            | _ => elements (element n) (String.length r) r []
            end
          else if Ascii.eqb c "{" then
            match skip r with
            | String "}" r1 => Some (Object [], r1)
            | _ => members (element n) (String.length r) r []
            end
          else
            match number t with
            | Some (lit, r1) => Some (Number lit, r1)
            | None => None
            end
      end
  end.

(** A whole JSON text: one value and nothing but white space around it. *)
Definition parse (data : string) : option value :=
  match element (S (String.length data)) data with
  | Some (v, r) => match skip r with EmptyString => Some v | _ => None end
  | None => None
  end.

(** [json.Valid]. *)
Definition Valid (data : string) : bool :=
  match parse data with Some _ => true | None => false end.

End json.

(** ** Package [fmt]: the verb [%v] *)
Module fmt.
Section Verb.
Context {F : Type}.
(** [%v] of a [float64] *)
Variable FormatFloat : F -> string.

(** Sorted insertion of a rendered map entry, by key. *)
Fixpoint insert_entry (e : string * string) (l : list (string * string)) : list (string * string) :=
match l with
| [] => [e]
| x :: l' => if String.leb (fst e) (fst x) then e :: l else x :: insert_entry e l'
end.

(** [%v] of a decoded JSON value: [<nil>], [true], a number, the bare
  text of a string, [[a b]] for a slice, [map[k:v k:v]] with keys in
  increasing order for a map. *)
Fixpoint fmt_value (v : gvalue F) : string :=
match v with
| GNil => "<nil>"
| GBool b => if b then "true" else "false"
| GFloat f => FormatFloat f
| GString s => s
| GSlice l =>
    "[" ++ strings.Join
             ((fix each (l : list (gvalue F)) : list string :=
                 match l with
                 | [] => []
                 | x :: l' => fmt_value x :: each l'
                 end) l) " " ++ "]"
| GMap m =>
    "map[" ++ strings.Join
                (map (fun e => fst e ++ ":" ++ snd e)
                   ((fix each (m : list (string * gvalue F)) : list (string * string) :=
                       match m with
                       | [] => []
                       | (k, x) :: m' => insert_entry (k, fmt_value x) (each m')
                       end) m)) " " ++ "]"
end.

(** [%v] of an operand. *)
Definition fmt_v (a : operand F) : string :=
match a with
| OString s => s
| OInt n => NilZero.string_of_int (Z.to_int n)
| OFloat f => FormatFloat f
| OError e => e
| OValue v => fmt_value v
end.
End Verb.
End fmt.

(** ** Package [./model] *)

(** Modelled from the spec: the declaration of [model.Host] is not part of
    the sources at hand.  Per section 3 a host has an identifier and a
    last-contact timestamp; these are the two fields the program reads
    ([host.Id], [host.LastPing]). *)
Record Host : Type := { Id : string; LastPing : Time }.

(** Modelled from the spec: [model.DataPoint], a timestamp and a numeric
    value ([lastDataPoint.Timestamp], [lastDataPoint.Value]). *)
Record DataPoint (F : Type) : Type := { Timestamp : Time; Value : F }.
Arguments Timestamp {F} d.
Arguments Value {F} d.

(** Modelled from the spec: [model.Metric], a named series of data points
    ordered by time ([metric.DataPoints]). *)
Record Metric (F : Type) : Type := { MetricName : string; DataPoints : list (DataPoint F) }.
Arguments MetricName {F} m.
Arguments DataPoints {F} m.

(** ** What the program imports *)

(** The Go runtime and standard library: [float64] with the conversions the
    program applies to it, and [fmt.Sprintf] outside the few directives
    modelled below. *)
Class GoStd : Type := {
  float64 : Type;
  (** [time.Duration.Seconds] *)
  Seconds : Duration -> float64;
  (** the conversion [int(f)] *)
  int_of_float64 : float64 -> Z;
  (** [%v] of a [float64] *)
  FormatFloat : float64 -> string;
  (** [strconv.ParseFloat(s, 64)] *)
  ParseFloat : string -> result float64;
  (** [fmt.Sprintf] on a format with directives other than [%v] and [%%],
      or with a number of operands that differs from that of its [%v] *)
  Sprintf_other : string -> list (operand float64) -> string
}.

(** [github.com/fractalcat/nagiosplugin]: threshold ranges. *)
Class Nagios `{GoStd} : Type := {
  Range : Type;
  ParseRange : string -> result Range;
  (** the method [Check] of a range *)
  Range_Check : Range -> float64 -> bool
}.

(** [./model]: decoding of the two response shapes with [json.Unmarshal],
    and the summary line of a metric. *)
Class ModelPkg `{GoStd} : Type := {
  Unmarshal_Host : string -> result Host;
  Unmarshal_HostsResponse : string -> result (list Host);
  Unmarshal_Metric : string -> result (Metric float64);
  ToStringLastDataPoint : Metric float64 -> string
}.

(** ** The inputs of one run *)

(** What [client.Get(uri)] followed by [ioutil.ReadAll(response.Body)]
    comes to. *)
Inductive HttpReply : Type :=
| GetFailed (err : error)
| ReadFailed (err : error)
| Response (StatusCode : Z) (body : string).

Record World : Type := {
  (** [time.Now()] when [time.Since] is called *)
  Now : Time;
  (** the error, if any, of [NewTransport(username, apiKey).Client()] *)
  transport_Client : string -> string -> option error;
  (** the service, as seen through the HTTP client *)
  http_Get : string -> HttpReply
}.

(** [time.Since(t)] *)
Definition Since (w : World) (t : Time) : Duration := Sub (Now w) t.

(** The package-level flag variables of [main], as [setupFlags] leaves
    them. *)
Record Flags : Type := {
  groupId : string;
  hostname : string;
  metricName : string;
  dbName : string;
  server : string;
  warning : string;
  critical : string;
  timeout : Z;
  maxAge : Z;
  granularity : string;
  period : string;
  username : string;
  apiKey : string
}.

Definition groupIdDefault := "".
Definition groupIdUsage := "The MMS/Ops Manager group ID that contains the server".
Definition hostnameDefault := "".
Definition hostnameUsage := "hostname:port of the mongod/s to check".
Definition metricDefault := "".
Definition metricUsage := "metric to query".
Definition dbNameDefault := "".
Definition dbNameUsage := "database name for DB_ metrics".
Definition serverDefault := "https://mms.mongodb.com".
Definition serverUsage := "hostname and port of the MMS/Ops Manager service".
Definition warningDefault := "~:".
Definition warningUsage := "warning threshold for given metric".
Definition criticalDefault := "~:".
Definition criticalUsage := "critical threshold for given metric".
Definition timeoutDefault := 10.
Definition timeoutUsage := "connection timeout connecting MMS/Ops Manager service".
Definition maxAgeDefault := 360.
Definition maxAgeUsage := "the maximum number of seconds old a metric before it is considerd stale".
Definition granularityDefault := "MINUTE".
Definition granularityUsage := "the size of the epoch. Acceptable values are MINUTE HOUR DAY".
Definition periodDefault := "1H".
Definition periodUsage := "the ISO-8601 formatted time period that specifies how far back in the past to query.".
Definition usernameDefault := "".
Definition usernameUsage := "the username for auth".
Definition apiKeyDefault := "".
Definition apiKeyUsage := "the api key for the user".

(** The flag variables when the command line sets none of them. *)
Definition defaultFlags : Flags := {|
  groupId := groupIdDefault;
  hostname := hostnameDefault;
  metricName := metricDefault;
  dbName := dbNameDefault;
  server := serverDefault;
  warning := warningDefault;
  critical := criticalDefault;
  timeout := timeoutDefault;
  maxAge := maxAgeDefault;
  granularity := granularityDefault;
  period := periodDefault;
  username := usernameDefault;
  apiKey := apiKeyDefault
|}.


(** ** Package [nagiosplugin]: results and performance data *)

Inductive Status : Type := OK | WARNING | CRITICAL | UNKNOWN.

Record Result : Type := { status : Status; message : string }.

Record PerfDatum (F : Type) : Type := { label : string; uom : string; value : F }.
Arguments label {F} p.
Arguments uom {F} p.
Arguments value {F} p.

(** ** The effects of a run *)

(** What the program does to the world around it, call by call and in
    order, each call with what it returned.  [F] is [float64] and [R] the
    type of threshold ranges. *)
Inductive Event (F R : Type) : Type :=
| EvPrint (text : string)
| EvExit (code : Z)
| EvNewCheck
| EvClient (username apiKey : string) (err : option error)
| EvGet (uri : string) (reply : HttpReply)
| EvUnmarshal (payload : string) (err : option error)
| EvSince (t : Time) (age : Duration)
| EvParseRange (spec : string) (parsed : result R)
| EvCheck (range : R) (value : F) (alert : bool)
| EvAddPerfDatum (datum : PerfDatum F)
| EvAddResult (result : Result)
| EvFinish.
Arguments EvPrint {F R} text.
Arguments EvExit {F R} code.
Arguments EvNewCheck {F R}.
Arguments EvClient {F R} username apiKey err.
Arguments EvGet {F R} uri reply.
Arguments EvUnmarshal {F R} payload err.
Arguments EvSince {F R} t age.
Arguments EvParseRange {F R} spec parsed.
Arguments EvCheck {F R} range value alert.
Arguments EvAddPerfDatum {F R} datum.
Arguments EvAddResult {F R} result.
Arguments EvFinish {F R}.

Section Trace.
Context {F R : Type}.

(** The results added to the check, in order. *)
Fixpoint results (t : list (Event F R)) : list Result :=
  match t with
  | [] => []
  | EvAddResult r :: t' => r :: results t'
  | _ :: t' => results t'
  end.

(** The performance data added to the check, in order. *)
Fixpoint perfdata (t : list (Event F R)) : list (PerfDatum F) :=
  match t with
  | [] => []
  | EvAddPerfDatum d :: t' => d :: perfdata t'
  | _ :: t' => perfdata t'
  end.

(** The URIs requested, in order. *)
Fixpoint requests (t : list (Event F R)) : list string :=
  match t with
  | [] => []
  | EvGet uri _ :: t' => uri :: requests t'
  | _ :: t' => requests t'
  end.

(** What was written to standard output. *)
Fixpoint stdout (t : list (Event F R)) : string :=
  match t with
  | [] => ""
  | EvPrint text :: t' => text ++ stdout t'
  | _ :: t' => stdout t'
  end.

(** The threshold strings parsed, in order. *)
Fixpoint parsed (t : list (Event F R)) : list string :=
  match t with
  | [] => []
  | EvParseRange spec _ :: t' => spec :: parsed t'
  | _ :: t' => parsed t'
  end.

(** The values tested against a range, in order. *)
Fixpoint tested (t : list (Event F R)) : list F :=
  match t with
  | [] => []
  | EvCheck _ v _ :: t' => v :: tested t'
  | _ :: t' => tested t'
  end.

(** The clock readings. *)
Fixpoint clocked (t : list (Event F R)) : list Time :=
  match t with
  | [] => []
  | EvSince ts _ :: t' => ts :: clocked t'
  | _ :: t' => clocked t'
  end.

(** A computation: the events it gives rise to, and its value. *)
Definition M (A : Type) : Type := (list (Event F R) * A)%type.

Definition ret {A : Type} (a : A) : M A := ([], a).

Definition bind {A B : Type} (m : M A) (k : A -> M B) : M B :=
  ((fst m ++ fst (k (snd m)))%list, snd (k (snd m))).

(** A call that shows as the event [e] and returns [a]. *)
Definition call {A : Type} (e : Event F R) (a : A) : M A := ([e], a).

End Trace.

Declare Scope run_scope.
Delimit Scope run_scope with run.
Notation "x <- c1 ;; c2" := (bind c1 (fun x => c2))
  (at level 61, c1 at next level, right associativity) : run_scope.
Notation "c1 ;; c2" := (bind c1 (fun _ => c2))
  (at level 61, right associativity) : run_scope.

Section Formatting.
Context {std : GoStd}.

(** *** Package [fmt]: [Sprintf] *)

(** A format is regular for [n] operands when its directives are [%v]
    and [%%] only and it has exactly [n] of the former. *)
Fixpoint regular (format : string) (n : nat) : bool :=
  match format with
  | EmptyString => Nat.eqb n 0
  | String "%" (String "v" rest) =>
      match n with
      | S k => regular rest k
      | O => false
      end
  | String "%" (String "%" rest) => regular rest n
  | String "%" _ => false
  | String _ rest => regular rest n
  end.

Fixpoint Sprintf_v (format : string) (args : list (operand float64)) : string :=
  match format with
  | EmptyString => EmptyString
  | String "%" (String "v" rest) =>
      match args with
      | a :: args' => fmt.fmt_v FormatFloat a ++ Sprintf_v rest args'
      | [] => "%!v(MISSING)" ++ Sprintf_v rest []
      end
  | String "%" (String "%" rest) => String "%" (Sprintf_v rest args)
  | String c rest => String c (Sprintf_v rest args)
  end.

(** [fmt.Sprintf(format, args...)] *)
Definition Sprintf (format : string) (args : list (operand float64)) : string :=
  if regular format (List.length args) then Sprintf_v format args
  else Sprintf_other format args.

(** *** Package [encoding/json]: decoding into [interface{}] *)

(** [m[k] = v] *)
Fixpoint assign {V : Type} (m : list (string * V)) (k : string) (v : V) : list (string * V) :=
  match m with
  | [] => [(k, v)]
  | (k', v') :: m' => if String.eqb k' k then (k, v) :: m' else (k', v') :: assign m' k v
  end.

(** [m[k]] for a [map[string]interface{}]: [nil] when [k] is absent. *)
Fixpoint index (m : list (string * gvalue float64)) (k : string) : gvalue float64 :=
  match m with
  | [] => GNil
  | (k', v) :: m' => if String.eqb k' k then v else index m' k
  end.

(** The Go value a JSON text decodes to, or [None] when one of its
    numbers does not fit a [float64] (the decoder then reports an
    error).  Of two members with one key the later wins. *)
Fixpoint toInterface (v : json.value) : option (gvalue float64) :=
  match v with
  | json.Null => Some GNil
  | json.Bool b => Some (GBool b)
  | json.Number lit =>
      match ParseFloat lit with
      | Ok f => Some (GFloat f)
      | Err _ => None
      end
  | json.Str s => Some (GString s)
  | json.Array l =>
      option_map GSlice
        ((fix each (l : list json.value) : option (list (gvalue float64)) :=
            match l with
            | [] => Some []
            | x :: l' =>
                match toInterface x, each l' with
                | Some y, Some ys => Some (y :: ys)
                | _, _ => None
                end
            end) l)
  | json.Object ms =>
      option_map GMap
        ((fix each (ms : list (string * json.value)) (acc : list (string * gvalue float64))
            : option (list (string * gvalue float64)) :=
            match ms with
            | [] => Some acc
            | (k, x) :: ms' =>
                match toInterface x with
                | Some y => each ms' (assign acc k y)
                | None => None
                end
            end) ms [])
  end.

(** [json.Unmarshal(data, &m)] for [var m map[string]interface{}]: the
    map, or [None] when an error is returned.  [null] leaves [m] nil, a
    JSON text that is not an object is a type error. *)
Definition Unmarshal_map (data : string) : option (list (string * gvalue float64)) :=
  match json.parse data with
  | Some json.Null => Some []
  | Some (json.Object ms) =>
      match toInterface (json.Object ms) with
      | Some (GMap m) => Some m
      | _ => None
      end
  | _ => None
  end.

(** *** Package [util]: what does not touch the network *)

Definition handleError (statusCode : Z) (body : string) : error :=
  match Unmarshal_map body with
  | None => Sprintf "API response did not contain valid JSON. Body: %v" [OString body]
  | Some jsonBody =>
      Sprintf "API Error: %v (%v)"
        [OValue (index jsonBody "reason"); OValue (index jsonBody "detail")]
  end.

Definition escape (piece : string) : string :=
  strings.Replace (url.QueryEscape piece) "+" "%20".

End Formatting.

Section Program.
Context {std : GoStd} {nagios : Nagios} {model : ModelPkg}.
Local Open Scope run_scope.

Abbreviation event := (Event float64 Range).
Abbreviation run := (@M float64 Range).

(** *** The calls that show in the trace *)

(** [time.Since(t)] *)
Definition time_Since (w : World) (t : Time) : run Duration :=
  call (EvSince t (Since w t)) (Since w t).

(** [nagiosplugin.ParseRange(spec)] *)
Definition nagiosplugin_ParseRange (spec : string) : run (result Range) :=
  call (EvParseRange spec (ParseRange spec)) (ParseRange spec).

(** [r.Check(value)] *)
Definition Check (r : Range) (value : float64) : run bool :=
  call (EvCheck r value (Range_Check r value)) (Range_Check r value).

(** [nagiosplugin.NewCheck()] *)
Definition NewCheck : run unit := call EvNewCheck tt.

(** [check.AddResultf(status, format, v...)] *)
Definition AddResultf (st : Status) (format : string) (v : list (operand float64)) : run unit :=
  call (EvAddResult {| status := st; message := Sprintf format v |}) tt.

(** [check.AddPerfDatum(label, unit, value)] *)
Definition AddPerfDatum (label uom : string) (value : float64) : run unit :=
  call (EvAddPerfDatum {| label := label; uom := uom; value := value |}) tt.

(** [check.Finish()], which renders the check and exits with its status. *)
Definition Finish : run unit := call EvFinish tt.

(** [fmt.Fprintf(os.Stdout, format, a...)] *)
Definition Fprintf_Stdout (format : string) (a : list (operand float64)) : run unit :=
  call (EvPrint (Sprintf format a)) tt.

(** [os.Exit(code)] *)
Definition os_Exit (code : Z) : run unit := call (EvExit code) tt.

(** [NewTransport(username, apiKey).Client()], for its error. *)
Definition NewTransport_Client (w : World) (username apiKey : string) : run (option error) :=
  call (EvClient username apiKey (transport_Client w username apiKey))
    (transport_Client w username apiKey).

(** [client.Get(uri)] and the reading of the body. *)
Definition client_Get (w : World) (uri : string) : run HttpReply :=
  call (EvGet uri (http_Get w uri)) (http_Get w uri).

(** [json.Unmarshal(payload, &outType)] for the type that [Unmarshal]
    decodes. *)
Definition json_Unmarshal {A : Type} (Unmarshal : string -> result A) (payload : string)
    : run (result A) :=
  call (EvUnmarshal payload (match Unmarshal payload with Err err => Some err | Ok _ => None end))
    (Unmarshal payload).

(** *** Package [util] *)

Record MMSAPI : Type := { MMSAPI_hostname : string }.

Definition NewMMSAPI (w : World) (hostname : string) (timeout : Z) (username apiKey : string)
    : run (result MMSAPI) :=
  err <- NewTransport_Client w username apiKey ;;
  match err with
  | Some err => ret (Err err)
  | None => ret (Ok {| MMSAPI_hostname := hostname |})
  end.

Definition doGet (w : World) (api : MMSAPI) (path : string) : run (result string) :=
  let uri := Sprintf "%v/api/public/v1.0%v" [OString (MMSAPI_hostname api); OString path] in
  response <- client_Get w uri ;;
  match response with
  | GetFailed err => ret (Err (Sprintf "Failed to make HTTP request. Error: %v" [OError err]))
  | ReadFailed err =>
      ret (Err (Sprintf "Failed to read HTTP response body. Error: %v" [OError err]))
  | Response StatusCode body =>
      if negb (StatusCode =? 200) then ret (Err (handleError StatusCode body))
      else ret (Ok body)
  end.

Definition unMarshalJSON {A : Type} (Unmarshal : string -> result A) (payload : string)
    : run (result A) :=
  out <- json_Unmarshal Unmarshal payload ;;
  match out with
  | Err err =>
      ret (Err (Sprintf "Response did not contain valid JSON. Error: %v, Body: %v"
                  [OError err; OString payload]))
  | Ok out => ret (Ok out)
  end.

(** The common shape of the four fetches: get, then decode. *)
Definition fetch {A : Type} (Unmarshal : string -> result A) (w : World) (api : MMSAPI)
    (path : string) : run (result A) :=
  body <- doGet w api path ;;
  match body with
  | Err err => ret (Err err)
  | Ok body => unMarshalJSON Unmarshal body
  end.

Definition GetAllHosts (w : World) (api : MMSAPI) (groupId : string) : run (result (list Host)) :=
  fetch Unmarshal_HostsResponse w api (Sprintf "/groups/%v/hosts" [OString groupId]).

Definition GetHostByName (w : World) (api : MMSAPI) (groupId name : string)
    : run (result Host) :=
  fetch Unmarshal_Host w api
    (Sprintf "/groups/%v/hosts/byName/%v" [OString groupId; OString name]).

Definition GetHostMetric (w : World) (api : MMSAPI)
    (groupId hostId metricName granularity period : string) : run (result (Metric float64)) :=
  fetch Unmarshal_Metric w api
    (Sprintf "/groups/%v/hosts/%v/metrics/%v?granularity=%v&period=PT%v"
       [OString groupId; OString hostId; OString metricName;
        OString granularity; OString period]).

Definition GetHostDBMetric (w : World) (api : MMSAPI)
    (groupId hostId metricName dbName granularity period : string)
    : run (result (Metric float64)) :=
  fetch Unmarshal_Metric w api
    (Sprintf "/groups/%v/hosts/%v/metrics/%v/%v?granularity=%v&period=PT%v"
       [OString groupId; OString hostId; OString metricName; OString (escape dbName);
        OString granularity; OString period]).

(** *** Package [main] *)

Definition doHostCheck (fl : Flags) (w : World) (host : Host) : run unit :=
  age <- time_Since w (LastPing host) ;;
  critRange <- nagiosplugin_ParseRange (critical fl) ;;
  match critRange with
  | Err err => AddResultf UNKNOWN "Error parsing critical range. Error: %v" [OError err]
  | Ok critRange =>
      alert <- Check critRange (Seconds age) ;;
      if alert then
        AddResultf CRITICAL (Sprintf "Last ping was %v seconds ago" [OFloat (Seconds age)]) []
      else
        warnRange <- nagiosplugin_ParseRange (warning fl) ;;
        match warnRange with
        | Err err => AddResultf UNKNOWN "Error parsing warning range. Error: %v" [OError err]
        | Ok warnRange =>
            alert <- Check warnRange (Seconds age) ;;
            if alert then
              AddResultf WARNING
                (Sprintf "Last ping was %v seconds ago" [OFloat (Seconds age)]) []
            else
              AddResultf OK (Sprintf "Last ping was %v seconds ago" [OFloat (Seconds age)]) []
        end
  end.

(** The fetch that opens [doMetricCheck]: host-scoped without a database
    name, database-scoped with one. *)
Definition fetchMetric (fl : Flags) (w : World) (api : MMSAPI) (host : Host)
    : run (result (Metric float64)) :=
  if String.eqb (dbName fl) "" then
    GetHostMetric w api (groupId fl) (Id host) (metricName fl) (granularity fl) (period fl)
  else
    GetHostDBMetric w api (groupId fl) (Id host) (metricName fl) (dbName fl)
      (granularity fl) (period fl).

(** What [doMetricCheck] does with the metric it fetched. *)
Definition evalMetric (fl : Flags) (w : World) (metric : Metric float64) : run unit :=
  match DataPoints metric with
  | [] => AddResultf UNKNOWN "No data points found for %v" [OString (metricName fl)]
  | first :: rest =>
      let lastDataPoint := last rest first in
      age <- time_Since w (Timestamp lastDataPoint) ;;
      if int_of_float64 (Seconds age) >? maxAge fl then
        AddResultf CRITICAL "Last data point for %v is %v seconds old."
          [OString (metricName fl); OInt (int_of_float64 (Seconds age))]
      else
        AddPerfDatum (metricName fl) "" (Value lastDataPoint) ;;
        critRange <- nagiosplugin_ParseRange (critical fl) ;;
        match critRange with
        | Err err => AddResultf UNKNOWN "Error parsing critical range. Error: %v" [OError err]
        | Ok critRange =>
            alert <- Check critRange (Value lastDataPoint) ;;
            if alert then AddResultf CRITICAL (ToStringLastDataPoint metric) []
            else
              warnRange <- nagiosplugin_ParseRange (warning fl) ;;
              match warnRange with
              | Err err =>
                  AddResultf UNKNOWN "Error parsing warning range. Error: %v" [OError err]
              | Ok warnRange =>
                  alert <- Check warnRange (Value lastDataPoint) ;;
                  if alert then AddResultf WARNING (ToStringLastDataPoint metric) []
                  else AddResultf OK (ToStringLastDataPoint metric) []
              end
        end
  end.

Definition doMetricCheck (fl : Flags) (w : World) (api : MMSAPI) (host : Host) : run unit :=
  metric <- fetchMetric fl w api host ;;
  match metric with
  | Err err => AddResultf UNKNOWN "%v" [OError err]
  | Ok metric => evalMetric fl w metric
  end.

Definition nl : string := String (chr 10) EmptyString.

(** The function [setupFlags] assigns to [flag.Usage]. *)
Definition flag_Usage : run unit :=
  Fprintf_Stdout ("Usage: check_mongodb_mms  -g groupid -H hostname [-m metric] [-d dbname] [-a age] [-s server] [-t timeout] [-w warning_level] [-c critica_level] [-r granularity] [-p period] [-u username] [-k apikey]" ++ nl) [] ;;
  Fprintf_Stdout ("     -g, --groupid  %v" ++ nl) [OString groupIdUsage] ;;
  Fprintf_Stdout ("     -H, --hostname %v" ++ nl) [OString hostnameUsage] ;;
  Fprintf_Stdout ("     -m, --metric (no metric means check last ping age in seconds) %v" ++ nl)
    [OString metricUsage] ;;
  Fprintf_Stdout ("     -d, --dbname (default %v) %v" ++ nl)
    [OString dbNameDefault; OString dbNameUsage] ;;
  Fprintf_Stdout ("     -a, --maxage (default %v) %v" ++ nl)
    [OInt maxAgeDefault; OString maxAgeUsage] ;;
  Fprintf_Stdout ("     -s, --server (default: %v) %v" ++ nl)
    [OString serverDefault; OString serverUsage] ;;
  Fprintf_Stdout ("     -w, --warning (default: %v) %v" ++ nl)
    [OString warningDefault; OString warningUsage] ;;
  Fprintf_Stdout ("     -c, --critical (default: %v) %v" ++ nl)
    [OString criticalDefault; OString criticalUsage] ;;
  Fprintf_Stdout ("     -t, --timeout (default: %v) %v" ++ nl)
    [OInt timeoutDefault; OString timeoutUsage] ;;
  Fprintf_Stdout ("     -r, --granularity (default: %v) %v" ++ nl)
    [OString granularityDefault; OString granularityUsage] ;;
  Fprintf_Stdout ("     -p, --period (default: %v) %v" ++ nl)
    [OString periodDefault; OString periodUsage] ;;
  Fprintf_Stdout ("     -u, --username (default: %v) %v" ++ nl)
    [OString usernameDefault; OString usernameUsage] ;;
  Fprintf_Stdout ("     -k, --apiKey (default: %v) %v" ++ nl)
    [OString apiKeyDefault; OString apiKeyUsage] ;;
  Fprintf_Stdout (nl ++ "     -w and -c support the standard nagios threshold formats." ++ nl
                  ++ "     See https://nagios-plugins.org/doc/guidelines.html#THRESHOLDFORMAT for more details."
                  ++ nl) [].

(** [main] from the creation of the check to its return, where the
    deferred [check.Finish()] takes over. *)
Definition checked (fl : Flags) (w : World) : run unit :=
  api <- NewMMSAPI w (server fl) (timeout fl) (username fl) (apiKey fl) ;;
  match api with
  | Err err => AddResultf UNKNOWN "Failed to create API. Error: %v" [OError err]
  | Ok api =>
      host <- GetHostByName w api (groupId fl) (hostname fl) ;;
      match host with
      | Err err => AddResultf UNKNOWN "%v" [OError err]
      | Ok host =>
          if String.eqb (metricName fl) "" then doHostCheck fl w host
          else doMetricCheck fl w api host
      end
  end.

(** [main], after [setupFlags()] has left the flag variables as [fl]. *)
Definition main (fl : Flags) (w : World) : run unit :=
  if String.eqb (hostname fl) "" || String.eqb (groupId fl) "" then
    flag_Usage ;;
    os_Exit 2
  else
    NewCheck ;;
    checked fl w ;;
    Finish.

End Program.

(** ** Package [flag] *)

(** [strconv.ParseInt(s, 0, 64)], by which the value of an [int] flag is
    read. *)
Class Strconv : Type := { ParseInt : string -> result Z }.

Module flag.
Section FlagSet.
(** The variables the flags are bound to. *)
Variable V : Type.

(** A registered flag: its name, its usage string and, for its value,
    the assignment of the default that the registration makes and the
    assignment that [Set] makes of the text of an argument. *)
Record Flag : Type := {
  Name : string;
  Usage : string;
  Default : V -> V;
  Value_Set : string -> V -> result V
}.

(** [flag.StringVar(p, name, value, usage)]; [p] is given by the
    assignment to the variable it points to. *)
Definition StringVar (p : string -> V -> V) (name value usage : string) : Flag :=
  {| Name := name; Usage := usage; Default := p value;
     Value_Set := fun s vars => Ok (p s vars) |}.

(** [flag.IntVar(p, name, value, usage)] *)
Definition IntVar {conv : Strconv} (p : Z -> V -> V) (name : string) (value : Z)
    (usage : string) : Flag :=
  {| Name := name; Usage := usage; Default := p value;
     Value_Set := fun s vars =>
                    match ParseInt s with
                    | Ok n => Ok (p n vars)
                    | Err err => Err err
                    end |}.

(** The variables once every flag of [formal] is registered. *)
Definition registered (formal : list Flag) (vars : V) : V :=
  fold_left (fun vars f => Default f vars) formal vars.

(** [f.formal[name]] *)
Fixpoint lookup (formal : list Flag) (name : string) : option Flag :=
  match formal with
  | [] => None
  | f :: formal' => if String.eqb (Name f) name then Some f else lookup formal' name
  end.

(** The errors of [parseOne]: bad flag syntax, flag provided but not
    defined, help requested, flag needs an argument, invalid value for a
    flag. *)
Inductive Error : Type :=
| BadSyntax (arg : string)
| NotDefined (name : string)
| ErrHelp
| NeedsArgument (name : string)
| InvalidValue (value name : string) (err : error).

(** What [parseOne] makes of the argument it looks at: not a flag, the
    terminator [--], a malformed flag, or a flag name with the value that
    follows an equals sign, if there is one. *)
Inductive Arg : Type :=
| Operand
| Terminator
| Malformed
| Named (name : string) (value : option string).

(** [s] up to its first equals sign, and what follows that sign. *)
Fixpoint cut (s : string) : string * option string :=
  match s with
  | EmptyString => (EmptyString, None)
  | String c s' =>
      if Ascii.eqb c "=" then (EmptyString, Some s')
      else let (name, value) := cut s' in (String c name, value)
  end.

Definition parseArg (s : string) : Arg :=
  match s with
  | String c0 (String c1 s2) =>
      if negb (Ascii.eqb c0 "-") then Operand
      else if Ascii.eqb c1 "-" && String.eqb s2 "" then Terminator
      else
        match (if Ascii.eqb c1 "-" then s2 else String c1 s2) with
        | EmptyString => Malformed
        | String n0 name' =>
            if Ascii.eqb n0 "-" || Ascii.eqb n0 "=" then Malformed
            else let (name, value) := cut name' in Named (String n0 name) value
        end
  | _ => Operand
  end.

(** The end of [Parse]: the variables and the arguments left over, or
    the error after which a flag set that exits on error reports the
    error, calls [Usage] and leaves the program. *)
Inductive Outcome : Type :=
| Parsed (vars : V) (rest : list string)
| Failed (err : Error).

(** What [Set] leads to: the parse goes on with [k], or ends. *)
Definition assigned (f : Flag) (name value : string) (vars : V) (k : V -> Outcome) : Outcome :=
  match Value_Set f value vars with
  | Ok vars' => k vars'
  | Err err => Failed (InvalidValue value name err)
  end.

(** [f.Parse(args)]: [parseOne] until it sees no flag.  None of the flags
    is boolean, so each takes a value: the text after the equals sign
    or else the next argument, whatever it looks like. *)
Fixpoint Parse (formal : list Flag) (vars : V) (args : list string) : Outcome :=
  match args with
  | [] => Parsed vars []
  | s :: rest =>
      match parseArg s with
      | Operand => Parsed vars (s :: rest)
      | Terminator => Parsed vars rest
      | Malformed => Failed (BadSyntax s)
      | Named name value =>
          match lookup formal name with
          | None =>
              if String.eqb name "help" || String.eqb name "h" then Failed ErrHelp
              else Failed (NotDefined name)
          | Some f =>
              match value with
              | Some v => assigned f name v vars (fun vars' => Parse formal vars' rest)
              | None =>
                  match rest with
                  | v :: rest' => assigned f name v vars (fun vars' => Parse formal vars' rest')
                  | [] => Failed (NeedsArgument name)
                  end
              end
          end
      end
  end.

End FlagSet.
Arguments Name {V} f.
Arguments Usage {V} f.
Arguments Default {V} f vars.
Arguments Value_Set {V} f s vars.
Arguments StringVar {V} p name value usage.
Arguments IntVar {V conv} p name value usage.
Arguments registered {V} formal vars.
Arguments lookup {V} formal name.
Arguments Parsed {V} vars rest.
Arguments Failed {V} err.
Arguments assigned {V} f name value vars k.
Arguments Parse {V} formal vars args.
End flag.

(** ** Package [main]: the command line *)

Section CommandLine.
Context {conv : Strconv}.

(** The assignments to the flag variables. *)
Definition set_groupId (v : string) (fl : Flags) : Flags :=
  {| groupId := v; hostname := hostname fl; metricName := metricName fl; dbName := dbName fl;
     server := server fl; warning := warning fl; critical := critical fl;
     timeout := timeout fl; maxAge := maxAge fl; granularity := granularity fl;
     period := period fl; username := username fl; apiKey := apiKey fl |}.

Definition set_hostname (v : string) (fl : Flags) : Flags :=
  {| groupId := groupId fl; hostname := v; metricName := metricName fl; dbName := dbName fl;
     server := server fl; warning := warning fl; critical := critical fl;
     timeout := timeout fl; maxAge := maxAge fl; granularity := granularity fl;
     period := period fl; username := username fl; apiKey := apiKey fl |}.

Definition set_metricName (v : string) (fl : Flags) : Flags :=
  {| groupId := groupId fl; hostname := hostname fl; metricName := v; dbName := dbName fl;
     server := server fl; warning := warning fl; critical := critical fl;
     timeout := timeout fl; maxAge := maxAge fl; granularity := granularity fl;
     period := period fl; username := username fl; apiKey := apiKey fl |}.

Definition set_dbName (v : string) (fl : Flags) : Flags :=
  {| groupId := groupId fl; hostname := hostname fl; metricName := metricName fl; dbName := v;
     server := server fl; warning := warning fl; critical := critical fl;
     timeout := timeout fl; maxAge := maxAge fl; granularity := granularity fl;
     period := period fl; username := username fl; apiKey := apiKey fl |}.

Definition set_server (v : string) (fl : Flags) : Flags :=
  {| groupId := groupId fl; hostname := hostname fl; metricName := metricName fl;
     dbName := dbName fl; server := v; warning := warning fl; critical := critical fl;
     timeout := timeout fl; maxAge := maxAge fl; granularity := granularity fl;
     period := period fl; username := username fl; apiKey := apiKey fl |}.

Definition set_warning (v : string) (fl : Flags) : Flags :=
  {| groupId := groupId fl; hostname := hostname fl; metricName := metricName fl;
     dbName := dbName fl; server := server fl; warning := v; critical := critical fl;
     timeout := timeout fl; maxAge := maxAge fl; granularity := granularity fl;
     period := period fl; username := username fl; apiKey := apiKey fl |}.

Definition set_critical (v : string) (fl : Flags) : Flags :=
  {| groupId := groupId fl; hostname := hostname fl; metricName := metricName fl;
     dbName := dbName fl; server := server fl; warning := warning fl; critical := v;
     timeout := timeout fl; maxAge := maxAge fl; granularity := granularity fl;
     period := period fl; username := username fl; apiKey := apiKey fl |}.

Definition set_timeout (n : Z) (fl : Flags) : Flags :=
  {| groupId := groupId fl; hostname := hostname fl; metricName := metricName fl;
     dbName := dbName fl; server := server fl; warning := warning fl; critical := critical fl;
     timeout := n; maxAge := maxAge fl; granularity := granularity fl;
     period := period fl; username := username fl; apiKey := apiKey fl |}.

Definition set_maxAge (n : Z) (fl : Flags) : Flags :=
  {| groupId := groupId fl; hostname := hostname fl; metricName := metricName fl;
     dbName := dbName fl; server := server fl; warning := warning fl; critical := critical fl;
     timeout := timeout fl; maxAge := n; granularity := granularity fl;
     period := period fl; username := username fl; apiKey := apiKey fl |}.

Definition set_granularity (v : string) (fl : Flags) : Flags :=
  {| groupId := groupId fl; hostname := hostname fl; metricName := metricName fl;
     dbName := dbName fl; server := server fl; warning := warning fl; critical := critical fl;
     timeout := timeout fl; maxAge := maxAge fl; granularity := v;
     period := period fl; username := username fl; apiKey := apiKey fl |}.

Definition set_period (v : string) (fl : Flags) : Flags :=
  {| groupId := groupId fl; hostname := hostname fl; metricName := metricName fl;
     dbName := dbName fl; server := server fl; warning := warning fl; critical := critical fl;
     timeout := timeout fl; maxAge := maxAge fl; granularity := granularity fl;
     period := v; username := username fl; apiKey := apiKey fl |}.

Definition set_username (v : string) (fl : Flags) : Flags :=
  {| groupId := groupId fl; hostname := hostname fl; metricName := metricName fl;
     dbName := dbName fl; server := server fl; warning := warning fl; critical := critical fl;
     timeout := timeout fl; maxAge := maxAge fl; granularity := granularity fl;
     period := period fl; username := v; apiKey := apiKey fl |}.

Definition set_apiKey (v : string) (fl : Flags) : Flags :=
  {| groupId := groupId fl; hostname := hostname fl; metricName := metricName fl;
     dbName := dbName fl; server := server fl; warning := warning fl; critical := critical fl;
     timeout := timeout fl; maxAge := maxAge fl; granularity := granularity fl;
     period := period fl; username := username fl; apiKey := v |}.

(** The flag variables before [setupFlags]: the zero values of Go. *)
Definition zeroFlags : Flags :=
  {| groupId := ""; hostname := ""; metricName := ""; dbName := ""; server := "";
     warning := ""; critical := ""; timeout := 0; maxAge := 0; granularity := "";
     period := ""; username := ""; apiKey := "" |}.

(** The flags [setupFlags] registers, in its order. *)
Definition CommandLine : list (flag.Flag Flags) :=
  [ flag.StringVar set_groupId "groupid" groupIdDefault groupIdUsage;
    flag.StringVar set_groupId "g" groupIdDefault groupIdUsage;
    flag.StringVar set_hostname "hostname" hostnameDefault hostnameUsage;
    flag.StringVar set_hostname "H" hostnameDefault hostnameUsage;
    flag.StringVar set_metricName "metric" metricDefault metricUsage;
    flag.StringVar set_metricName "m" metricDefault metricUsage;
    flag.StringVar set_dbName "dbname" dbNameDefault dbNameUsage;
    flag.StringVar set_dbName "d" dbNameDefault dbNameUsage;
    flag.IntVar set_maxAge "maxage" maxAgeDefault maxAgeUsage;
    flag.IntVar set_maxAge "a" maxAgeDefault maxAgeUsage;
    flag.StringVar set_server "server" serverDefault serverUsage;
    flag.StringVar set_server "s" serverDefault serverUsage;
    flag.StringVar set_warning "warning" warningDefault warningUsage;
    flag.StringVar set_warning "w" warningDefault warningUsage;
    flag.StringVar set_critical "critical" criticalDefault criticalUsage;
    flag.StringVar set_critical "c" criticalDefault criticalUsage;
    flag.IntVar set_timeout "timeout" timeoutDefault timeoutUsage;
    flag.IntVar set_timeout "t" timeoutDefault timeoutUsage;
    flag.StringVar set_granularity "granularity" granularityDefault granularityUsage;
    flag.StringVar set_granularity "r" granularityDefault granularityUsage;
    flag.StringVar set_period "period" periodDefault periodUsage;
    flag.StringVar set_period "p" periodDefault periodUsage;
    flag.StringVar set_username "username" usernameDefault usernameUsage;
    flag.StringVar set_username "u" usernameDefault usernameUsage;
    flag.StringVar set_apiKey "apikey" apiKeyDefault usernameUsage;
    flag.StringVar set_apiKey "k" apiKeyDefault apiKeyUsage ].

(** [setupFlags()] on the arguments of the command line: the
    registrations, then [flag.Parse()].  (The function it assigns to
    [flag.Usage] is [flag_Usage] above.) *)
Definition setupFlags (args : list string) : flag.Outcome Flags :=
  flag.Parse CommandLine (flag.registered CommandLine zeroFlags) args.

End CommandLine.

(** ** A concrete environment: IEEE 754 double precision *)
Module binary64.

Definition prec : Z := 53.
Definition emax : Z := 1024.

(** [float64(n)] for an integer [n], rounded to nearest even. *)
Definition of_Z (n : Z) : spec_float := binary_normalize prec emax n 0 false.

Definition add : spec_float -> spec_float -> spec_float := SFadd prec emax.
Definition div : spec_float -> spec_float -> spec_float := SFdiv prec emax.

(** [sec := d / Second; nsec := d % Second;
     return float64(sec) + float64(nsec)/1e9] *)
Definition Seconds (d : Duration) : spec_float :=
  add (of_Z (Z.quot d 1000000000))
      (div (of_Z (Z.rem d 1000000000)) (of_Z 1000000000)).

(** [int(f)]: the fraction is discarded.  Outside the range of [int]
    (64 bits) and for a NaN the language leaves the result to the
    implementation; amd64 gives the least [int]. *)
Definition to_int (f : spec_float) : Z :=
  match f with
  | S754_zero _ => 0
  | S754_finite s m e =>
      let t := if 0 <=? e then Z.pos m * 2 ^ e else Z.pos m / 2 ^ (- e) in
      let v := if s then - t else t in
      if (- 2 ^ 63 <=? v) && (v <? 2 ^ 63) then v else - 2 ^ 63
  | _ => - 2 ^ 63
  end.

(** The value [(-1)^neg * m * 10^k], correctly rounded; [None] when it
    is too large for a [float64]. *)
Definition of_decimal (neg : bool) (m k : Z) : option spec_float :=
  let digits := Z.of_nat (String.length (NilZero.string_of_int (Z.to_int m))) in
  let f :=
    if m =? 0 then S754_zero neg
    else if 400 <? digits + k then S754_infinity neg
    else if digits + k <? - 400 then S754_zero neg
    else if 0 <=? k then binary_normalize prec emax ((if neg then - m else m) * 10 ^ k) 0 false
    else
      match m, 10 ^ (- k) with
      | Z.pos pm, Z.pos pd => SFdiv prec emax (S754_finite neg pm 0) (S754_finite false pd 0)
      | _, _ => S754_nan
      end in
  match f with
  | S754_infinity _ => None
  | _ => Some f
  end.

(** *** Shortest decimal that reads back as the same [float64] *)

Definition ndigits (n : Z) : Z :=
  Z.of_nat (String.length (NilZero.string_of_int (Z.to_int n))).

(** For [num/den > 0], the [p] with [10^(p-1) <= num/den < 10^p]. *)
Definition decimal_point (num den : Z) : Z :=
  let est := ndigits num - ndigits den in
  if (if 0 <=? est then den * 10 ^ est <=? num else den <=? num * 10 ^ (- est))
  then est + 1 else est.

(** Drop the zeros that end the digits of [d], counting them. *)
Fixpoint strip (fuel : nat) (d k : Z) : Z * Z :=
  match fuel with
  | O => (d, k)
  | S n => if (0 <? d) && (d mod 10 =? 0) then strip n (d / 10) (k + 1) else (d, k)
  end.

(** The digits [d] and the exponent [k] of the shortest [d * 10^k] that
    rounds to [m * 2^e], the closest such one; tried with 1, 2, ...
    digits. *)
Fixpoint shortest (fuel : nat) (n : Z) (m e : Z) : Z * Z :=
  let E := e - 2 in
  let scale := 2 ^ (Z.max E 0) in
  let D := 2 ^ (Z.max (- E) 0) in
  let boundary := (m =? 2 ^ 52) && (- 1074 <? e) in
  let X := 4 * m * scale in
  let XU := (4 * m + 2) * scale in
  let XL := (if boundary then 4 * m - 1 else 4 * m - 2) * scale in
  let p := decimal_point X D in
  let k := p - n in
  let cd := 10 ^ (Z.max (- k) 0) in
  let cn (d : Z) := d * 10 ^ (Z.max k 0) in
  let lo := (X * cd) / (D * 10 ^ (Z.max k 0)) in
  let hi := lo + 1 in
  let inside (d : Z) :=
    if Z.even m then (XL * cd <=? cn d * D) && (cn d * D <=? XU * cd)
    else (XL * cd <? cn d * D) && (cn d * D <? XU * cd) in
  let pick :=
    match inside lo, inside hi with
    | true, false => Some lo
    | false, true => Some hi
    | true, true =>
        match (cn lo + cn hi) * D ?= 2 * X * cd with
        | Lt => Some hi
        | Gt => Some lo
        | Eq => Some (if Z.even lo then lo else hi)
        end
    | false, false => None
    end in
  match pick, fuel with
  | Some d, _ => strip 400 d k
  | None, S fuel' => shortest fuel' (n + 1) m e
  | None, O => strip 400 lo k
  end.

Fixpoint zeros (n : nat) : string :=
  match n with
  | O => EmptyString
  | S k => String "0" (zeros k)
  end.

Definition itoa (n : Z) : string := NilZero.string_of_int (Z.to_int n).

(** [%e] with all the digits [ds], the first of which has weight
    [10^(dp-1)]. *)
Definition fmtE (ds : string) (dp : Z) : string :=
  let exp := dp - 1 in
  let mant :=
    match ds with
    | String c EmptyString => ds
    | String c rest => String c (String "." rest)
    | EmptyString => "0"
    end in
  mant ++ "e" ++ (if exp <? 0 then "-" else "+")
       ++ (if Z.abs exp <? 10 then "0" else "") ++ itoa (Z.abs exp).

(** [%f] with as many decimals as the digits need. *)
Definition fmtF (ds : string) (dp : Z) : string :=
  let nd := Z.of_nat (String.length ds) in
  if dp <=? 0 then "0." ++ zeros (Z.to_nat (- dp)) ++ ds
  else if nd <=? dp then ds ++ zeros (Z.to_nat (dp - nd))
  else substring 0 (Z.to_nat dp) ds ++ "." ++ json.drop (Z.to_nat dp) ds.

(** [strconv.FormatFloat(f, 'g', -1, 64)], which is [%v]. *)
Definition FormatFloat (f : spec_float) : string :=
  match f with
  | S754_zero s => if s then "-0" else "0"
  | S754_infinity s => if s then "-Inf" else "+Inf"
  | S754_nan => "NaN"
  | S754_finite s m e =>
      let (d, k) := shortest 17 1 (Z.pos m) e in
      let ds := itoa d in
      let dp := Z.of_nat (String.length ds) + k in
      (if s then "-" else "")
        ++ (if (dp - 1 <? - 4) || (6 <=? dp - 1) then fmtE ds dp else fmtF ds dp)
  end.

End binary64.

(** ** A concrete environment: [strconv], [fmt], the range parser, [./model] *)
Module env.

(** *** [strconv.ParseFloat(s, 64)] on decimal input *)

Definition lower (c : ascii) : ascii :=
  if between 65 90 c then chr (code c + 32) else c.

Fixpoint ToLower (s : string) : string :=
  match s with
  | EmptyString => EmptyString
  | String c r => String (lower c) (ToLower r)
  end.

(** The number a run of decimal digits writes. *)
Fixpoint atoi (s : string) (acc : Z) : Z :=
  match s with
  | EmptyString => acc
  | String c r => atoi r (acc * 10 + (code c - 48))
  end.

Definition syntaxError (s : string) : error :=
  "strconv.ParseFloat: parsing " ++ String json.quote s ++ String json.quote ": invalid syntax".

Definition rangeError (s : string) : error :=
  "strconv.ParseFloat: parsing " ++ String json.quote s ++ String json.quote ": value out of range".

(** Decimal mantissa with an optional point and an optional decimal
    exponent, [inf], [infinity] and [nan]; the value is rounded to the
    nearest [float64].  Hexadecimal input is not part of this
    environment and is answered as a syntax error. *)
Definition ParseFloat (s : string) : result spec_float :=
  let '(neg, signed, s1) :=
    match s with
    | String "+" r => (false, true, r)
    | String "-" r => (true, true, r)
    | _ => (false, false, s)
    end in
  if String.eqb (ToLower s1) "inf" || String.eqb (ToLower s1) "infinity"
  then Ok (S754_infinity neg)
  else if negb signed && String.eqb (ToLower s1) "nan" then Ok S754_nan
  else
    let (ip, r1) := json.digits s1 in
    let (fp, r2) :=
      match r1 with
      | String "." r => json.digits r
      | _ => (EmptyString, r1)
      end in
    let exp :=
      match r2 with
      | EmptyString => Some 0
      | String c r3 =>
          if Ascii.eqb (lower c) "e" then
            let (eneg, r4) :=
              match r3 with
              | String "+" r => (false, r)
              | String "-" r => (true, r)
              | _ => (false, r3)
              end in
            match json.digits r4 with
            | (String d ds, EmptyString) =>
                Some (if eneg then - atoi (String d ds) 0 else atoi (String d ds) 0)
            | _ => None
            end
          else None
      end in
    match ip ++ fp, exp with
    | String _ _ as mant, Some e =>
        match binary64.of_decimal neg (atoi mant 0) (e - Z.of_nat (String.length fp)) with
        | Some f => Ok f
        | None => Err (rangeError s)
        end
    | _, _ => Err (syntaxError s)
    end.

(** *** [fmt.Sprintf] beyond [%v] *)

Definition typeName (a : operand spec_float) : string :=
  match a with
  | OString _ => "string"
  | OInt _ => "int"
  | OFloat _ => "float64"
  | OError _ => "*errors.errorString"
  | OValue GNil => "<nil>"
  | OValue (GBool _) => "bool"
  | OValue (GFloat _) => "float64"
  | OValue (GString _) => "string"
  | OValue (GSlice _) => "[]interface {}"
  | OValue (GMap _) => "map[string]interface {}"
  end.

Definition fmt_v : operand spec_float -> string := fmt.fmt_v binary64.FormatFloat.

Definition extra (args : list (operand spec_float)) : string :=
  match args with
  | [] => ""
  | _ => "%!(EXTRA " ++ strings.Join (map (fun a => typeName a ++ "=" ++ fmt_v a) args) ", " ++ ")"
  end.

(** One directive with verb [c] given its operand: [%v] of anything,
    [%s] of a string or an error, [%d] of an integer; any other pairing
    is reported the way [fmt] reports a bad verb.  Flags, widths and
    precisions are not part of this environment. *)
Definition directive (c : ascii) (a : operand spec_float) : string :=
  match a with
  | OValue GNil => "%!" ++ String c "(<nil>)"
  | _ =>
      let ok :=
        Ascii.eqb c "v"
        || (Ascii.eqb c "s" && match a with OString _ | OError _ | OValue (GString _) => true | _ => false end)
        || (Ascii.eqb c "d" && match a with OInt _ => true | _ => false end) in
      if ok then fmt_v a
      else "%!" ++ String c ("(" ++ typeName a ++ "=" ++ fmt_v a ++ ")")
  end.

(** [doPrintf]: missing operands, a format that ends in [%] and
    operands left over are reported in the output. *)
Fixpoint doPrintf (format : string) (args : list (operand spec_float)) : string :=
  match format with
  | EmptyString => extra args
  | String "%" EmptyString => "%!(NOVERB)" ++ extra args
  | String "%" (String "%" rest) => String "%" (doPrintf rest args)
  | String "%" (String c rest) =>
      match args with
      | [] => "%!" ++ String c "(MISSING)" ++ doPrintf rest []
      | a :: args' =>
          (if Ascii.eqb c "v" then match a with OValue GNil => "<nil>" | _ => fmt_v a end
           else directive c a) ++ doPrintf rest args'
      end
  | String c rest => String c (doPrintf rest args)
  end.

#[export] Instance std : GoStd :=
  Build_GoStd spec_float binary64.Seconds binary64.to_int binary64.FormatFloat
    ParseFloat doPrintf.

(** *** Threshold ranges

    The dependency is not part of the sources at hand.  Its parser is
    written here after section 4.2 of the specification and the Nagios
    threshold format: [@] inverts the sense, [start:end] with [~] for
    an unbounded start, a missing end is unbounded, a bare value means
    [0:value]; the start may not exceed the end. *)

Record Range : Type := { Start : spec_float; End : spec_float; AlertOnInside : bool }.

Definition inCutset (c : ascii) : bool :=
  Ascii.eqb c " " || (code c =? 10) || (code c =? 13).

Fixpoint TrimLeft (s : string) : string :=
  match s with
  | String c r => if inCutset c then TrimLeft r else s
  | EmptyString => s
  end.

Fixpoint TrimRight (s : string) : string :=
  match s with
  | EmptyString => EmptyString
  | String c r =>
      match TrimRight r with
      | EmptyString => if inCutset c then EmptyString else String c EmptyString
      | r' => String c r'
      end
  end.

(** [strings.Index(s, ":")] *)
Fixpoint IndexColon (s : string) : option nat :=
  match s with
  | EmptyString => None
  | String c r => if Ascii.eqb c ":" then Some O else option_map S (IndexColon r)
  end.

Definition ParseRange (rangeStr : string) : result Range :=
  match TrimRight (TrimLeft rangeStr) with
  | EmptyString => Err "runtime error: index out of range"
  | String c0 r0 as trimmed =>
      let (inside, rangeStr) := if Ascii.eqb c0 "@" then (true, r0) else (false, trimmed) in
      let lower :=
        match IndexColon rangeStr with
        | Some endPos =>
            match rangeStr with
            | String "~" _ => Ok (S754_infinity true, json.drop (S endPos) rangeStr)
            | _ =>
                match ParseFloat (substring 0 endPos rangeStr) with
                | Ok min => Ok (min, json.drop (S endPos) rangeStr)
                | Err err => Err (Sprintf "failed to parse lower limit: %v" [OError err])
                end
            end
        | None => Ok (S754_zero false, rangeStr)
        end in
      match lower with
      | Err err => Err err
      | Ok (start, rangeStr) =>
          let upper :=
            match rangeStr with
            | EmptyString => Ok (S754_infinity false)
            | _ =>
                match ParseFloat rangeStr with
                | Ok max => Ok max
                | Err err => Err (Sprintf "failed to parse upper limit: %v" [OError err])
                end
            end in
          match upper with
          | Err err => Err err
          | Ok stop =>
              if SFltb stop start then Err "Invalid range definition. min <= max violated!"
              else Ok {| Start := start; End := stop; AlertOnInside := inside |}
          end
      end
  end.

(** Ranges are inclusive; outside a range alerts, inside an inverted
    one does. *)
Definition Range_Check (r : Range) (value : spec_float) : bool :=
  if SFleb (Start r) value && SFleb value (End r) then AlertOnInside r
  else negb (AlertOnInside r).

#[export] Instance nagios : Nagios := Build_Nagios std Range ParseRange Range_Check.

End env.

(** ** A concrete [./model]

    The package is not part of the sources at hand.  What follows decodes
    the resources of the service's public API as that API documents them. *)
Module apimodel.
Import env.

Definition isLeap (y : Z) : bool :=
  (y mod 4 =? 0) && (negb (y mod 100 =? 0) || (y mod 400 =? 0)).

Definition daysIn (y m : Z) : Z :=
  if m =? 2 then (if isLeap y then 29 else 28)
  else if (m =? 4) || (m =? 6) || (m =? 9) || (m =? 11) then 30
  else 31.

(** Days from 1970-01-01 to the given day of the proleptic Gregorian
    calendar. *)
Definition daysFromCivil (y m d : Z) : Z :=
  let y' := if m <=? 2 then y - 1 else y in
  let era := y' / 400 in
  let yoe := y' - era * 400 in
  let doy := (153 * (if 2 <? m then m - 3 else m + 9) + 2) / 5 + d - 1 in
  let doe := yoe * 365 + yoe / 4 - yoe / 100 + doy in
  era * 146097 + doe - 719468.

(** A run of exactly [n] digits, as a number. *)
Definition fixed (n : nat) (s : string) : option (Z * string) :=
  let d := substring 0 n s in
  if Nat.eqb (String.length d) n && Nat.eqb (String.length (fst (json.digits d))) n
  then Some (atoi d 0, json.drop n s) else None.

Definition expect (c : ascii) (s : string) : option string :=
  match s with
  | String c' r => if Ascii.eqb c c' then Some r else None
  | EmptyString => None
  end.

(** A UTC timestamp written [2006-01-02T15:04:05Z], in nanoseconds since
    1970-01-01T00:00:00Z. *)
Definition parseTime (s : string) : option Time :=
  match fixed 4 s with
  | Some (y, r) =>
  match expect "-" r with Some r =>
  match fixed 2 r with Some (mo, r) =>
  match expect "-" r with Some r =>
  match fixed 2 r with Some (d, r) =>
  match expect "T" r with Some r =>
  match fixed 2 r with Some (h, r) =>
  match expect ":" r with Some r =>
  match fixed 2 r with Some (mi, r) =>
  match expect ":" r with Some r =>
  match fixed 2 r with Some (sec, r) =>
    if String.eqb r "Z" && (1 <=? mo) && (mo <=? 12) && (1 <=? d) && (d <=? daysIn y mo)
       && (h <? 24) && (mi <? 60) && (sec <? 60)
    then Some ((((daysFromCivil y mo d * 24 + h) * 60 + mi) * 60 + sec) * 1000000000)
    else None
  | None => None end | None => None end | None => None end | None => None end
  | None => None end | None => None end | None => None end | None => None end
  | None => None end | None => None end
  | None => None
  end.

(** The zero [time.Time], 0001-01-01T00:00:00Z. *)
Definition zeroTime : Time := daysFromCivil 1 1 1 * 86400 * 1000000000.

Definition syntaxError : error := "invalid JSON text".
Definition typeError (what : string) : error := "json: cannot unmarshal " ++ what.

Definition stringField (m : list (string * gvalue spec_float)) (k : string) : result string :=
  match index m k with
  | GNil => Ok ""
  | GString s => Ok s
  | _ => Err (typeError k)
  end.

Definition timeField (m : list (string * gvalue spec_float)) (k : string) : result Time :=
  match index m k with
  | GNil => Ok zeroTime
  | GString s =>
      match parseTime s with
      | Some t => Ok t
      | None => Err ("parsing time " ++ s)
      end
  | _ => Err (typeError k)
  end.

Definition hostOf (v : gvalue spec_float) : result Host :=
  match v with
  | GMap m =>
      match stringField m "id", timeField m "lastPing" with
      | Ok id, Ok t => Ok {| Id := id; LastPing := t |}
      | Err e, _ => Err e
      | _, Err e => Err e
      end
  | GNil => Ok {| Id := ""; LastPing := zeroTime |}
  | _ => Err (typeError "Host")
  end.

Definition dataPointOf (v : gvalue spec_float) : result (DataPoint spec_float) :=
  match v with
  | GMap m =>
      match timeField m "timestamp", index m "value" with
      | Ok t, GFloat f => Ok {| Timestamp := t; Value := f |}
      | Ok t, GNil => Ok {| Timestamp := t; Value := S754_zero false |}
      | Ok _, _ => Err (typeError "value")
      | Err e, _ => Err e
      end
  | GNil => Ok {| Timestamp := zeroTime; Value := S754_zero false |}
  | _ => Err (typeError "DataPoint")
  end.

Fixpoint each {A : Type} (f : gvalue spec_float -> result A) (l : list (gvalue spec_float))
    : result (list A) :=
  match l with
  | [] => Ok []
  | v :: l' =>
      match f v, each f l' with
      | Ok x, Ok xs => Ok (x :: xs)
      | Err e, _ => Err e
      | _, Err e => Err e
      end
  end.

Definition listField {A : Type} (f : gvalue spec_float -> result A)
    (m : list (string * gvalue spec_float)) (k : string) : result (list A) :=
  match index m k with
  | GNil => Ok []
  | GSlice l => each f l
  | _ => Err (typeError k)
  end.

Definition metricOf (v : gvalue spec_float) : result (Metric spec_float) :=
  match v with
  | GMap m =>
      match stringField m "metricName", listField dataPointOf m "dataPoints" with
      | Ok name, Ok dps => Ok {| MetricName := name; DataPoints := dps |}
      | Err e, _ => Err e
      | _, Err e => Err e
      end
  | GNil => Ok {| MetricName := ""; DataPoints := [] |}
  | _ => Err (typeError "Metric")
  end.

Definition hostsOf (v : gvalue spec_float) : result (list Host) :=
  match v with
  | GMap m => listField hostOf m "results"
  | GNil => Ok []
  | _ => Err (typeError "HostsResponse")
  end.

Definition Unmarshal {A : Type} (f : gvalue spec_float -> result A) (data : string) : result A :=
  match json.parse data with
  | None => Err syntaxError
  | Some v =>
      match toInterface v with
      | Some g => f g
      | None => Err (typeError "number")
      end
  end.

(** Modelled from the spec: [ToStringLastDataPoint] is not part of the
    sources at hand.  Per section 4.3 it is a fixed summary combining the
    metric name with the value and the timestamp of the last data point;
    here the timestamp is given in seconds. *)
Definition ToStringLastDataPoint (m : Metric spec_float) : string :=
  match rev (DataPoints m) with
  | [] => MetricName m
  | d :: _ =>
      Sprintf "%v: %v at %v"
        [OString (MetricName m); OFloat (Value d); OInt (Timestamp d / 1000000000)]
  end.

#[export] Instance model : ModelPkg :=
  Build_ModelPkg std (Unmarshal hostOf) (Unmarshal hostsOf) (Unmarshal metricOf)
    ToStringLastDataPoint.

End apimodel.

(** ** Runs of the program in the concrete environment *)
Module scenario.
Import env apimodel.

(** [q s] is [s] between double quotes. *)
Definition q (s : string) : string := String json.quote (s ++ String json.quote EmptyString).

(** 2015-06-01T12:00:00Z *)
Definition noon : Time := 1433160000 * 1000000000.

Definition hostBody (lastPing : string) : string :=
  "{" ++ q "id" ++ ":" ++ q "56e9378f" ++ "," ++ q "hostname" ++ ":" ++ q "db1" ++ ","
      ++ q "lastPing" ++ ":" ++ q lastPing ++ "}".

Definition point (timestamp value : string) : string :=
  "{" ++ q "timestamp" ++ ":" ++ q timestamp ++ "," ++ q "value" ++ ":" ++ value ++ "}".

Definition metricBody (points : list string) : string :=
  "{" ++ q "metricName" ++ ":" ++ q "OPCOUNTERS_CMD" ++ ","
      ++ q "dataPoints" ++ ":[" ++ strings.Join points "," ++ "]}".

Definition errorBody : string :=
  "{" ++ q "detail" ++ ":" ++ q "No host db9:27017 exists in group 5a0a." ++ ","
      ++ q "error" ++ ":404," ++ q "reason" ++ ":" ++ q "Not Found" ++ "}".

Definition hostRequest : string :=
  "https://mms.mongodb.com/api/public/v1.0/groups/5a0a/hosts/byName/db1:27017".
Definition metricRequest : string :=
  "https://mms.mongodb.com/api/public/v1.0/groups/5a0a/hosts/56e9378f/metrics/OPCOUNTERS_CMD?granularity=MINUTE&period=PT1H".
Definition dbMetricRequest : string :=
  "https://mms.mongodb.com/api/public/v1.0/groups/5a0a/hosts/56e9378f/metrics/DB_DATA_SIZE/my%20db%2Fa?granularity=MINUTE&period=PT1H".

(** A service that knows the host [db1:27017] of group [5a0a], last seen
    at [lastPing], and answers every metric request with [metric];
    anything else is not found. *)
Definition service (lastPing metric : string) (uri : string) : HttpReply :=
  if String.eqb uri hostRequest then Response 200 (hostBody lastPing)
  else if String.eqb uri metricRequest || String.eqb uri dbMetricRequest then Response 200 metric
  else Response 404 errorBody.

Definition world (lastPing metric : string) : World :=
  {| Now := noon; transport_Client := fun _ _ => None; http_Get := service lastPing metric |}.

(** [-g 5a0a -H db1:27017 -c crit -w warn] *)
Definition hostFlags (crit warn : string) : Flags :=
  {| groupId := "5a0a"; hostname := "db1:27017"; metricName := ""; dbName := "";
     server := serverDefault; warning := warn; critical := crit;
     timeout := timeoutDefault; maxAge := maxAgeDefault;
     granularity := granularityDefault; period := periodDefault;
     username := "monitor"; apiKey := "secret" |}.

(** [-g 5a0a -H db1:27017 -m OPCOUNTERS_CMD -c crit -w warn] *)
Definition metricFlags (crit warn : string) : Flags :=
  {| groupId := "5a0a"; hostname := "db1:27017"; metricName := "OPCOUNTERS_CMD"; dbName := "";
     server := serverDefault; warning := warn; critical := crit;
     timeout := timeoutDefault; maxAge := maxAgeDefault;
     granularity := granularityDefault; period := periodDefault;
     username := "monitor"; apiKey := "secret" |}.

(** Last ping 500 seconds before [noon]. *)
Definition pinged500 : string := "2015-06-01T11:51:40Z".

(** One data point, 60 seconds old at [noon], of value 42. *)
Definition fresh42 : string := metricBody [point "2015-06-01T11:59:00Z" "42"].

(** Two data points, the last one 1000 seconds old at [noon]. *)
Definition stale42 : string :=
  metricBody [point "2015-06-01T11:42:20Z" "7"; point "2015-06-01T11:43:20Z" "42"].

Definition noPoints : string := metricBody [].

(** What the bodies above decode to. *)
Definition api : MMSAPI := {| MMSAPI_hostname := serverDefault |}.

Definition host500 : Host := {| Id := "56e9378f"; LastPing := noon - 500 * 1000000000 |}.

Definition point42 (age : Z) : DataPoint spec_float :=
  {| Timestamp := noon - age * 1000000000; Value := binary64.of_Z 42 |}.

Definition freshMetric : Metric spec_float :=
  {| MetricName := "OPCOUNTERS_CMD"; DataPoints := [point42 60] |}.

Definition staleMetric : Metric spec_float :=
  {| MetricName := "OPCOUNTERS_CMD";
     DataPoints := [ {| Timestamp := noon - 1060 * 1000000000; Value := binary64.of_Z 7 |};
                     point42 1000 ] |}.

Definition emptyMetric : Metric spec_float :=
  {| MetricName := "OPCOUNTERS_CMD"; DataPoints := [] |}.

(** The range [lo:hi], and its inverted form. *)
Definition range (lo hi : Z) (inside : bool) : Range :=
  {| Start := binary64.of_Z lo; End := binary64.of_Z hi; AlertOnInside := inside |}.

(** The error of parsing ["abc"] as a range. *)
Definition abcError : error :=
  "failed to parse upper limit: strconv.ParseFloat: parsing " ++ q "abc" ++ ": invalid syntax".

(** [-g 5a0a -H db9:27017], a host the service does not know. *)
Definition unknownHostFlags : Flags :=
  {| groupId := "5a0a"; hostname := "db9:27017"; metricName := ""; dbName := "";
     server := serverDefault; warning := warningDefault; critical := criticalDefault;
     timeout := timeoutDefault; maxAge := maxAgeDefault;
     granularity := granularityDefault; period := periodDefault;
     username := "monitor"; apiKey := "secret" |}.

Definition malformed (spec : string) : bool :=
  match ParseRange spec with
  | Err _ => true
  | Ok _ => false
  end.

End scenario.

(** ** More of the concrete environment: [strconv.ParseInt], failures *)
Module cases.
Import env apimodel scenario.

Definition syntaxError (s : string) : error :=
  "strconv.ParseInt: parsing " ++ String json.quote s ++ String json.quote ": invalid syntax".

Definition rangeError (s : string) : error :=
  "strconv.ParseInt: parsing " ++ String json.quote s
    ++ String json.quote ": value out of range".

(** Decimal numerals: an optional sign, then digits that do not start
    with [0] unless [0] is all there is.  A base prefix and underscores
    are not part of this environment and are answered as a syntax
    error. *)
Definition ParseInt (s : string) : result Z :=
  let (neg, s1) :=
    match s with
    | String "+" r => (false, r)
    | String "-" r => (true, r)
    | _ => (false, s)
    end in
  match json.digits s1 with
  | (String d ds, EmptyString) =>
      if Ascii.eqb d "0" && negb (String.eqb ds "") then Err (syntaxError s)
      else
        let n := if neg then - atoi s1 0 else atoi s1 0 in
        if (n <? - 2 ^ 63) || (2 ^ 63 - 1 <? n) then Err (rangeError s) else Ok n
  | _ => Err (syntaxError s)
  end.

#[export] Instance conv : Strconv := Build_Strconv ParseInt.

(** The transport cannot make a client. *)
Definition noClient : World :=
  {| Now := noon;
     transport_Client := fun _ _ => Some "digest: no credentials";
     http_Get := service pinged500 fresh42 |}.

(** A proxy answers every request with a page of its own. *)
Definition proxied : World :=
  {| Now := noon; transport_Client := fun _ _ => None;
     http_Get := fun _ => Response 200 "<html>" |}.

(** Every request is answered with status 204 and no body. *)
Definition noContent : World :=
  {| Now := noon; transport_Client := fun _ _ => None;
     http_Get := fun _ => Response 204 "" |}.

(** Two data points, the last one 60 seconds old at [noon]. *)
Definition twoPoints : Metric spec_float :=
  {| MetricName := "OPCOUNTERS_CMD";
     DataPoints := [ {| Timestamp := noon - 120 * 1000000000; Value := binary64.of_Z 7 |};
                     point42 60 ] |}.

(** [-H db1:27017 -a 600]: no group. *)
Definition hostOnly : list string := ["-H"; "db1:27017"; "-a"; "600"].

End cases.

(** ** Vocabulary of the statements *)
Section Vocabulary.
Context {std : GoStd} {nagios : Nagios} {model : ModelPkg}.

(** [metric.DataPoints[len(metric.DataPoints)-1]], when there is one. *)
Definition lastDataPoint (metric : Metric float64) : option (DataPoint float64) :=
  match DataPoints metric with
  | [] => None
  | first :: rest => Some (last rest first)
  end.

(** [age.Seconds()] for [age := time.Since(t)]. *)
Definition ageOf (w : World) (t : Time) : float64 := Seconds (Since w t).

(** [int(age.Seconds())]: the age of [t], in whole seconds. *)
Definition ageSeconds (w : World) (t : Time) : Z := int_of_float64 (ageOf w t).

(** The message of the three outcomes of the liveness check. *)
Definition pingMessage (age : float64) : string :=
  Sprintf ("Last ping was " ++ FormatFloat age ++ " seconds ago") [].

(** The message of the three outcomes of the metric check. *)
Definition summary (metric : Metric float64) : string :=
  Sprintf (ToStringLastDataPoint metric) [].

(** The event of a result. *)
Definition verdict (st : Status) (msg : string) : Event float64 Range :=
  EvAddResult {| status := st; message := msg |}.

(** The error a call failed with, for the calls that can fail: the
    creation of the client, a request (in transport, in reading the body,
    or by a status other than 200, whose error is what [handleError] makes
    of the body), the decoding of a body and the parsing of a threshold
    string. *)
Definition failed (e : Event float64 Range) : option error :=
  match e with
  | EvClient _ _ (Some err) => Some err
  | EvGet _ (GetFailed err) => Some err
  | EvGet _ (ReadFailed err) => Some err
  | EvGet _ (Response code body) => if code =? 200 then None else Some (handleError code body)
  | EvUnmarshal _ (Some err) => Some err
  | EvParseRange _ (Err err) => Some err
  | _ => None
  end.

(** Every failed call of the trace is followed by one UNKNOWN result that
    carries its error, then by [Finish], then by nothing. *)
Fixpoint failures_end (t : list (Event float64 Range)) : Prop :=
  match t with
  | [] => True
  | e :: post =>
      (forall err, failed e = Some err ->
                   exists a b, post = [verdict UNKNOWN (a ++ err ++ b); EvFinish])
      /\ failures_end post
  end.

(** The trace of the two threshold tests on [v], the results carrying
    [msg]. *)
Definition thresholds (fl : Flags) (v : float64) (msg : string) : list (Event float64 Range) :=
  EvParseRange (critical fl) (ParseRange (critical fl)) ::
  match ParseRange (critical fl) with
  | Err e => [verdict UNKNOWN ("Error parsing critical range. Error: " ++ e)]
  | Ok r =>
      EvCheck r v (Range_Check r v) ::
      if Range_Check r v then [verdict CRITICAL msg]
      else
        EvParseRange (warning fl) (ParseRange (warning fl)) ::
        match ParseRange (warning fl) with
        | Err e => [verdict UNKNOWN ("Error parsing warning range. Error: " ++ e)]
        | Ok r' =>
            [EvCheck r' v (Range_Check r' v);
             verdict (if Range_Check r' v then WARNING else OK) msg]
        end
  end.

(** The fifteen pieces of the usage message, one for each [Fprintf]. *)
Definition usageLines : list string :=
  [ "Usage: check_mongodb_mms  -g groupid -H hostname [-m metric] [-d dbname] [-a age] [-s server] [-t timeout] [-w warning_level] [-c critica_level] [-r granularity] [-p period] [-u username] [-k apikey]" ++ nl;
    "     -g, --groupid  The MMS/Ops Manager group ID that contains the server" ++ nl;
    "     -H, --hostname hostname:port of the mongod/s to check" ++ nl;
    "     -m, --metric (no metric means check last ping age in seconds) metric to query" ++ nl;
    "     -d, --dbname (default ) database name for DB_ metrics" ++ nl;
    "     -a, --maxage (default 360) the maximum number of seconds old a metric before it is considerd stale" ++ nl;
    "     -s, --server (default: https://mms.mongodb.com) hostname and port of the MMS/Ops Manager service" ++ nl;
    "     -w, --warning (default: ~:) warning threshold for given metric" ++ nl;
    "     -c, --critical (default: ~:) critical threshold for given metric" ++ nl;
    "     -t, --timeout (default: 10) connection timeout connecting MMS/Ops Manager service" ++ nl;
    "     -r, --granularity (default: MINUTE) the size of the epoch. Acceptable values are MINUTE HOUR DAY" ++ nl;
    "     -p, --period (default: 1H) the ISO-8601 formatted time period that specifies how far back in the past to query." ++ nl;
    "     -u, --username (default: ) the username for auth" ++ nl;
    "     -k, --apiKey (default: ) the api key for the user" ++ nl;
    nl ++ "     -w and -c support the standard nagios threshold formats." ++ nl
       ++ "     See https://nagios-plugins.org/doc/guidelines.html#THRESHOLDFORMAT for more details."
       ++ nl ].

(** The text of the usage message. *)
Definition Usage : string := String.concat "" usageLines.

(** The request of the host named [h] in group [g]. *)
Definition hostURI (fl : Flags) : string :=
  server fl ++ "/api/public/v1.0/groups/" ++ groupId fl ++ "/hosts/byName/" ++ hostname fl.

(** The request that opens the metric check. *)
Definition metricURI (fl : Flags) (api : MMSAPI) (host : Host) : string :=
  MMSAPI_hostname api ++ "/api/public/v1.0/groups/" ++ groupId fl ++ "/hosts/" ++ Id host
    ++ "/metrics/" ++ metricName fl
    ++ (if String.eqb (dbName fl) "" then "" else "/" ++ escape (dbName fl))
    ++ "?granularity=" ++ granularity fl ++ "&period=PT" ++ period fl.

(** Percent-encoding of one byte. *)
Definition pct (c : ascii) : string :=
  String "%" (String (url.upperhex (Z.shiftr (code c) 4))
                (String (url.upperhex (Z.land (code c) 15)) EmptyString)).

(** [c] occurs in [s]. *)
Fixpoint occurs (c : ascii) (s : string) : bool :=
  match s with
  | EmptyString => false
  | String c' r => Ascii.eqb c c' || occurs c r
  end.

(** The statuses of the results of a trace, in order. *)
Definition statuses (t : list (Event float64 Range)) : list Status := map status (results t).

(** [t] prints nothing and adds one result, as its last event. *)
Definition ends_in_result (t : list (Event float64 Range)) : Prop :=
  exists pre r, t = (pre ++ [EvAddResult r])%list /\ results pre = [] /\ stdout pre = "".

(** Every byte of [s] is one that [escape] keeps. *)
Fixpoint unreserved (s : string) : bool :=
  match s with
  | EmptyString => true
  | String c r => negb (url.shouldEscape c) && unreserved r
  end.

(** The number of bytes of [s] that [escape] rewrites. *)
Fixpoint rewritten (s : string) : nat :=
  match s with
  | EmptyString => 0%nat
  | String c r => ((if url.shouldEscape c then 1 else 0) + rewritten r)%nat
  end.

(** The long and the short name of each flag variable, in the order of
    [setupFlags]. *)
Definition flagNames : list (string * string) :=
  [("groupid", "g"); ("hostname", "H"); ("metric", "m"); ("dbname", "d"); ("maxage", "a");
   ("server", "s"); ("warning", "w"); ("critical", "c"); ("timeout", "t");
   ("granularity", "r"); ("period", "p"); ("username", "u"); ("apikey", "k")].

(** The argument [arg] is written as a flag of one of the names [l]. *)
Definition names (l : list string) (arg : string) : bool :=
  match flag.parseArg arg with
  | flag.Named name _ => existsb (String.eqb name) l
  | _ => false
  end.

(** No argument of the command line is written as a flag of one of the
    names [l]. *)
Definition unnamed (l : list string) (args : list string) : bool :=
  forallb (fun a => negb (names l a)) args.

(** What the command line comes to when it is accepted: the flag
    variables and the arguments left over. *)
Definition accepted (o : flag.Outcome Flags) : option (Flags * list string) :=
  match o with
  | flag.Parsed fl rest => Some (fl, rest)
  | flag.Failed _ => None
  end.

End Vocabulary.

(** * Properties *)

Section Properties.
Context {std : GoStd} {nagios : Nagios} {model : ModelPkg}.

Lemma append_empty (s : string) : s ++ "" = s.
Proof. induction s as [|c s IH]; simpl; [reflexivity | now rewrite IH]. Qed.

Lemma append_assoc (a b c : string) : (a ++ b) ++ c = a ++ (b ++ c).
Proof. induction a as [|x a IH]; simpl; [reflexivity | now rewrite IH]. Qed.

(** [Sprintf] on the formats of the program. *)
Ltac sprintf := unfold Sprintf; cbn; rewrite ?append_empty; try reflexivity.

Lemma Sprintf_v1 (a : operand float64) : Sprintf "%v" [a] = fmt.fmt_v FormatFloat a.
Proof. sprintf. Qed.

Lemma Sprintf_critical (e : error) :
  Sprintf "Error parsing critical range. Error: %v" [OError e]
  = "Error parsing critical range. Error: " ++ e.
Proof. sprintf. Qed.

Lemma Sprintf_warning (e : error) :
  Sprintf "Error parsing warning range. Error: %v" [OError e]
  = "Error parsing warning range. Error: " ++ e.
Proof. sprintf. Qed.

Lemma Sprintf_ping (age : float64) :
  Sprintf "Last ping was %v seconds ago" [OFloat age]
  = "Last ping was " ++ FormatFloat age ++ " seconds ago".
Proof. sprintf. Qed.

Lemma Sprintf_nodata (m : string) :
  Sprintf "No data points found for %v" [OString m] = "No data points found for " ++ m.
Proof. sprintf. Qed.

Lemma Sprintf_stale (m : string) (n : Z) :
  Sprintf "Last data point for %v is %v seconds old." [OString m; OInt n]
  = "Last data point for " ++ m ++ " is " ++ NilZero.string_of_int (Z.to_int n)
      ++ " seconds old.".
Proof. sprintf. Qed.

Lemma Sprintf_client (e : error) :
  Sprintf "Failed to create API. Error: %v" [OError e] = "Failed to create API. Error: " ++ e.
Proof. sprintf. Qed.

Lemma Sprintf_get (e : error) :
  Sprintf "Failed to make HTTP request. Error: %v" [OError e]
  = "Failed to make HTTP request. Error: " ++ e.
Proof. sprintf. Qed.

Lemma Sprintf_read (e : error) :
  Sprintf "Failed to read HTTP response body. Error: %v" [OError e]
  = "Failed to read HTTP response body. Error: " ++ e.
Proof. sprintf. Qed.

Lemma Sprintf_decode (e : error) (payload : string) :
  Sprintf "Response did not contain valid JSON. Error: %v, Body: %v" [OError e; OString payload]
  = "Response did not contain valid JSON. Error: " ++ e ++ ", Body: " ++ payload.
Proof. sprintf. Qed.

Lemma Sprintf_uri (h path : string) :
  Sprintf "%v/api/public/v1.0%v" [OString h; OString path] = h ++ "/api/public/v1.0" ++ path.
Proof. sprintf. Qed.

(** *** The liveness check *)

(** One step of a run. *)
Ltac step :=
  cbn [bind ret fst snd call app time_Since nagiosplugin_ParseRange Check NewCheck AddResultf
       AddPerfDatum Finish Fprintf_Stdout os_Exit NewTransport_Client client_Get json_Unmarshal
       negb].

Lemma doHostCheck_trace fl w host :
  fst (doHostCheck fl w host)
  = EvSince (LastPing host) (Since w (LastPing host))
      :: thresholds fl (ageOf w (LastPing host)) (pingMessage (ageOf w (LastPing host))).
Proof.
  unfold doHostCheck, thresholds, pingMessage, ageOf, verdict. step.
  destruct (ParseRange (critical fl)) as [r|e]; step.
  - destruct (Range_Check r _); step.
    + rewrite Sprintf_ping. reflexivity.
    + destruct (ParseRange (warning fl)) as [r'|e']; step.
      * destruct (Range_Check r' _); step; rewrite Sprintf_ping; reflexivity.
      * rewrite Sprintf_warning. reflexivity.
  - rewrite Sprintf_critical. reflexivity.
Qed.

(** *** The metric check *)

Lemma lastDataPoint_cases metric dp :
  lastDataPoint metric = Some dp ->
  exists first rest, DataPoints metric = first :: rest /\ last rest first = dp.
Proof.
  unfold lastDataPoint. destruct (DataPoints metric) as [|first rest]; [discriminate|].
  intros H. injection H as H. eauto.
Qed.

Lemma evalMetric_empty fl w metric :
  DataPoints metric = [] ->
  fst (evalMetric fl w metric)
  = [verdict UNKNOWN ("No data points found for " ++ metricName fl)].
Proof.
  intros H. unfold evalMetric, verdict. rewrite H. step. rewrite Sprintf_nodata. reflexivity.
Qed.

Lemma evalMetric_stale fl w metric dp :
  lastDataPoint metric = Some dp ->
  ageSeconds w (Timestamp dp) > maxAge fl ->
  fst (evalMetric fl w metric)
  = [EvSince (Timestamp dp) (Since w (Timestamp dp));
     verdict CRITICAL
       ("Last data point for " ++ metricName fl ++ " is "
          ++ NilZero.string_of_int (Z.to_int (ageSeconds w (Timestamp dp))) ++ " seconds old.")].
Proof.
  intros Hl Hs. destruct (lastDataPoint_cases _ _ Hl) as (first & rest & Hd & Hlast).
  unfold evalMetric, verdict, ageSeconds, ageOf in *. rewrite Hd, Hlast. step.
  replace (int_of_float64 (Seconds (Since w (Timestamp dp))) >? maxAge fl) with true
    by (symmetry; apply Z.gtb_lt; lia).
  step. rewrite Sprintf_stale. reflexivity.
Qed.

Lemma evalMetric_fresh fl w metric dp :
  lastDataPoint metric = Some dp ->
  ageSeconds w (Timestamp dp) <= maxAge fl ->
  fst (evalMetric fl w metric)
  = EvSince (Timestamp dp) (Since w (Timestamp dp))
      :: EvAddPerfDatum {| label := metricName fl; uom := ""; value := Value dp |}
      :: thresholds fl (Value dp) (summary metric).
Proof.
  intros Hl Hs. destruct (lastDataPoint_cases _ _ Hl) as (first & rest & Hd & Hlast).
  unfold evalMetric, thresholds, summary, verdict, ageSeconds, ageOf in *.
  rewrite Hd, Hlast. step.
  replace (int_of_float64 (Seconds (Since w (Timestamp dp))) >? maxAge fl) with false
    by (symmetry; rewrite Z.gtb_ltb; apply Z.ltb_ge; lia).
  step.
  destruct (ParseRange (critical fl)) as [r|e]; step.
  - destruct (Range_Check r _); step; [reflexivity|].
    destruct (ParseRange (warning fl)) as [r'|e']; step.
    + destruct (Range_Check r' _); reflexivity.
    + rewrite Sprintf_warning. reflexivity.
  - rewrite Sprintf_critical. reflexivity.
Qed.

Lemma doMetricCheck_fetched fl w api host metric :
  snd (fetchMetric fl w api host) = Ok metric ->
  fst (doMetricCheck fl w api host)
  = (fst (fetchMetric fl w api host) ++ fst (evalMetric fl w metric))%list.
Proof. unfold doMetricCheck. step. intros ->. reflexivity. Qed.

Lemma doMetricCheck_failed fl w api host e :
  snd (fetchMetric fl w api host) = Err e ->
  fst (doMetricCheck fl w api host)
  = (fst (fetchMetric fl w api host) ++ [verdict UNKNOWN e])%list.
Proof.
  unfold doMetricCheck, verdict. step. intros ->. step. rewrite Sprintf_v1. reflexivity.
Qed.

(** *** Fetches *)

(** The trace and the value of a fetch, by what the service answers. *)
Lemma fetch_cases {A} (U : string -> result A) w api path :
  let uri := MMSAPI_hostname api ++ "/api/public/v1.0" ++ path in
  fetch U w api path
  = match http_Get w uri with
    | GetFailed err =>
        ([EvGet uri (GetFailed err)], Err ("Failed to make HTTP request. Error: " ++ err))
    | ReadFailed err =>
        ([EvGet uri (ReadFailed err)], Err ("Failed to read HTTP response body. Error: " ++ err))
    | Response code body =>
        if code =? 200 then
          match U body with
          | Ok x => ([EvGet uri (Response code body); EvUnmarshal body None], Ok x)
          | Err err =>
              ([EvGet uri (Response code body); EvUnmarshal body (Some err)],
               Err ("Response did not contain valid JSON. Error: " ++ err ++ ", Body: " ++ body))
          end
        else ([EvGet uri (Response code body)], Err (handleError code body))
    end.
Proof.
  intros uri. unfold fetch, doGet, unMarshalJSON, bind. step. rewrite Sprintf_uri. fold uri.
  destruct (http_Get w uri) as [err|err|code body]; step.
  - now rewrite Sprintf_get.
  - now rewrite Sprintf_read.
  - destruct (code =? 200); step; [|reflexivity].
    destruct (U body) as [x|err]; step; [reflexivity|]. now rewrite Sprintf_decode.
Qed.

Lemma fetch_uri {A} (U : string -> result A) w api path :
  requests (fst (fetch U w api path)) = [MMSAPI_hostname api ++ "/api/public/v1.0" ++ path].
Proof.
  rewrite fetch_cases.
  destruct (http_Get w _) as [err|err|code body]; try reflexivity.
  destruct (code =? 200); [|reflexivity]. now destruct (U body).
Qed.

(** The traces of [main]. *)
Lemma checked_trace fl w :
  fst (checked fl w)
  = EvClient (username fl) (apiKey fl) (transport_Client w (username fl) (apiKey fl)) ::
    match transport_Client w (username fl) (apiKey fl) with
    | Some err => [verdict UNKNOWN ("Failed to create API. Error: " ++ err)]
    | None =>
        let api := {| MMSAPI_hostname := server fl |} in
        (fst (GetHostByName w api (groupId fl) (hostname fl)) ++
         match snd (GetHostByName w api (groupId fl) (hostname fl)) with
         | Err err => [verdict UNKNOWN err]
         | Ok host =>
             if String.eqb (metricName fl) "" then fst (doHostCheck fl w host)
             else fst (doMetricCheck fl w api host)
         end)%list
    end.
Proof.
  unfold checked, NewMMSAPI, verdict. step.
  destruct (transport_Client w (username fl) (apiKey fl)) as [err|]; step.
  - now rewrite Sprintf_client.
  - destruct (snd (GetHostByName w _ (groupId fl) (hostname fl))) as [host|err]; step.
    + now destruct (String.eqb (metricName fl) "").
    + now rewrite Sprintf_v1.
Qed.

Lemma main_trace fl w :
  hostname fl <> "" -> groupId fl <> "" ->
  fst (main fl w) = (EvNewCheck :: fst (checked fl w) ++ [EvFinish])%list.
Proof.
  intros Hh Hg. unfold main.
  apply String.eqb_neq in Hh. apply String.eqb_neq in Hg. rewrite Hh, Hg. reflexivity.
Qed.

(** *** Failures *)

Arguments failures_end : simpl never.

Lemma failures_end_split t pre e post err :
  failures_end t -> t = (pre ++ e :: post)%list -> failed e = Some err ->
  exists a b, post = [verdict UNKNOWN (a ++ err ++ b); EvFinish].
Proof.
  revert t. induction pre as [|x pre IH]; intros t Ht -> He.
  - destruct Ht as [Ht _]. now apply Ht.
  - destruct Ht as [_ Ht]. now apply (IH _ Ht).
Qed.

Lemma good_clean e t : failed e = None -> failures_end t -> failures_end (e :: t).
Proof. intros He Ht. split; [|exact Ht]. intros err H. congruence. Qed.

Lemma good_verdict st msg : failures_end [verdict st msg; EvFinish].
Proof. repeat split; intros err H; discriminate H. Qed.

Lemma good_failed e err a b :
  failed e = Some err -> failures_end [e; verdict UNKNOWN (a ++ err ++ b); EvFinish].
Proof.
  intros He. split; [|apply good_verdict].
  intros err' H. rewrite He in H. injection H as H. subst err'. exists a, b. reflexivity.
Qed.

Lemma good_failed_last e err a :
  failed e = Some err -> failures_end [e; verdict UNKNOWN (a ++ err); EvFinish].
Proof.
  intros He. rewrite <- (append_empty err) at 1. now apply good_failed.
Qed.

Lemma good_thresholds fl v msg : failures_end (thresholds fl v msg ++ [EvFinish]).
Proof.
  unfold thresholds.
  destruct (ParseRange (critical fl)) as [r|e]; [|now apply good_failed_last].
  do 2 (apply good_clean; [reflexivity|]).
  destruct (Range_Check r v); [apply good_verdict|].
  destruct (ParseRange (warning fl)) as [r'|e']; [|now apply good_failed_last].
  do 2 (apply good_clean; [reflexivity|]). apply good_verdict.
Qed.

Lemma good_evalMetric fl w metric : failures_end (fst (evalMetric fl w metric) ++ [EvFinish]).
Proof.
  destruct (lastDataPoint metric) as [dp|] eqn:Hl.
  - destruct (Z_le_gt_dec (ageSeconds w (Timestamp dp)) (maxAge fl)) as [Hs|Hs].
    + rewrite (evalMetric_fresh _ _ _ _ Hl Hs).
      do 2 (apply good_clean; [reflexivity|]). apply good_thresholds.
    + rewrite (evalMetric_stale _ _ _ _ Hl Hs).
      apply good_clean; [reflexivity|]. apply good_verdict.
  - unfold lastDataPoint in Hl. destruct (DataPoints metric) eqn:Hd; [|discriminate].
    rewrite (evalMetric_empty _ _ _ Hd). apply good_verdict.
Qed.

(** A fetch and what follows it: [k] is what the caller does with a value,
    an error being reported with [%v]. *)
Lemma good_fetch {A} (U : string -> result A) w api path (k : A -> list (Event float64 Range)) :
  (forall x, failures_end (k x ++ [EvFinish])) ->
  failures_end
    ((fst (fetch U w api path) ++
      match snd (fetch U w api path) with
      | Err err => [verdict UNKNOWN err]
      | Ok x => k x
      end) ++ [EvFinish]).
Proof.
  intros Hk. rewrite fetch_cases.
  destruct (http_Get w _) as [err|err|code body] eqn:Hr; cbv [fst snd app].
  - now apply good_failed_last.
  - now apply good_failed_last.
  - destruct (code =? 200) eqn:Hc.
    + destruct (U body) as [x|err]; cbv [fst snd app].
      * apply good_clean; [cbn; now rewrite Hc|].
        apply good_clean; [reflexivity|]. apply Hk.
      * apply good_clean; [cbn; now rewrite Hc|].
        now apply good_failed.
    + cbv [fst snd app].
      apply (good_failed_last _ (handleError code body) ""). cbn. now rewrite Hc.
Qed.

Lemma good_doMetricCheck fl w api host :
  failures_end (fst (doMetricCheck fl w api host) ++ [EvFinish]).
Proof.
  assert (H : fst (doMetricCheck fl w api host)
              = (fst (fetchMetric fl w api host) ++
                 match snd (fetchMetric fl w api host) with
                 | Err err => [verdict UNKNOWN err]
                 | Ok metric => fst (evalMetric fl w metric)
                 end)%list).
  { destruct (snd (fetchMetric fl w api host)) as [metric|e] eqn:Hf.
    - now apply doMetricCheck_fetched.
    - now apply doMetricCheck_failed. }
  rewrite H. unfold fetchMetric, GetHostMetric, GetHostDBMetric.
  destruct (String.eqb (dbName fl) ""); apply good_fetch; intros; apply good_evalMetric.
Qed.

Lemma good_main fl w : failures_end (fst (main fl w)).
Proof.
  destruct (String.eqb (hostname fl) "" || String.eqb (groupId fl) "") eqn:Hgate.
  - unfold main. rewrite Hgate. cbn. repeat split; intros err H; discriminate H.
  - apply orb_false_iff in Hgate as [Hh Hg].
    apply String.eqb_neq in Hh. apply String.eqb_neq in Hg.
    rewrite (main_trace fl w Hh Hg), checked_trace.
    apply good_clean; [reflexivity|].
    destruct (transport_Client w (username fl) (apiKey fl)) as [err|] eqn:Hc.
    + now apply good_failed_last.
    + apply good_clean; [reflexivity|]. cbv zeta. unfold GetHostByName.
      apply good_fetch. intros host.
      destruct (String.eqb (metricName fl) "").
      * rewrite doHostCheck_trace. apply good_clean; [reflexivity|]. apply good_thresholds.
      * apply good_doMetricCheck.
Qed.

Lemma results_app (a b : list (Event float64 Range)) :
  results (a ++ b) = (results a ++ results b)%list.
Proof.
  induction a as [|e a IH]; [reflexivity|]. destruct e; cbn; now rewrite ?IH.
Qed.

Lemma perfdata_app (a b : list (Event float64 Range)) :
  perfdata (a ++ b) = (perfdata a ++ perfdata b)%list.
Proof.
  induction a as [|e a IH]; [reflexivity|]. destruct e; cbn; now rewrite ?IH.
Qed.

Lemma parsed_app (a b : list (Event float64 Range)) :
  parsed (a ++ b) = (parsed a ++ parsed b)%list.
Proof.
  induction a as [|e a IH]; [reflexivity|]. destruct e; cbn; now rewrite ?IH.
Qed.

Lemma tested_app (a b : list (Event float64 Range)) :
  tested (a ++ b) = (tested a ++ tested b)%list.
Proof.
  induction a as [|e a IH]; [reflexivity|]. destruct e; cbn; now rewrite ?IH.
Qed.

Lemma clocked_app (a b : list (Event float64 Range)) :
  clocked (a ++ b) = (clocked a ++ clocked b)%list.
Proof.
  induction a as [|e a IH]; [reflexivity|]. destruct e; cbn; now rewrite ?IH.
Qed.

(** A fetch adds nothing to the check, parses no threshold string and
    tests no value. *)
Lemma fetch_quiet {A} (U : string -> result A) w api path :
  results (fst (fetch U w api path)) = [] /\ perfdata (fst (fetch U w api path)) = []
  /\ parsed (fst (fetch U w api path)) = [] /\ tested (fst (fetch U w api path)) = []
  /\ clocked (fst (fetch U w api path)) = [].
Proof.
  rewrite fetch_cases.
  destruct (http_Get w _) as [err|err|code body]; try (repeat split; reflexivity).
  destruct (code =? 200); [|repeat split; reflexivity].
  destruct (U body); repeat split; reflexivity.
Qed.

Lemma fetchMetric_quiet fl w api host :
  results (fst (fetchMetric fl w api host)) = []
  /\ perfdata (fst (fetchMetric fl w api host)) = []
  /\ parsed (fst (fetchMetric fl w api host)) = []
  /\ tested (fst (fetchMetric fl w api host)) = []
  /\ clocked (fst (fetchMetric fl w api host)) = [].
Proof.
  unfold fetchMetric, GetHostMetric, GetHostDBMetric.
  destruct (String.eqb (dbName fl) ""); apply fetch_quiet.
Qed.

Lemma thresholds_one_result fl v msg : exists r, results (thresholds fl v msg) = [r].
Proof.
  unfold thresholds.
  destruct (ParseRange (critical fl)) as [r|e]; [|cbn; eauto].
  destruct (Range_Check r v); [cbn; eauto|].
  destruct (ParseRange (warning fl)) as [r'|e']; cbn; eauto.
Qed.

Lemma thresholds_no_datum fl v msg : perfdata (thresholds fl v msg) = [].
Proof.
  unfold thresholds.
  destruct (ParseRange (critical fl)) as [r|e]; [|reflexivity].
  destruct (Range_Check r v); [reflexivity|].
  destruct (ParseRange (warning fl)) as [r'|e']; reflexivity.
Qed.

Lemma evalMetric_one_result fl w metric : exists r, results (fst (evalMetric fl w metric)) = [r].
Proof.
  destruct (lastDataPoint metric) as [dp|] eqn:Hl.
  - destruct (Z_le_gt_dec (ageSeconds w (Timestamp dp)) (maxAge fl)) as [Hs|Hs].
    + rewrite (evalMetric_fresh _ _ _ _ Hl Hs). cbn [results]. apply thresholds_one_result.
    + rewrite (evalMetric_stale _ _ _ _ Hl Hs). cbn. eauto.
  - unfold lastDataPoint in Hl. destruct (DataPoints metric) eqn:Hd; [|discriminate].
    rewrite (evalMetric_empty _ _ _ Hd). cbn. eauto.
Qed.

Lemma doMetricCheck_one_result fl w api host :
  exists r, results (fst (doMetricCheck fl w api host)) = [r].
Proof.
  destruct (fetchMetric_quiet fl w api host) as (Hq & _).
  destruct (snd (fetchMetric fl w api host)) as [metric|e] eqn:Hf.
  - rewrite (doMetricCheck_fetched _ _ _ _ _ Hf), results_app, Hq.
    apply evalMetric_one_result.
  - rewrite (doMetricCheck_failed _ _ _ _ _ Hf), results_app, Hq. cbn. eauto.
Qed.

Lemma checked_one_result fl w : exists r, results (fst (checked fl w)) = [r].
Proof.
  rewrite checked_trace. cbn [results].
  destruct (transport_Client w (username fl) (apiKey fl)); [cbn; eauto|].
  cbv zeta. rewrite results_app. unfold GetHostByName.
  destruct (fetch_quiet Unmarshal_Host w {| MMSAPI_hostname := server fl |}
              (Sprintf "/groups/%v/hosts/byName/%v" [OString (groupId fl); OString (hostname fl)]))
    as (-> & _).
  destruct (snd (fetch _ _ _ _)) as [host|e]; [|cbn; eauto].
  destruct (String.eqb (metricName fl) "").
  - rewrite doHostCheck_trace. cbn [results app]. apply thresholds_one_result.
  - apply doMetricCheck_one_result.
Qed.

Lemma main_at_most_one_result fl w : (List.length (results (fst (main fl w))) <= 1)%nat.
Proof.
  destruct (String.eqb (hostname fl) "" || String.eqb (groupId fl) "") eqn:Hgate.
  - unfold main. rewrite Hgate. cbn. lia.
  - apply orb_false_iff in Hgate as [Hh Hg].
    apply String.eqb_neq in Hh. apply String.eqb_neq in Hg.
    rewrite (main_trace fl w Hh Hg). cbn [results]. rewrite results_app.
    destruct (checked_one_result fl w) as (r & ->). cbn. lia.
Qed.


(** *** Order of the threshold tests *)

(** C1.  In both modes the critical range is tested before the warning
    range: the trace shows the critical string parsed and its range
    tested first, and the warning string coming after.  With both strings
    well formed, a value that violates both ranges yields CRITICAL (never
    WARNING) and a value that violates neither yields OK.  In liveness
    mode the value is the age of the last ping; in metric mode it is the
    value of the last data point, which reaches the thresholds when the
    point is fresh. *)
Theorem critical_precedes_warning fl w critRange warnRange :
  ParseRange (critical fl) = Ok critRange ->
  ParseRange (warning fl) = Ok warnRange ->
  (forall host,
      let age := ageOf w (LastPing host) in
      fst (doHostCheck fl w host)
      = ([EvSince (LastPing host) (Since w (LastPing host));
          EvParseRange (critical fl) (Ok critRange);
          EvCheck critRange age (Range_Check critRange age)] ++
         (if Range_Check critRange age then [verdict CRITICAL (pingMessage age)]
          else [EvParseRange (warning fl) (Ok warnRange);
                EvCheck warnRange age (Range_Check warnRange age);
                verdict (if Range_Check warnRange age then WARNING else OK)
                  (pingMessage age)]))%list
      /\ (Range_Check critRange age = true -> Range_Check warnRange age = true ->
          results (fst (doHostCheck fl w host))
          = [ {| status := CRITICAL; message := pingMessage age |} ])
      /\ (Range_Check critRange age = false -> Range_Check warnRange age = false ->
          results (fst (doHostCheck fl w host))
          = [ {| status := OK; message := pingMessage age |} ]))
  /\ (forall api host metric dp,
        snd (fetchMetric fl w api host) = Ok metric ->
        lastDataPoint metric = Some dp ->
        ageSeconds w (Timestamp dp) <= maxAge fl ->
        let v := Value dp in
        fst (doMetricCheck fl w api host)
        = (fst (fetchMetric fl w api host) ++
           [EvSince (Timestamp dp) (Since w (Timestamp dp));
            EvAddPerfDatum {| label := metricName fl; uom := ""; value := v |};
            EvParseRange (critical fl) (Ok critRange);
            EvCheck critRange v (Range_Check critRange v)] ++
           (if Range_Check critRange v then [verdict CRITICAL (summary metric)]
            else [EvParseRange (warning fl) (Ok warnRange);
                  EvCheck warnRange v (Range_Check warnRange v);
                  verdict (if Range_Check warnRange v then WARNING else OK)
                    (summary metric)]))%list
        /\ (Range_Check critRange v = true -> Range_Check warnRange v = true ->
            results (fst (doMetricCheck fl w api host))
            = [ {| status := CRITICAL; message := summary metric |} ])
        /\ (Range_Check critRange v = false -> Range_Check warnRange v = false ->
            results (fst (doMetricCheck fl w api host))
            = [ {| status := OK; message := summary metric |} ])).
Proof.
  intros Hc Hw. split.
  - intros host age. rewrite doHostCheck_trace. fold age. unfold thresholds.
    rewrite Hc, Hw. split; [|split].
    + now destruct (Range_Check critRange age).
    + intros -> _. reflexivity.
    + intros -> ->. reflexivity.
  - intros api host metric dp Hf Hl Hs v.
    destruct (fetchMetric_quiet fl w api host) as (Hq & _).
    rewrite (doMetricCheck_fetched _ _ _ _ _ Hf), (evalMetric_fresh _ _ _ _ Hl Hs).
    fold v. unfold thresholds. rewrite Hc, Hw, !results_app, Hq. split; [|split].
    + now destruct (Range_Check critRange v).
    + intros -> _. reflexivity.
    + intros -> ->. reflexivity.
Qed.

(** C9.  The warning string is parsed only once the critical range has
    been tested and found not violated: the strings a check parses are
    the critical one alone when its range is violated, and the critical
    one followed by the warning one otherwise.  So when the value violates
    the critical range the result is CRITICAL whatever the warning string
    is, and in particular when it is malformed: nothing is assumed of
    [warning fl]. *)
Theorem critical_hit_never_parses_warning fl w critRange :
  ParseRange (critical fl) = Ok critRange ->
  (forall host,
      let age := ageOf w (LastPing host) in
      parsed (fst (doHostCheck fl w host))
      = (if Range_Check critRange age then [critical fl] else [critical fl; warning fl])
      /\ (Range_Check critRange age = true ->
          fst (doHostCheck fl w host)
          = [EvSince (LastPing host) (Since w (LastPing host));
             EvParseRange (critical fl) (Ok critRange);
             EvCheck critRange age true;
             EvAddResult {| status := CRITICAL; message := pingMessage age |}]))
  /\ (forall api host metric dp,
        snd (fetchMetric fl w api host) = Ok metric ->
        lastDataPoint metric = Some dp ->
        ageSeconds w (Timestamp dp) <= maxAge fl ->
        let v := Value dp in
        parsed (fst (evalMetric fl w metric))
        = (if Range_Check critRange v then [critical fl] else [critical fl; warning fl])
        /\ (Range_Check critRange v = true ->
            fst (doMetricCheck fl w api host)
            = (fst (fetchMetric fl w api host) ++
               [EvSince (Timestamp dp) (Since w (Timestamp dp));
                EvAddPerfDatum {| label := metricName fl; uom := ""; value := v |};
                EvParseRange (critical fl) (Ok critRange);
                EvCheck critRange v true;
                EvAddResult {| status := CRITICAL; message := summary metric |}])%list)).
Proof.
  intros Hc. split.
  - intros host age. rewrite doHostCheck_trace. fold age. unfold thresholds. rewrite Hc.
    split.
    + destruct (Range_Check critRange age); [reflexivity|].
      now destruct (ParseRange (warning fl)).
    + intros ->. reflexivity.
  - intros api host metric dp Hf Hl Hs v.
    rewrite (doMetricCheck_fetched _ _ _ _ _ Hf), (evalMetric_fresh _ _ _ _ Hl Hs).
    fold v. unfold thresholds. rewrite Hc. split.
    + destruct (Range_Check critRange v); [reflexivity|].
      now destruct (ParseRange (warning fl)).
    + intros ->. reflexivity.
Qed.

(** *** The metric check before the thresholds *)

(** C2.  In metric mode with at least one data point, when the last
    point is older than [maxAge] whole seconds the check reads the clock
    and adds a CRITICAL result whose message gives the metric name and
    that age, and that is all it does after the fetch: no performance
    datum, no threshold string parsed, no value tested. *)
Theorem stale_point_is_critical fl w api host metric dp :
  snd (fetchMetric fl w api host) = Ok metric ->
  lastDataPoint metric = Some dp ->
  ageSeconds w (Timestamp dp) > maxAge fl ->
  fst (doMetricCheck fl w api host)
  = (fst (fetchMetric fl w api host) ++
     [EvSince (Timestamp dp) (Since w (Timestamp dp));
      EvAddResult
        {| status := CRITICAL;
           message := "Last data point for " ++ metricName fl ++ " is "
                        ++ NilZero.string_of_int (Z.to_int (ageSeconds w (Timestamp dp)))
                        ++ " seconds old." |}])%list
  /\ perfdata (fst (doMetricCheck fl w api host)) = []
  /\ parsed (fst (doMetricCheck fl w api host)) = []
  /\ tested (fst (doMetricCheck fl w api host)) = [].
Proof.
  intros Hf Hl Hs.
  destruct (fetchMetric_quiet fl w api host) as (_ & Hp & Hs' & Ht & _).
  rewrite (doMetricCheck_fetched _ _ _ _ _ Hf), (evalMetric_stale _ _ _ _ Hl Hs).
  rewrite perfdata_app, parsed_app, tested_app, Hp, Hs', Ht.
  split; [reflexivity|]. split; [|split]; reflexivity.
Qed.

(** C4.  In metric mode, when the fetch succeeds with no data point the
    check adds an UNKNOWN result whose message names the metric, and that
    is all it does after the fetch: the clock is not read (no staleness
    test), no performance datum is attached, no threshold string is
    parsed and no value is tested. *)
Theorem no_data_point_is_unknown fl w api host metric :
  snd (fetchMetric fl w api host) = Ok metric ->
  DataPoints metric = [] ->
  fst (doMetricCheck fl w api host)
  = (fst (fetchMetric fl w api host) ++
     [EvAddResult
        {| status := UNKNOWN; message := "No data points found for " ++ metricName fl |}])%list
  /\ clocked (fst (doMetricCheck fl w api host)) = []
  /\ perfdata (fst (doMetricCheck fl w api host)) = []
  /\ parsed (fst (doMetricCheck fl w api host)) = []
  /\ tested (fst (doMetricCheck fl w api host)) = [].
Proof.
  intros Hf He.
  destruct (fetchMetric_quiet fl w api host) as (_ & Hp & Hs' & Ht & Hc).
  rewrite (doMetricCheck_fetched _ _ _ _ _ Hf), (evalMetric_empty _ _ _ He).
  rewrite clocked_app, perfdata_app, parsed_app, tested_app, Hp, Hs', Ht, Hc.
  split; [reflexivity|]. split; [|split; [|split]]; reflexivity.
Qed.

(** C5.  In metric mode with a fresh last data point exactly one
    performance datum is attached: the metric name, an empty unit and the
    value of that point.  It is attached before any threshold string is
    parsed and before any value is tested: up to and including the datum
    the trace has no such event, and the two threshold tests are what
    follows it. *)
Theorem perf_datum_attached_once fl w api host metric dp :
  snd (fetchMetric fl w api host) = Ok metric ->
  lastDataPoint metric = Some dp ->
  ageSeconds w (Timestamp dp) <= maxAge fl ->
  let datum := {| label := metricName fl; uom := ""; value := Value dp |} in
  let before :=
    (fst (fetchMetric fl w api host) ++
     [EvSince (Timestamp dp) (Since w (Timestamp dp)); EvAddPerfDatum datum])%list in
  fst (doMetricCheck fl w api host)
  = (before ++ thresholds fl (Value dp) (summary metric))%list
  /\ parsed before = [] /\ tested before = []
  /\ perfdata (fst (doMetricCheck fl w api host)) = [datum].
Proof.
  intros Hf Hl Hs datum before.
  destruct (fetchMetric_quiet fl w api host) as (_ & Hp & Hs' & Ht & _).
  rewrite (doMetricCheck_fetched _ _ _ _ _ Hf), (evalMetric_fresh _ _ _ _ Hl Hs).
  fold datum. unfold before.
  rewrite perfdata_app, parsed_app, tested_app, Hp, Hs', Ht.
  split; [now rewrite <- app_assoc|]. split; [reflexivity|]. split; [reflexivity|].
  cbn [perfdata app]. now rewrite thresholds_no_datum.
Qed.

(** C10.  In metric mode with a fresh last data point, a malformed
    critical string, or a malformed warning string that gets parsed,
    yields an UNKNOWN result on a check to which the performance datum has
    been attached before: the run ends UNKNOWN and carries the datum. *)
Theorem parse_error_keeps_perf_datum fl w api host metric dp :
  snd (fetchMetric fl w api host) = Ok metric ->
  lastDataPoint metric = Some dp ->
  ageSeconds w (Timestamp dp) <= maxAge fl ->
  let datum := {| label := metricName fl; uom := ""; value := Value dp |} in
  (forall e,
      ParseRange (critical fl) = Err e ->
      fst (doMetricCheck fl w api host)
      = (fst (fetchMetric fl w api host) ++
         [EvSince (Timestamp dp) (Since w (Timestamp dp));
          EvAddPerfDatum datum;
          EvParseRange (critical fl) (Err e);
          EvAddResult {| status := UNKNOWN;
                         message := "Error parsing critical range. Error: " ++ e |}])%list
      /\ results (fst (doMetricCheck fl w api host))
         = [ {| status := UNKNOWN; message := "Error parsing critical range. Error: " ++ e |} ]
      /\ perfdata (fst (doMetricCheck fl w api host)) = [datum])
  /\ (forall r e,
        ParseRange (critical fl) = Ok r ->
        Range_Check r (Value dp) = false ->
        ParseRange (warning fl) = Err e ->
        fst (doMetricCheck fl w api host)
        = (fst (fetchMetric fl w api host) ++
           [EvSince (Timestamp dp) (Since w (Timestamp dp));
            EvAddPerfDatum datum;
            EvParseRange (critical fl) (Ok r);
            EvCheck r (Value dp) false;
            EvParseRange (warning fl) (Err e);
            EvAddResult {| status := UNKNOWN;
                           message := "Error parsing warning range. Error: " ++ e |}])%list
        /\ results (fst (doMetricCheck fl w api host))
           = [ {| status := UNKNOWN; message := "Error parsing warning range. Error: " ++ e |} ]
        /\ perfdata (fst (doMetricCheck fl w api host)) = [datum]).
Proof.
  intros Hf Hl Hs datum.
  destruct (fetchMetric_quiet fl w api host) as (Hr & Hp & _).
  rewrite (doMetricCheck_fetched _ _ _ _ _ Hf), (evalMetric_fresh _ _ _ _ Hl Hs).
  fold datum. unfold thresholds. split.
  - intros e He. rewrite He, results_app, perfdata_app, Hr, Hp.
    split; [|split]; reflexivity.
  - intros r e Hc Hv Hw. rewrite Hc, Hv, Hw, results_app, perfdata_app, Hr, Hp.
    split; [|split]; reflexivity.
Qed.

(** *** The usage message *)

(** C8.  With an empty group id or an empty host name the program prints
    the usage text on standard output and exits with code 2, and does
    nothing else: no check is created, nothing is requested, no result
    and no performance datum is produced. *)
Theorem missing_group_or_host_prints_usage fl w :
  hostname fl = "" \/ groupId fl = "" ->
  fst (main fl w) = (map EvPrint usageLines ++ [EvExit 2])%list
  /\ stdout (fst (main fl w)) = Usage
  /\ requests (fst (main fl w)) = []
  /\ results (fst (main fl w)) = []
  /\ perfdata (fst (main fl w)) = [].
Proof.
  intros H.
  assert (Hgate : String.eqb (hostname fl) "" || String.eqb (groupId fl) "" = true).
  { destruct H as [H|H]; rewrite H; cbn [String.eqb orb]; [reflexivity|apply orb_true_r]. }
  assert (Ht : fst (main fl w) = (map EvPrint usageLines ++ [EvExit 2])%list).
  { unfold main. rewrite Hgate. reflexivity. }
  rewrite Ht. repeat split.
Qed.

(** *** Error bodies of the service *)

Lemma Sprintf_api_error (a b : gvalue float64) :
  Sprintf "API Error: %v (%v)" [OValue a; OValue b]
  = "API Error: " ++ fmt.fmt_value FormatFloat a ++ " (" ++ fmt.fmt_value FormatFloat b ++ ")".
Proof. sprintf. Qed.

Lemma Sprintf_not_json (body : string) :
  Sprintf "API response did not contain valid JSON. Body: %v" [OString body]
  = "API response did not contain valid JSON. Body: " ++ body.
Proof. sprintf. Qed.

Lemma Unmarshal_map_invalid body : json.Valid body = false -> Unmarshal_map body = None.
Proof.
  unfold json.Valid, Unmarshal_map. destruct (json.parse body); [discriminate|reflexivity].
Qed.

Lemma Unmarshal_map_shape body m :
  Unmarshal_map body = Some m ->
  json.parse body = Some json.Null \/ exists ms, json.parse body = Some (json.Object ms).
Proof.
  unfold Unmarshal_map. destruct (json.parse body) as [[| | | | |ms]|]; try discriminate; eauto.
Qed.

Lemma Sprintf_hosts g :
  Sprintf "/groups/%v/hosts" [OString g] = "/groups/" ++ g ++ "/hosts".
Proof. sprintf. Qed.

Lemma Sprintf_byName g n :
  Sprintf "/groups/%v/hosts/byName/%v" [OString g; OString n]
  = "/groups/" ++ g ++ "/hosts/byName/" ++ n.
Proof. sprintf. Qed.

Lemma Sprintf_metric g h m gr p :
  Sprintf "/groups/%v/hosts/%v/metrics/%v?granularity=%v&period=PT%v"
    [OString g; OString h; OString m; OString gr; OString p]
  = "/groups/" ++ g ++ "/hosts/" ++ h ++ "/metrics/" ++ m ++ "?granularity=" ++ gr
      ++ "&period=PT" ++ p.
Proof. sprintf. Qed.

Lemma Sprintf_dbmetric g h m d gr p :
  Sprintf "/groups/%v/hosts/%v/metrics/%v/%v?granularity=%v&period=PT%v"
    [OString g; OString h; OString m; OString d; OString gr; OString p]
  = "/groups/" ++ g ++ "/hosts/" ++ h ++ "/metrics/" ++ m ++ "/" ++ d ++ "?granularity=" ++ gr
      ++ "&period=PT" ++ p.
Proof. sprintf. Qed.

(** The metric fetch is a fetch of [metricURI]. *)
Lemma fetchMetric_cases fl w api host :
  fetchMetric fl w api host
  = match http_Get w (metricURI fl api host) with
    | GetFailed err =>
        ([EvGet (metricURI fl api host) (GetFailed err)],
         Err ("Failed to make HTTP request. Error: " ++ err))
    | ReadFailed err =>
        ([EvGet (metricURI fl api host) (ReadFailed err)],
         Err ("Failed to read HTTP response body. Error: " ++ err))
    | Response code body =>
        if code =? 200 then
          match Unmarshal_Metric body with
          | Ok x => ([EvGet (metricURI fl api host) (Response code body); EvUnmarshal body None], Ok x)
          | Err err =>
              ([EvGet (metricURI fl api host) (Response code body); EvUnmarshal body (Some err)],
               Err ("Response did not contain valid JSON. Error: " ++ err ++ ", Body: " ++ body))
          end
        else ([EvGet (metricURI fl api host) (Response code body)], Err (handleError code body))
    end.
Proof.
  unfold fetchMetric, metricURI, GetHostMetric, GetHostDBMetric.
  destruct (String.eqb (dbName fl) ""); rewrite fetch_cases; cbv zeta.
  - rewrite Sprintf_metric. reflexivity.
  - rewrite Sprintf_dbmetric. reflexivity.
Qed.

Lemma GetHostByName_cases fl w :
  GetHostByName w {| MMSAPI_hostname := server fl |} (groupId fl) (hostname fl)
  = match http_Get w (hostURI fl) with
    | GetFailed err =>
        ([EvGet (hostURI fl) (GetFailed err)], Err ("Failed to make HTTP request. Error: " ++ err))
    | ReadFailed err =>
        ([EvGet (hostURI fl) (ReadFailed err)],
         Err ("Failed to read HTTP response body. Error: " ++ err))
    | Response code body =>
        if code =? 200 then
          match Unmarshal_Host body with
          | Ok x => ([EvGet (hostURI fl) (Response code body); EvUnmarshal body None], Ok x)
          | Err err =>
              ([EvGet (hostURI fl) (Response code body); EvUnmarshal body (Some err)],
               Err ("Response did not contain valid JSON. Error: " ++ err ++ ", Body: " ++ body))
          end
        else ([EvGet (hostURI fl) (Response code body)], Err (handleError code body))
    end.
Proof.
  unfold GetHostByName, hostURI. rewrite fetch_cases. cbv zeta. cbn [MMSAPI_hostname].
  rewrite Sprintf_byName. reflexivity.
Qed.

(** C7, as the program has it.  [handleError] has two outcomes.  When
    the body decodes into a map (it is a JSON object, or [null]) the
    message is [API Error: reason (detail)], the two fields printed with
    [%v]: the bare text for a string, [<nil>] for an absent field.  In
    every other case, which covers a body that is not valid JSON, the
    message is the generic one and ends with the raw body.  A response
    with a status other than 200 makes the run end with this message in
    an UNKNOWN result, for the host request and for the metric
    request. *)
Theorem api_error_message :
  (forall code body m,
      Unmarshal_map body = Some m ->
      handleError code body
      = "API Error: " ++ fmt.fmt_value FormatFloat (index m "reason") ++ " ("
          ++ fmt.fmt_value FormatFloat (index m "detail") ++ ")")
  /\ (forall code body m reason detail,
        Unmarshal_map body = Some m ->
        index m "reason" = GString reason ->
        index m "detail" = GString detail ->
        handleError code body = "API Error: " ++ reason ++ " (" ++ detail ++ ")")
  /\ (forall code body,
        Unmarshal_map body = None ->
        handleError code body = "API response did not contain valid JSON. Body: " ++ body)
  /\ (forall body, json.Valid body = false -> Unmarshal_map body = None)
  /\ (forall body m,
        Unmarshal_map body = Some m ->
        json.parse body = Some json.Null \/ exists ms, json.parse body = Some (json.Object ms))
  /\ (forall fl w code body,
        hostname fl <> "" -> groupId fl <> "" ->
        transport_Client w (username fl) (apiKey fl) = None ->
        http_Get w (hostURI fl) = Response code body ->
        code <> 200 ->
        fst (main fl w)
        = [EvNewCheck;
           EvClient (username fl) (apiKey fl) None;
           EvGet (hostURI fl) (Response code body);
           EvAddResult {| status := UNKNOWN; message := handleError code body |};
           EvFinish])
  /\ (forall fl w api host code body,
        http_Get w (metricURI fl api host) = Response code body ->
        code <> 200 ->
        fst (doMetricCheck fl w api host)
        = [EvGet (metricURI fl api host) (Response code body);
           EvAddResult {| status := UNKNOWN; message := handleError code body |}]).
Proof.
  split; [|split; [|split; [|split; [|split; [|split]]]]].
  - intros code body m H. unfold handleError. now rewrite H, Sprintf_api_error.
  - intros code body m reason detail H Hr Hd. unfold handleError.
    now rewrite H, Sprintf_api_error, Hr, Hd.
  - intros code body H. unfold handleError. now rewrite H, Sprintf_not_json.
  - apply Unmarshal_map_invalid.
  - apply Unmarshal_map_shape.
  - intros fl w code body Hh Hg Ha Hr Hc. apply Z.eqb_neq in Hc.
    rewrite (main_trace fl w Hh Hg), checked_trace, Ha. cbv zeta.
    rewrite GetHostByName_cases, Hr, Hc. reflexivity.
  - intros fl w api host code body Hr Hc. apply Z.eqb_neq in Hc.
    assert (Hf : fetchMetric fl w api host
                 = ([EvGet (metricURI fl api host) (Response code body)],
                    Err (handleError code body))).
    { now rewrite fetchMetric_cases, Hr, Hc. }
    rewrite (doMetricCheck_failed fl w api host (handleError code body));
      rewrite Hf; reflexivity.
Qed.

(** *** The database name in the request *)

Lemma upperhex_not_plus n : Ascii.eqb (url.upperhex n) "+" = false.
Proof.
  unfold url.upperhex. generalize (Z.to_nat n). intros k.
  do 17 (destruct k as [|k]; [reflexivity|]). reflexivity.
Qed.

Lemma upperhex_unreserved n : url.shouldEscape (url.upperhex n) = false.
Proof.
  unfold url.upperhex. generalize (Z.to_nat n). intros k.
  do 17 (destruct k as [|k]; [reflexivity|]). reflexivity.
Qed.

Lemma replace_plus_step c s :
  strings.replace "+" "%20" (String c s) 0
  = (if Ascii.eqb c "+" then "%20" else String c "") ++ strings.replace "+" "%20" s 0.
Proof.
  cbn [strings.replace strings.HasPrefix String.length Nat.pred].
  rewrite andb_true_r. destruct (Ascii.eqb c "+"); reflexivity.
Qed.

(** The encoding of one byte by [escape]. *)
Lemma escape_step c s :
  escape (String c s) = (if url.shouldEscape c then pct c else String c "") ++ escape s.
Proof.
  unfold escape, strings.Replace. cbn [url.QueryEscape].
  destruct (Ascii.eqb c " ") eqn:Hsp.
  - apply Ascii.eqb_eq in Hsp. subst c. rewrite replace_plus_step. reflexivity.
  - destruct (url.shouldEscape c) eqn:He.
    + rewrite !replace_plus_step, !upperhex_not_plus. reflexivity.
    + rewrite replace_plus_step.
      destruct (Ascii.eqb c "+") eqn:Hp; [|reflexivity].
      apply Ascii.eqb_eq in Hp. subst c. discriminate He.
Qed.

Lemma escape_app a b : escape (a ++ b) = escape a ++ escape b.
Proof.
  induction a as [|c a IH]; [reflexivity|].
  cbn [append]. rewrite !escape_step, IH, append_assoc. reflexivity.
Qed.

Lemma occurs_app c a b : occurs c (a ++ b) = occurs c a || occurs c b.
Proof.
  induction a as [|x a IH]; [reflexivity|]. cbn [append occurs].
  rewrite IH. apply orb_assoc.
Qed.

Lemma eqb_escaped_unescaped c c' :
  url.shouldEscape c = true -> url.shouldEscape c' = false -> Ascii.eqb c c' = false.
Proof.
  intros H H'. apply Ascii.eqb_neq. intros ->. congruence.
Qed.

(** No byte that [shouldEscape] is left in the output, the percent sign
    apart. *)
Lemma escape_leaves_none c s :
  url.shouldEscape c = true -> c <> "%"%char -> occurs c (escape s) = false.
Proof.
  intros He Hp. induction s as [|c' s IH]; [reflexivity|].
  rewrite escape_step, occurs_app, IH, orb_false_r.
  destruct (url.shouldEscape c') eqn:He'.
  - unfold pct. cbn [occurs].
    rewrite !(eqb_escaped_unescaped c _ He (upperhex_unreserved _)).
    apply Ascii.eqb_neq in Hp. now rewrite Hp.
  - cbn [occurs]. now rewrite (eqb_escaped_unescaped c c' He He').
Qed.

(** C6.  [escape] percent-encodes the database name byte by byte: a byte
    is kept when it is a letter, a digit or one of [- _ . ~], and written
    [%XX] otherwise.  So a space comes out as [%20] (there is no [+]
    left), a slash as [%2F], and no reserved character is left raw.  The
    database-scoped request carries the escaped name; the three other
    requests carry their arguments as they are. *)
Theorem escape_percent_encodes :
  (escape "" = ""
   /\ forall c s,
       escape (String c s) = (if url.shouldEscape c then pct c else String c "") ++ escape s)
  /\ (forall a b, escape (a ++ " " ++ b) = escape a ++ "%20" ++ escape b)
  /\ (forall a b, escape (a ++ "/" ++ b) = escape a ++ "%2F" ++ escape b)
  /\ (forall s,
        occurs "+" (escape s) = false /\ occurs " " (escape s) = false
        /\ occurs "/" (escape s) = false)
  /\ (forall c s, url.shouldEscape c = true -> c <> "%"%char -> occurs c (escape s) = false)
  /\ (forall w api g h m d gr p,
        requests (fst (GetHostDBMetric w api g h m d gr p))
        = [MMSAPI_hostname api ++ "/api/public/v1.0/groups/" ++ g ++ "/hosts/" ++ h
             ++ "/metrics/" ++ m ++ "/" ++ escape d ++ "?granularity=" ++ gr
             ++ "&period=PT" ++ p])
  /\ (forall w api g h m gr p,
        requests (fst (GetHostMetric w api g h m gr p))
        = [MMSAPI_hostname api ++ "/api/public/v1.0/groups/" ++ g ++ "/hosts/" ++ h
             ++ "/metrics/" ++ m ++ "?granularity=" ++ gr ++ "&period=PT" ++ p])
  /\ (forall w api g n,
        requests (fst (GetHostByName w api g n))
        = [MMSAPI_hostname api ++ "/api/public/v1.0/groups/" ++ g ++ "/hosts/byName/" ++ n])
  /\ (forall w api g,
        requests (fst (GetAllHosts w api g))
        = [MMSAPI_hostname api ++ "/api/public/v1.0/groups/" ++ g ++ "/hosts"]).
Proof.
  split; [split; [reflexivity | apply escape_step]|].
  split; [intros a b; now rewrite !escape_app|].
  split; [intros a b; now rewrite !escape_app|].
  split; [intros s; split; [|split]; now apply escape_leaves_none|].
  split; [intros c s; apply escape_leaves_none|].
  split; [|split; [|split]].
  - intros. unfold GetHostDBMetric. now rewrite fetch_uri, Sprintf_dbmetric.
  - intros. unfold GetHostMetric. now rewrite fetch_uri, Sprintf_metric.
  - intros. unfold GetHostByName. now rewrite fetch_uri, Sprintf_byName.
  - intros. unfold GetAllHosts. now rewrite fetch_uri, Sprintf_hosts.
Qed.


(** ** The run as a whole *)

Lemma stdout_app (a b : list (Event float64 Range)) : stdout (a ++ b) = stdout a ++ stdout b.
Proof.
  induction a as [|e a IH]; [reflexivity|].
  destruct e; cbn; rewrite ?IH; try reflexivity. now rewrite append_assoc.
Qed.

Lemma requests_app (a b : list (Event float64 Range)) :
  requests (a ++ b) = (requests a ++ requests b)%list.
Proof.
  induction a as [|e a IH]; [reflexivity|]. destruct e; cbn; now rewrite ?IH.
Qed.

Lemma ends_result r : ends_in_result [EvAddResult r].
Proof. exists [], r. repeat split. Qed.

Lemma ends_app a b :
  results a = [] -> stdout a = "" -> ends_in_result b -> ends_in_result (a ++ b).
Proof.
  intros Ha Hs (pre & r & -> & Hr & Ho). exists (a ++ pre)%list, r.
  rewrite results_app, stdout_app, Ha, Hs, Hr, Ho, app_assoc. repeat split.
Qed.

Lemma ends_cons e b :
  results [e] = [] -> stdout [e] = "" -> ends_in_result b -> ends_in_result (e :: b).
Proof. intros Hr Hs Hb. now apply (ends_app [e]). Qed.

Lemma thresholds_ends fl v msg : ends_in_result (thresholds fl v msg).
Proof.
  unfold thresholds, verdict.
  destruct (ParseRange (critical fl)) as [r|e];
    [|apply ends_cons; [reflexivity..|apply ends_result]].
  destruct (Range_Check r v);
    [do 2 (apply ends_cons; [reflexivity..|]); apply ends_result|].
  destruct (ParseRange (warning fl)) as [r'|e'];
    repeat (apply ends_cons; [reflexivity..|]); apply ends_result.
Qed.

Lemma evalMetric_ends fl w metric : ends_in_result (fst (evalMetric fl w metric)).
Proof.
  destruct (lastDataPoint metric) as [dp|] eqn:Hl.
  - destruct (Z_le_gt_dec (ageSeconds w (Timestamp dp)) (maxAge fl)) as [Hs|Hs].
    + rewrite (evalMetric_fresh _ _ _ _ Hl Hs).
      do 2 (apply ends_cons; [reflexivity..|]). apply thresholds_ends.
    + rewrite (evalMetric_stale _ _ _ _ Hl Hs).
      apply ends_cons; [reflexivity..|]. apply ends_result.
  - unfold lastDataPoint in Hl. destruct (DataPoints metric) eqn:Hd; [|discriminate].
    rewrite (evalMetric_empty _ _ _ Hd). apply ends_result.
Qed.

(** A fetch prints nothing. *)
Lemma fetch_silent {A} (U : string -> result A) w api path :
  stdout (fst (fetch U w api path)) = "".
Proof.
  rewrite fetch_cases.
  destruct (http_Get w _) as [err|err|code body]; try reflexivity.
  destruct (code =? 200); [|reflexivity]. now destruct (U body).
Qed.

(** A fetch and what follows it, as in [good_fetch]. *)
Lemma ends_fetch {A} (U : string -> result A) w api path (k : A -> list (Event float64 Range)) :
  (forall x, ends_in_result (k x)) ->
  ends_in_result
    (fst (fetch U w api path) ++
     match snd (fetch U w api path) with
     | Err err => [verdict UNKNOWN err]
     | Ok x => k x
     end).
Proof.
  intros Hk. apply ends_app.
  - apply fetch_quiet.
  - apply fetch_silent.
  - destruct (snd (fetch U w api path)); [apply Hk | apply ends_result].
Qed.

Lemma doMetricCheck_trace fl w api host :
  fst (doMetricCheck fl w api host)
  = (fst (fetchMetric fl w api host) ++
     match snd (fetchMetric fl w api host) with
     | Err err => [verdict UNKNOWN err]
     | Ok metric => fst (evalMetric fl w metric)
     end)%list.
Proof.
  destruct (snd (fetchMetric fl w api host)) as [metric|e] eqn:Hf.
  - now apply doMetricCheck_fetched.
  - now apply doMetricCheck_failed.
Qed.

Lemma doMetricCheck_ends fl w api host : ends_in_result (fst (doMetricCheck fl w api host)).
Proof.
  rewrite doMetricCheck_trace. unfold fetchMetric, GetHostMetric, GetHostDBMetric.
  destruct (String.eqb (dbName fl) ""); apply ends_fetch; intros; apply evalMetric_ends.
Qed.

Lemma checked_ends fl w : ends_in_result (fst (checked fl w)).
Proof.
  rewrite checked_trace. apply ends_cons; [reflexivity..|].
  destruct (transport_Client w (username fl) (apiKey fl)); [apply ends_result|].
  cbv zeta. unfold GetHostByName. apply ends_fetch. intros host.
  destruct (String.eqb (metricName fl) "").
  - rewrite doHostCheck_trace. apply ends_cons; [reflexivity..|]. apply thresholds_ends.
  - apply doMetricCheck_ends.
Qed.


Lemma thresholds_no_request fl v msg : requests (thresholds fl v msg) = [].
Proof.
  unfold thresholds.
  destruct (ParseRange (critical fl)) as [r|e]; [|reflexivity].
  destruct (Range_Check r v); [reflexivity|].
  destruct (ParseRange (warning fl)) as [r'|e']; reflexivity.
Qed.

Lemma evalMetric_no_request fl w metric : requests (fst (evalMetric fl w metric)) = [].
Proof.
  destruct (lastDataPoint metric) as [dp|] eqn:Hl.
  - destruct (Z_le_gt_dec (ageSeconds w (Timestamp dp)) (maxAge fl)) as [Hs|Hs].
    + rewrite (evalMetric_fresh _ _ _ _ Hl Hs). cbn [requests]. apply thresholds_no_request.
    + now rewrite (evalMetric_stale _ _ _ _ Hl Hs).
  - unfold lastDataPoint in Hl. destruct (DataPoints metric) eqn:Hd; [|discriminate].
    now rewrite (evalMetric_empty _ _ _ Hd).
Qed.

Lemma fetchMetric_uri fl w api host :
  requests (fst (fetchMetric fl w api host)) = [metricURI fl api host].
Proof.
  rewrite fetchMetric_cases.
  destruct (http_Get w _) as [err|err|code body]; try reflexivity.
  destruct (code =? 200); [|reflexivity]. now destruct (Unmarshal_Metric body).
Qed.

Lemma doMetricCheck_requests fl w api host :
  requests (fst (doMetricCheck fl w api host)) = [metricURI fl api host].
Proof.
  rewrite doMetricCheck_trace, requests_app, fetchMetric_uri.
  destruct (snd (fetchMetric fl w api host)); [|reflexivity].
  now rewrite evalMetric_no_request.
Qed.

Lemma GetHostByName_uri fl w :
  requests (fst (GetHostByName w {| MMSAPI_hostname := server fl |} (groupId fl) (hostname fl)))
  = [hostURI fl].
Proof.
  rewrite GetHostByName_cases.
  destruct (http_Get w _) as [err|err|code body]; try reflexivity.
  destruct (code =? 200); [|reflexivity]. now destruct (Unmarshal_Host body).
Qed.

(** X2.  The requests of a run, in order.  There is none when the usage
    test fails or the client cannot be created.  Otherwise the first
    request is that of the host by name; a second one follows only in
    metric mode and only when the host was fetched and decoded, and it is
    the metric request for the identifier of that host.  No request is
    made twice, whatever the service answers. *)
Theorem run_requests fl w :
  let api := {| MMSAPI_hostname := server fl |} in
  requests (fst (main fl w))
  = if String.eqb (hostname fl) "" || String.eqb (groupId fl) "" then []
    else
      match transport_Client w (username fl) (apiKey fl) with
      | Some _ => []
      | None =>
          hostURI fl ::
          match snd (GetHostByName w api (groupId fl) (hostname fl)) with
          | Err _ => []
          | Ok host =>
              if String.eqb (metricName fl) "" then [] else [metricURI fl api host]
          end
      end.
Proof.
  intros api.
  destruct (String.eqb (hostname fl) "" || String.eqb (groupId fl) "") eqn:Hgate.
  - unfold main. rewrite Hgate. reflexivity.
  - apply orb_false_iff in Hgate as [Hh Hg].
    apply String.eqb_neq in Hh. apply String.eqb_neq in Hg.
    rewrite (main_trace fl w Hh Hg). cbn [requests].
    rewrite requests_app, app_nil_r, checked_trace. cbn [requests].
    destruct (transport_Client w (username fl) (apiKey fl)); [reflexivity|].
    cbv zeta. rewrite requests_app. unfold api. rewrite GetHostByName_uri.
    cbn [app]. f_equal.
    destruct (snd (GetHostByName w _ (groupId fl) (hostname fl))) as [host|e]; [|reflexivity].
    destruct (String.eqb (metricName fl) "").
    + rewrite doHostCheck_trace. cbn [requests]. apply thresholds_no_request.
    + apply doMetricCheck_requests.
Qed.

(** X18.  The database name selects the request of the metric check.
    Without one the metric is asked for under the host; with one it is
    asked for under the host and the database, whose name is escaped.
    Either way the check makes this one request; the group, the host
    identifier, the metric name, the granularity and the period go into
    the path as they are. *)
Theorem database_name_selects_request fl w api host :
  (dbName fl = "" ->
   requests (fst (doMetricCheck fl w api host))
   = [MMSAPI_hostname api ++ "/api/public/v1.0/groups/" ++ groupId fl ++ "/hosts/" ++ Id host
        ++ "/metrics/" ++ metricName fl
        ++ "?granularity=" ++ granularity fl ++ "&period=PT" ++ period fl])
  /\ (dbName fl <> "" ->
      requests (fst (doMetricCheck fl w api host))
      = [MMSAPI_hostname api ++ "/api/public/v1.0/groups/" ++ groupId fl ++ "/hosts/" ++ Id host
           ++ "/metrics/" ++ metricName fl ++ "/" ++ escape (dbName fl)
           ++ "?granularity=" ++ granularity fl ++ "&period=PT" ++ period fl]).
Proof.
  rewrite doMetricCheck_requests. unfold metricURI. split; intros H.
  - rewrite H. reflexivity.
  - apply String.eqb_neq in H. rewrite H. reflexivity.
Qed.

(** X3.  When the client cannot be created the run asks the service
    nothing: it adds an UNKNOWN result that carries the error after
    [Failed to create API. Error: ] and finishes. *)
Theorem client_failure_requests_nothing fl w err :
  hostname fl <> "" -> groupId fl <> "" ->
  transport_Client w (username fl) (apiKey fl) = Some err ->
  fst (main fl w)
  = [EvNewCheck;
     EvClient (username fl) (apiKey fl) (Some err);
     EvAddResult {| status := UNKNOWN; message := "Failed to create API. Error: " ++ err |};
     EvFinish].
Proof.
  intros Hh Hg Hc. rewrite (main_trace fl w Hh Hg), checked_trace, Hc. reflexivity.
Qed.

(** X4.  A 200 answer whose body does not decode ends the run: the
    result is UNKNOWN, its message gives the error of the decoder and
    then the raw body, and nothing is requested after it.  This holds
    for the host request, after which no metric is asked for, and for
    the metric request. *)
Theorem undecodable_answer_ends_run :
  (forall fl w body err,
      hostname fl <> "" -> groupId fl <> "" ->
      transport_Client w (username fl) (apiKey fl) = None ->
      http_Get w (hostURI fl) = Response 200 body ->
      Unmarshal_Host body = Err err ->
      fst (main fl w)
      = [EvNewCheck;
         EvClient (username fl) (apiKey fl) None;
         EvGet (hostURI fl) (Response 200 body);
         EvUnmarshal body (Some err);
         EvAddResult
           {| status := UNKNOWN;
              message := "Response did not contain valid JSON. Error: " ++ err
                           ++ ", Body: " ++ body |};
         EvFinish])
  /\ (forall fl w api host body err,
        http_Get w (metricURI fl api host) = Response 200 body ->
        Unmarshal_Metric body = Err err ->
        fst (doMetricCheck fl w api host)
        = [EvGet (metricURI fl api host) (Response 200 body);
           EvUnmarshal body (Some err);
           EvAddResult
             {| status := UNKNOWN;
                message := "Response did not contain valid JSON. Error: " ++ err
                             ++ ", Body: " ++ body |}]).
Proof.
  split.
  - intros fl w body err Hh Hg Ha Hr Hu.
    rewrite (main_trace fl w Hh Hg), checked_trace, Ha. cbv zeta.
    rewrite GetHostByName_cases, Hr, Hu. reflexivity.
  - intros fl w api host body err Hr Hu.
    rewrite doMetricCheck_trace, fetchMetric_cases, Hr, Hu. reflexivity.
Qed.

(** ** One request *)

(** X5.  [doGet] asks once, for the server name followed by
    [/api/public/v1.0] and the path, and never again.  It succeeds
    exactly when the answer has status 200, and then returns the body as
    it came.  Any other status, 2xx included, is an error made of the
    body by [handleError]; a failure of the transport or of the reading
    of the body is reported with its own text. *)
Theorem doGet_outcomes w api path :
  let uri := MMSAPI_hostname api ++ "/api/public/v1.0" ++ path in
  fst (doGet w api path) = [EvGet uri (http_Get w uri)]
  /\ (forall body, snd (doGet w api path) = Ok body <-> http_Get w uri = Response 200 body)
  /\ (forall code body,
        http_Get w uri = Response code body -> code <> 200 ->
        snd (doGet w api path) = Err (handleError code body))
  /\ (forall err,
        http_Get w uri = GetFailed err ->
        snd (doGet w api path) = Err ("Failed to make HTTP request. Error: " ++ err))
  /\ (forall err,
        http_Get w uri = ReadFailed err ->
        snd (doGet w api path) = Err ("Failed to read HTTP response body. Error: " ++ err)).
Proof.
  intros uri. unfold doGet. step. rewrite Sprintf_uri. fold uri.
  split; [|split; [|split; [|split]]].
  - destruct (http_Get w uri) as [err|err|code body]; step; [reflexivity..|].
    destruct (code =? 200); reflexivity.
  - intros body. destruct (http_Get w uri) as [err|err|code body']; step.
    + split; discriminate.
    + split; discriminate.
    + destruct (code =? 200) eqn:Hc; step.
      * apply Z.eqb_eq in Hc. subst code. split; congruence.
      * apply Z.eqb_neq in Hc. split; [discriminate|]. intros H. congruence.
  - intros code body -> Hc. apply Z.eqb_neq in Hc. step. now rewrite Hc.
  - intros err ->. step. now rewrite Sprintf_get.
  - intros err ->. step. now rewrite Sprintf_read.
Qed.

Lemma fetch_ok {A} (U : string -> result A) w api path x :
  snd (fetch U w api path) = Ok x
  <-> exists body,
        http_Get w (MMSAPI_hostname api ++ "/api/public/v1.0" ++ path) = Response 200 body
        /\ U body = Ok x.
Proof.
  rewrite fetch_cases. cbv zeta.
  destruct (http_Get w _) as [err|err|code body]; cbn [snd].
  - split; [discriminate | intros (b & H & _); discriminate H].
  - split; [discriminate | intros (b & H & _); discriminate H].
  - destruct (code =? 200) eqn:Hc.
    + apply Z.eqb_eq in Hc. subst code. destruct (U body) as [y|e] eqn:Hu; cbn [snd].
      * split; [intros H; exists body; split; congruence|].
        intros (b & H & Hb). congruence.
      * split; [discriminate|]. intros (b & H & Hb). congruence.
    + apply Z.eqb_neq in Hc. cbn [snd].
      split; [discriminate|]. intros (b & H & _). congruence.
Qed.


(** ** What a status means *)

Ltac settle :=
  repeat split; intros;
  repeat match goal with
         | H : exists _, _ |- _ => destruct H
         | H : _ /\ _ |- _ => destruct H
         | H : _ \/ _ |- _ => destruct H
         | H : Some _ = Some _ |- _ => injection H as H; subst
         end;
  try congruence; try lia; eauto 12.



(** ** What each mode looks at *)

Lemma thresholds_tested fl v msg : Forall (eq v) (tested (thresholds fl v msg)).
Proof.
  unfold thresholds.
  destruct (ParseRange (critical fl)) as [r|e]; [|constructor].
  destruct (Range_Check r v); [repeat constructor|].
  destruct (ParseRange (warning fl)) as [r'|e']; repeat constructor.
Qed.

Lemma thresholds_no_clock fl v msg : clocked (thresholds fl v msg) = [].
Proof.
  unfold thresholds.
  destruct (ParseRange (critical fl)) as [r|e]; [|reflexivity].
  destruct (Range_Check r v); [reflexivity|].
  destruct (ParseRange (warning fl)) as [r'|e']; reflexivity.
Qed.

(** X9.  The liveness check reads the clock once, against the last ping
    of the host, and tests nothing but the age it gets, in seconds with
    their fraction.  It makes no request and attaches no performance
    datum; so a run without a metric name never carries performance
    data. *)
Theorem liveness_reads_only_last_ping fl w :
  (forall host,
      let t := fst (doHostCheck fl w host) in
      clocked t = [LastPing host]
      /\ Forall (eq (Seconds (Since w (LastPing host)))) (tested t)
      /\ requests t = []
      /\ perfdata t = [])
  /\ (metricName fl = "" -> perfdata (fst (main fl w)) = []).
Proof.
  split.
  - intros host t. unfold t. rewrite doHostCheck_trace.
    cbn [clocked tested requests perfdata].
    rewrite thresholds_no_clock, thresholds_no_request, thresholds_no_datum.
    repeat split. apply thresholds_tested.
  - intros Hm.
    destruct (String.eqb (hostname fl) "" || String.eqb (groupId fl) "") eqn:Hgate.
    + unfold main. rewrite Hgate. reflexivity.
    + apply orb_false_iff in Hgate as [Hh Hg].
      apply String.eqb_neq in Hh. apply String.eqb_neq in Hg.
      rewrite (main_trace fl w Hh Hg). cbn [perfdata].
      rewrite perfdata_app, app_nil_r, checked_trace. cbn [perfdata].
      destruct (transport_Client w (username fl) (apiKey fl)); [reflexivity|].
      cbv zeta. rewrite perfdata_app. unfold GetHostByName.
      destruct (fetch_quiet Unmarshal_Host w {| MMSAPI_hostname := server fl |}
                  (Sprintf "/groups/%v/hosts/byName/%v"
                     [OString (groupId fl); OString (hostname fl)]))
        as (_ & -> & _).
      destruct (snd (fetch _ _ _ _)) as [host|e]; [|reflexivity].
      rewrite Hm. cbn [String.eqb app]. rewrite doHostCheck_trace. cbn [perfdata].
      apply thresholds_no_datum.
Qed.

Lemma lastDataPoint_last metric earlier dp :
  DataPoints metric = (earlier ++ [dp])%list -> lastDataPoint metric = Some dp.
Proof.
  intros H. unfold lastDataPoint. rewrite H.
  destruct earlier as [|first rest]; [reflexivity|].
  cbn [app]. now rewrite last_last.
Qed.

Lemma thresholds_statuses fl v msg msg' :
  statuses (thresholds fl v msg) = statuses (thresholds fl v msg')
  /\ tested (thresholds fl v msg) = tested (thresholds fl v msg')
  /\ parsed (thresholds fl v msg) = parsed (thresholds fl v msg').
Proof.
  unfold thresholds, statuses.
  destruct (ParseRange (critical fl)) as [r|e]; [|repeat split].
  destruct (Range_Check r v); [repeat split|].
  destruct (ParseRange (warning fl)) as [r'|e']; repeat split.
Qed.

(** X10.  Of the data points of a metric only the last one counts: two
    series that end with the same point are checked alike.  The clock is
    read against the same timestamp, the same value is tested and
    attached, the same threshold strings are parsed and the result has
    the same status; with the same summary line the two checks are the
    same altogether. *)
Theorem only_last_data_point_counts fl w m1 m2 e1 e2 dp :
  DataPoints m1 = (e1 ++ [dp])%list ->
  DataPoints m2 = (e2 ++ [dp])%list ->
  let t1 := fst (evalMetric fl w m1) in
  let t2 := fst (evalMetric fl w m2) in
  statuses t1 = statuses t2
  /\ perfdata t1 = perfdata t2
  /\ tested t1 = tested t2
  /\ clocked t1 = clocked t2
  /\ parsed t1 = parsed t2
  /\ (ToStringLastDataPoint m1 = ToStringLastDataPoint m2 -> t1 = t2).
Proof.
  intros H1 H2 t1 t2. unfold t1, t2.
  pose proof (lastDataPoint_last _ _ _ H1) as L1.
  pose proof (lastDataPoint_last _ _ _ H2) as L2.
  destruct (Z_le_gt_dec (ageSeconds w (Timestamp dp)) (maxAge fl)) as [Hs|Hs].
  - rewrite (evalMetric_fresh _ _ _ _ L1 Hs), (evalMetric_fresh _ _ _ _ L2 Hs).
    destruct (thresholds_statuses fl (Value dp) (summary m1) (summary m2)) as (Hst & Ht & Hp).
    unfold statuses in *. cbn [results perfdata tested clocked parsed].
    rewrite !thresholds_no_datum, !thresholds_no_clock, Hst, Ht, Hp.
    repeat split. intros Hsum. unfold summary. now rewrite Hsum.
  - rewrite (evalMetric_stale _ _ _ _ L1 Hs), (evalMetric_stale _ _ _ _ L2 Hs).
    repeat split.
Qed.

(** ** The message of a result *)

Lemma Sprintf_plain (s : string) : occurs "%" s = false -> Sprintf s [] = s.
Proof.
  intros H. unfold Sprintf. cbn [List.length].
  assert (regular s 0 = true /\ Sprintf_v s [] = s) as [-> ->]; [|reflexivity].
  induction s as [|c s IH]; [easy|].
  cbn [occurs] in H. apply orb_false_iff in H as [Hc Hs]. destruct (IH Hs) as [IH1 IH2].
  destruct c as [[] [] [] [] [] [] [] []]; try discriminate Hc; cbn; rewrite ?IH1, ?IH2; auto.
Qed.

Lemma thresholds_messages fl v msg r :
  In r (results (thresholds fl v msg)) -> status r <> UNKNOWN -> message r = msg.
Proof.
  unfold thresholds, verdict.
  destruct (ParseRange (critical fl)) as [rc|e].
  - destruct (Range_Check rc v).
    + cbn. intros [<-|[]] _. reflexivity.
    + destruct (ParseRange (warning fl)) as [rw|e'].
      * cbn. intros [<-|[]] _. reflexivity.
      * cbn. intros [<-|[]] H. now contradiction H.
  - cbn. intros [<-|[]] H. now contradiction H.
Qed.

(** X11.  The text of a result goes through the formatter once more
    than the program writes it: the summary line of the metric, and the
    sentence about the last ping, are handed to [AddResultf] as the
    format.  A text without a percent sign comes out unchanged: then
    every result of the metric check that is not UNKNOWN has the summary
    line of the metric as its message, and every such result of the
    liveness check the sentence [Last ping was N seconds ago]. *)
Theorem plain_text_is_the_message fl w :
  (forall metric dp r,
      lastDataPoint metric = Some dp ->
      ageSeconds w (Timestamp dp) <= maxAge fl ->
      occurs "%" (ToStringLastDataPoint metric) = false ->
      In r (results (fst (evalMetric fl w metric))) ->
      status r <> UNKNOWN ->
      message r = ToStringLastDataPoint metric)
  /\ (forall host r,
        let age := Seconds (Since w (LastPing host)) in
        occurs "%" (FormatFloat age) = false ->
        In r (results (fst (doHostCheck fl w host))) ->
        status r <> UNKNOWN ->
        message r = "Last ping was " ++ FormatFloat age ++ " seconds ago").
Proof.
  split.
  - intros metric dp r Hl Hs Hp Hin Hst.
    rewrite (evalMetric_fresh _ _ _ _ Hl Hs) in Hin. cbn [results] in Hin.
    rewrite (thresholds_messages _ _ _ _ Hin Hst). unfold summary. now apply Sprintf_plain.
  - intros host r age Hp Hin Hst.
    rewrite doHostCheck_trace in Hin. cbn [results] in Hin.
    rewrite (thresholds_messages _ _ _ _ Hin Hst). unfold pingMessage, ageOf. fold age.
    apply Sprintf_plain. rewrite !occurs_app, Hp. reflexivity.
Qed.

(** ** Error bodies without the expected fields *)

Lemma index_assign (m : list (string * gvalue float64)) k' y k :
  index (assign m k' y) k = if String.eqb k' k then y else index m k.
Proof.
  induction m as [|[k0 v0] m IH]; cbn [assign index].
  - reflexivity.
  - destruct (String.eqb k0 k') eqn:H0; cbn [index].
    + apply String.eqb_eq in H0. subst k0. now destruct (String.eqb k' k).
    + rewrite IH. destruct (String.eqb k0 k) eqn:H1; [|reflexivity].
      apply String.eqb_eq in H1. subst k0. now rewrite String.eqb_sym, H0.
Qed.

(** A member that the object does not have is [nil] in the map. *)
Lemma Unmarshal_map_absent body ms m k :
  json.parse body = Some (json.Object ms) ->
  Unmarshal_map body = Some m ->
  (forall x, ~ In (k, x) ms) ->
  index m k = GNil.
Proof.
  intros Hp Hm Hk. unfold Unmarshal_map in Hm. rewrite Hp in Hm. cbn [toInterface] in Hm.
  match type of Hm with
  | context [option_map _ (?f ms [])] => set (each := f) in Hm
  end.
  assert (G : forall ms acc m', each ms acc = Some m' -> (forall x, ~ In (k, x) ms) ->
                                index m' k = index acc k).
  { clear. intros ms. induction ms as [|[k' x] ms IH]; intros acc m' H Hk.
    - cbn in H. now injection H as <-.
    - cbn in H. destruct (toInterface x) as [y|]; [|discriminate].
      rewrite (IH _ _ H); [|intros x' Hin; apply (Hk x'); now right].
      rewrite index_assign. destruct (String.eqb k' k) eqn:E; [|reflexivity].
      apply String.eqb_eq in E. subst k'. exfalso. apply (Hk x). now left. }
  destruct (each ms []) as [m'|] eqn:He; [|discriminate]. cbn in Hm. injection Hm as <-.
  now rewrite (G _ _ _ He Hk).
Qed.

(** X12.  [handleError] makes no use of the status code: the message
    depends on the body alone.  A field the body does not have is
    printed as [<nil>]: so is each of the two for the body [null], and,
    in a JSON object that decodes, [reason] when the object has no such
    member and [detail] likewise. *)
Theorem absent_error_fields_print_nil code body :
  (forall code', handleError code' body = handleError code body)
  /\ (json.parse body = Some json.Null -> handleError code body = "API Error: <nil> (<nil>)")
  /\ (forall ms m,
        json.parse body = Some (json.Object ms) ->
        Unmarshal_map body = Some m ->
        ((forall x, ~ In ("reason", x) ms) ->
         handleError code body
         = "API Error: <nil> (" ++ fmt.fmt_value FormatFloat (index m "detail") ++ ")")
        /\ ((forall x, ~ In ("detail", x) ms) ->
            handleError code body
            = "API Error: " ++ fmt.fmt_value FormatFloat (index m "reason") ++ " (<nil>)")).
Proof.
  split; [reflexivity|]. split.
  - intros Hp. unfold handleError, Unmarshal_map. rewrite Hp, Sprintf_api_error. reflexivity.
  - intros ms m Hp Hm. unfold handleError. rewrite Hm, Sprintf_api_error. split; intros Hk.
    + now rewrite (Unmarshal_map_absent _ _ _ _ Hp Hm Hk).
    + now rewrite (Unmarshal_map_absent _ _ _ _ Hp Hm Hk).
Qed.

(** ** More on the escaping of the database name *)

Lemma length_append (a b : string) :
  String.length (a ++ b) = (String.length a + String.length b)%nat.
Proof. induction a as [|c a IH]; cbn; [reflexivity | now rewrite IH]. Qed.

Lemma escape_length_eq s :
  String.length (escape s) = (String.length s + 2 * rewritten s)%nat.
Proof.
  induction s as [|c s IH]; [reflexivity|].
  rewrite escape_step, length_append, IH. cbn [rewritten String.length].
  destruct (url.shouldEscape c); cbn [pct String.length]; lia.
Qed.

Lemma rewritten_le s : (rewritten s <= String.length s)%nat.
Proof.
  induction s as [|c s IH]; [cbn; lia|]. cbn [rewritten String.length].
  destruct (url.shouldEscape c); lia.
Qed.

Lemma rewritten_unreserved s : rewritten s = 0%nat <-> unreserved s = true.
Proof.
  induction s as [|c s IH]; [easy|]. cbn [rewritten unreserved].
  destruct (url.shouldEscape c); cbn [negb andb]; [split; [lia | discriminate]|].
  rewrite <- IH. split; lia.
Qed.

(** X13.  [escape] never shortens a name and at most triples its
    length: each byte it rewrites becomes three.  It returns the name
    unchanged exactly when every byte of it is a letter, a digit or one
    of [- _ . ~]. *)
Theorem escape_length_and_fixed_points s :
  String.length (escape s) = (String.length s + 2 * rewritten s)%nat
  /\ (String.length s <= String.length (escape s) <= 3 * String.length s)%nat
  /\ (escape s = s <-> unreserved s = true).
Proof.
  pose proof (escape_length_eq s) as Hl. pose proof (rewritten_le s) as Hr.
  split; [exact Hl|]. split; [lia|]. split.
  - intros He. rewrite He in Hl. apply rewritten_unreserved. lia.
  - intros Hu. induction s as [|c s IH]; [reflexivity|].
    cbn [unreserved] in Hu. apply andb_true_iff in Hu as [Hc Hs].
    rewrite escape_step. apply negb_true_iff in Hc. rewrite Hc.
    cbn [append]. f_equal. apply IH; [apply escape_length_eq | apply rewritten_le | exact Hs].
Qed.

Lemma upperhex_inj n m :
  0 <= n < 16 -> 0 <= m < 16 -> url.upperhex n = url.upperhex m -> n = m.
Proof.
  intros Hn Hm H. apply Z2Nat.inj; try lia.
  assert (Ha : (Z.to_nat n < 16)%nat) by lia.
  assert (Hb : (Z.to_nat m < 16)%nat) by lia.
  unfold url.upperhex in H. revert Ha Hb H.
  generalize (Z.to_nat n) (Z.to_nat m). intros a b Ha Hb.
  do 16 (destruct a as [|a];
         [do 16 (destruct b as [|b];
                 [cbn; intros H; first [reflexivity | discriminate H]|]);
          lia|]).
  lia.
Qed.

Lemma code_range c : 0 <= code c < 256.
Proof.
  unfold code. pose proof (N_ascii_bounded c) as H. lia.
Qed.

Lemma code_inj c d : code c = code d -> c = d.
Proof.
  unfold code. intros H. apply N2Z.inj in H.
  rewrite <- (ascii_N_embedding c), <- (ascii_N_embedding d). now rewrite H.
Qed.

Lemma pct_inj c d : pct c = pct d -> c = d.
Proof.
  unfold pct. intros H. injection H as Hhi Hlo.
  pose proof (code_range c) as Rc. pose proof (code_range d) as Rd.
  rewrite !Z.shiftr_div_pow2 in Hhi by lia.
  change 15 with (Z.ones 4) in Hlo. rewrite !Z.land_ones in Hlo by lia.
  change (2 ^ 4) with 16 in *.
  apply upperhex_inj in Hhi; [|split; [apply Z.div_pos; lia | apply Z.div_lt_upper_bound; lia]..].
  apply upperhex_inj in Hlo; [|apply Z.mod_pos_bound; lia..].
  apply code_inj.
  rewrite (Z.div_mod (code c) 16), (Z.div_mod (code d) 16) by lia. now rewrite Hhi, Hlo.
Qed.

(** X14.  [escape] loses nothing: two database names with the same
    escaped form are the same name, so that two databases never share a
    request path. *)
Theorem escape_injective a b : escape a = escape b -> a = b.
Proof.
  revert b. induction a as [|c a IH]; intros [|d b] H.
  - reflexivity.
  - rewrite escape_step in H. destruct (url.shouldEscape d); discriminate H.
  - rewrite escape_step in H. destruct (url.shouldEscape c); discriminate H.
  - rewrite !escape_step in H.
    destruct (url.shouldEscape c) eqn:Hc, (url.shouldEscape d) eqn:Hd.
    + assert (E : pct c = pct d /\ escape a = escape b).
      { unfold pct in *. cbn [append] in H. injection H as H1 H2 H3. now rewrite H1, H2. }
      destruct E as [E1 E2]. now rewrite (pct_inj _ _ E1), (IH _ E2).
    + unfold pct in H. cbn [append] in H. injection H as H1 _. subst d. discriminate Hd.
    + unfold pct in H. cbn [append] in H. injection H as H1 _. subst c. discriminate Hc.
    + cbn [append] in H. injection H as H1 H2. now rewrite H1, (IH _ H2).
Qed.

(** ** The command line *)

Context {conv : Strconv}.

Lemma registered_defaults : flag.registered CommandLine zeroFlags = defaultFlags.
Proof. reflexivity. Qed.

(** X15.  The names the command line accepts are the twenty-six that
    [setupFlags] registers: a long and a short one for each of the
    thirteen variables.  The two names of a variable act alike, with one
    dash or two, the value given as the next argument or after an equals
    sign: the command line is accepted under one spelling when it is
    under the other, with the same variables and the same arguments left
    over.  The name [apiKey], as the usage message spells it, is not
    among them, and neither are [h] and [help], which ask for the usage
    message. *)
Theorem short_and_long_names_agree fl v rest :
  map flag.Name CommandLine = flat_map (fun n => [fst n; snd n]) flagNames
  /\ Forall (fun n =>
               let long := fst n in
               let short := snd n in
               let outcome :=
                 accepted (flag.Parse CommandLine fl (("--" ++ long) :: v :: rest)) in
               accepted (flag.Parse CommandLine fl (("-" ++ short) :: v :: rest)) = outcome
               /\ accepted (flag.Parse CommandLine fl (("--" ++ short) :: v :: rest)) = outcome
               /\ accepted (flag.Parse CommandLine fl (("-" ++ long) :: v :: rest)) = outcome
               /\ accepted (flag.Parse CommandLine fl (("-" ++ short ++ "=" ++ v) :: rest))
                  = outcome
               /\ accepted (flag.Parse CommandLine fl (("--" ++ long ++ "=" ++ v) :: rest))
                  = outcome)
            flagNames
  /\ flag.Parse CommandLine fl ("--apiKey" :: v :: rest) = flag.Failed (flag.NotDefined "apiKey")
  /\ flag.Parse CommandLine fl ("-h" :: rest) = flag.Failed flag.ErrHelp
  /\ flag.Parse CommandLine fl ("--help" :: rest) = flag.Failed flag.ErrHelp.
Proof.
  split; [reflexivity|]. split; [|repeat split].
  unfold flagNames.
  repeat (apply Forall_cons;
          [cbv zeta; cbn [fst snd]; repeat split;
           (reflexivity
            || (cbn; unfold flag.assigned; cbn; destruct (ParseInt v); reflexivity))|]).
  apply Forall_nil.
Qed.

(** A flag whose name is none of [l] leaves alone the variable that the
    names [l] are bound to. *)
Ltac other_flag Hl Hn Hv :=
  unfold CommandLine in Hl; cbn [flag.lookup flag.Name flag.StringVar flag.IntVar] in Hl;
  repeat match type of Hl with
         | (if String.eqb ?a ?name then _ else _) = _ =>
             let E := fresh "E" in
             destruct (String.eqb a name) eqn:E;
             [ apply String.eqb_eq in E; subst name; injection Hl as <-;
               cbn in Hn; try discriminate Hn;
               cbn in Hv; try destruct (ParseInt _); try discriminate Hv;
               injection Hv as <-; reflexivity
             | ]
         end;
  discriminate Hl.

Lemma other_flag_keeps_groupId name f v fl fl' :
  flag.lookup CommandLine name = Some f ->
  existsb (String.eqb name) ["groupid"; "g"] = false ->
  flag.Value_Set f v fl = Ok fl' ->
  groupId fl' = groupId fl.
Proof. intros Hl Hn Hv. other_flag Hl Hn Hv. Qed.

Lemma other_flag_keeps_hostname name f v fl fl' :
  flag.lookup CommandLine name = Some f ->
  existsb (String.eqb name) ["hostname"; "H"] = false ->
  flag.Value_Set f v fl = Ok fl' ->
  hostname fl' = hostname fl.
Proof. intros Hl Hn Hv. other_flag Hl Hn Hv. Qed.

Lemma other_flag_keeps_metricName name f v fl fl' :
  flag.lookup CommandLine name = Some f ->
  existsb (String.eqb name) ["metric"; "m"] = false ->
  flag.Value_Set f v fl = Ok fl' ->
  metricName fl' = metricName fl.
Proof. intros Hl Hn Hv. other_flag Hl Hn Hv. Qed.

Lemma other_flag_keeps_dbName name f v fl fl' :
  flag.lookup CommandLine name = Some f ->
  existsb (String.eqb name) ["dbname"; "d"] = false ->
  flag.Value_Set f v fl = Ok fl' ->
  dbName fl' = dbName fl.
Proof. intros Hl Hn Hv. other_flag Hl Hn Hv. Qed.

Lemma other_flag_keeps_maxAge name f v fl fl' :
  flag.lookup CommandLine name = Some f ->
  existsb (String.eqb name) ["maxage"; "a"] = false ->
  flag.Value_Set f v fl = Ok fl' ->
  maxAge fl' = maxAge fl.
Proof. intros Hl Hn Hv. other_flag Hl Hn Hv. Qed.

Lemma other_flag_keeps_server name f v fl fl' :
  flag.lookup CommandLine name = Some f ->
  existsb (String.eqb name) ["server"; "s"] = false ->
  flag.Value_Set f v fl = Ok fl' ->
  server fl' = server fl.
Proof. intros Hl Hn Hv. other_flag Hl Hn Hv. Qed.

Lemma other_flag_keeps_warning name f v fl fl' :
  flag.lookup CommandLine name = Some f ->
  existsb (String.eqb name) ["warning"; "w"] = false ->
  flag.Value_Set f v fl = Ok fl' ->
  warning fl' = warning fl.
Proof. intros Hl Hn Hv. other_flag Hl Hn Hv. Qed.

Lemma other_flag_keeps_critical name f v fl fl' :
  flag.lookup CommandLine name = Some f ->
  existsb (String.eqb name) ["critical"; "c"] = false ->
  flag.Value_Set f v fl = Ok fl' ->
  critical fl' = critical fl.
Proof. intros Hl Hn Hv. other_flag Hl Hn Hv. Qed.

Lemma other_flag_keeps_timeout name f v fl fl' :
  flag.lookup CommandLine name = Some f ->
  existsb (String.eqb name) ["timeout"; "t"] = false ->
  flag.Value_Set f v fl = Ok fl' ->
  timeout fl' = timeout fl.
Proof. intros Hl Hn Hv. other_flag Hl Hn Hv. Qed.

Lemma other_flag_keeps_granularity name f v fl fl' :
  flag.lookup CommandLine name = Some f ->
  existsb (String.eqb name) ["granularity"; "r"] = false ->
  flag.Value_Set f v fl = Ok fl' ->
  granularity fl' = granularity fl.
Proof. intros Hl Hn Hv. other_flag Hl Hn Hv. Qed.

Lemma other_flag_keeps_period name f v fl fl' :
  flag.lookup CommandLine name = Some f ->
  existsb (String.eqb name) ["period"; "p"] = false ->
  flag.Value_Set f v fl = Ok fl' ->
  period fl' = period fl.
Proof. intros Hl Hn Hv. other_flag Hl Hn Hv. Qed.

Lemma other_flag_keeps_username name f v fl fl' :
  flag.lookup CommandLine name = Some f ->
  existsb (String.eqb name) ["username"; "u"] = false ->
  flag.Value_Set f v fl = Ok fl' ->
  username fl' = username fl.
Proof. intros Hl Hn Hv. other_flag Hl Hn Hv. Qed.

Lemma other_flag_keeps_apiKey name f v fl fl' :
  flag.lookup CommandLine name = Some f ->
  existsb (String.eqb name) ["apikey"; "k"] = false ->
  flag.Value_Set f v fl = Ok fl' ->
  apiKey fl' = apiKey fl.
Proof. intros Hl Hn Hv. other_flag Hl Hn Hv. Qed.

(** The parse leaves alone a variable that no argument names. *)
Lemma Parse_keeps {A} (get : Flags -> A) (l : list string) :
  (forall name f v fl fl',
      flag.lookup CommandLine name = Some f ->
      existsb (String.eqb name) l = false ->
      flag.Value_Set f v fl = Ok fl' -> get fl' = get fl) ->
  forall n args fl0 fl rest,
    (List.length args <= n)%nat ->
    flag.Parse CommandLine fl0 args = flag.Parsed fl rest ->
    unnamed l args = true ->
    get fl = get fl0.
Proof.
  unfold unnamed. intros Hother n.
  induction n as [|n IH]; intros args fl0 fl rest Hlen HP Hf.
  - destruct args; [|cbn in Hlen; lia]. cbn in HP. now injection HP as <- _.
  - destruct args as [|s args]; [cbn in HP; now injection HP as <- _|].
    cbn [forallb] in Hf. apply andb_true_iff in Hf as [Hs Hf].
    apply negb_true_iff in Hs. unfold names in Hs.
    cbn [List.length] in Hlen. cbn [flag.Parse] in HP.
    destruct (flag.parseArg s) as [| | |name value].
    + now injection HP as <- _.
    + now injection HP as <- _.
    + discriminate HP.
    + destruct (flag.lookup CommandLine name) as [f|] eqn:Hl;
        [|destruct (String.eqb name "help" || String.eqb name "h"); discriminate HP].
      destruct value as [v|].
      * unfold flag.assigned in HP.
        destruct (flag.Value_Set f v fl0) as [fl1|e] eqn:Hv; [|discriminate HP].
        rewrite (IH args fl1 fl rest) by (lia || assumption). now apply (Hother name f v).
      * destruct args as [|v args]; [discriminate HP|].
        unfold flag.assigned in HP.
        destruct (flag.Value_Set f v fl0) as [fl1|e] eqn:Hv; [|discriminate HP].
        cbn [forallb] in Hf. apply andb_true_iff in Hf as [_ Hf]. cbn [List.length] in Hlen.
        rewrite (IH args fl1 fl rest) by (lia || assumption). now apply (Hother name f v).
Qed.

Lemma main_usage fl w :
  String.eqb (hostname fl) "" || String.eqb (groupId fl) "" = true ->
  fst (main fl w) = (map EvPrint usageLines ++ [EvExit 2])%list.
Proof. intros H. unfold main. rewrite H. reflexivity. Qed.

Lemma setupFlags_keeps {A} (get : Flags -> A) (l : list string) args fl rest :
  (forall name f v fl fl',
      flag.lookup CommandLine name = Some f ->
      existsb (String.eqb name) l = false ->
      flag.Value_Set f v fl = Ok fl' -> get fl' = get fl) ->
  setupFlags args = flag.Parsed fl rest ->
  unnamed l args = true ->
  get fl = get defaultFlags.
Proof.
  unfold setupFlags. rewrite registered_defaults. intros Hother HP Hn.
  exact (Parse_keeps get l Hother _ _ _ _ _ (le_n _) HP Hn).
Qed.

(** X16.  The group and the host are required: a command line that is
    accepted and in which no argument is written as the flag [groupid]
    or [g], or none as the flag [hostname] or [H], leaves the variable
    empty, and the run prints the usage message and exits with code 2
    without creating a check. *)
Theorem unnamed_required_flag_prints_usage args fl rest w :
  setupFlags args = flag.Parsed fl rest ->
  unnamed ["groupid"; "g"] args = true \/ unnamed ["hostname"; "H"] args = true ->
  fst (main fl w) = (map EvPrint usageLines ++ [EvExit 2])%list
  /\ stdout (fst (main fl w)) = Usage.
Proof.
  intros HP Hn.
  assert (Ht : fst (main fl w) = (map EvPrint usageLines ++ [EvExit 2])%list).
  { apply main_usage. destruct Hn as [Hn|Hn].
    - rewrite (setupFlags_keeps groupId _ _ _ _ other_flag_keeps_groupId HP Hn).
      apply orb_true_r.
    - rewrite (setupFlags_keeps hostname _ _ _ _ other_flag_keeps_hostname HP Hn).
      reflexivity. }
  rewrite Ht. split; reflexivity.
Qed.

(** X17.  A flag variable that the command line does not name keeps the
    default that [setupFlags] registers for it: the public service as the
    server, [~:] for both thresholds, 360 seconds as the greatest age,
    a timeout of 10, the granularity [MINUTE] over the period [1H], and
    the empty string for the rest. *)
Theorem unnamed_flags_keep_defaults args fl rest :
  setupFlags args = flag.Parsed fl rest ->
  (unnamed ["groupid"; "g"] args = true -> groupId fl = "")
  /\ (unnamed ["hostname"; "H"] args = true -> hostname fl = "")
  /\ (unnamed ["metric"; "m"] args = true -> metricName fl = "")
  /\ (unnamed ["dbname"; "d"] args = true -> dbName fl = "")
  /\ (unnamed ["maxage"; "a"] args = true -> maxAge fl = 360)
  /\ (unnamed ["server"; "s"] args = true -> server fl = "https://mms.mongodb.com")
  /\ (unnamed ["warning"; "w"] args = true -> warning fl = "~:")
  /\ (unnamed ["critical"; "c"] args = true -> critical fl = "~:")
  /\ (unnamed ["timeout"; "t"] args = true -> timeout fl = 10)
  /\ (unnamed ["granularity"; "r"] args = true -> granularity fl = "MINUTE")
  /\ (unnamed ["period"; "p"] args = true -> period fl = "1H")
  /\ (unnamed ["username"; "u"] args = true -> username fl = "")
  /\ (unnamed ["apikey"; "k"] args = true -> apiKey fl = "").
Proof.
  intros HP.
  repeat split; intros Hn.
  - exact (setupFlags_keeps groupId _ _ _ _ other_flag_keeps_groupId HP Hn).
  - exact (setupFlags_keeps hostname _ _ _ _ other_flag_keeps_hostname HP Hn).
  - exact (setupFlags_keeps metricName _ _ _ _ other_flag_keeps_metricName HP Hn).
  - exact (setupFlags_keeps dbName _ _ _ _ other_flag_keeps_dbName HP Hn).
  - exact (setupFlags_keeps maxAge _ _ _ _ other_flag_keeps_maxAge HP Hn).
  - exact (setupFlags_keeps server _ _ _ _ other_flag_keeps_server HP Hn).
  - exact (setupFlags_keeps warning _ _ _ _ other_flag_keeps_warning HP Hn).
  - exact (setupFlags_keeps critical _ _ _ _ other_flag_keeps_critical HP Hn).
  - exact (setupFlags_keeps timeout _ _ _ _ other_flag_keeps_timeout HP Hn).
  - exact (setupFlags_keeps granularity _ _ _ _ other_flag_keeps_granularity HP Hn).
  - exact (setupFlags_keeps period _ _ _ _ other_flag_keeps_period HP Hn).
  - exact (setupFlags_keeps username _ _ _ _ other_flag_keeps_username HP Hn).
  - exact (setupFlags_keeps apiKey _ _ _ _ other_flag_keeps_apiKey HP Hn).
Qed.

Lemma cut_plain s : occurs "=" s = false -> flag.cut s = (s, None).
Proof.
  induction s as [|c s IH]; [reflexivity|]. cbn [occurs flag.cut]. intros H.
  apply orb_false_iff in H as [Hc Hs]. rewrite Ascii.eqb_sym, Hc, (IH Hs). reflexivity.
Qed.

End Properties.

(** * The properties on concrete runs *)

Import env apimodel scenario.

(** The program run from end to end in the concrete environment. *)
Example run_liveness :
  let t := fst (main (hostFlags "300" "200") (world pinged500 fresh42)) in
  requests t = [hostRequest]
  /\ results t = [ {| status := CRITICAL; message := "Last ping was 500 seconds ago" |} ]
  /\ perfdata t = []
  /\ parsed t = ["300"].
Proof. vm_compute. repeat split. Qed.

Example run_metric :
  let t := fst (main (metricFlags "50" "40") (world pinged500 fresh42)) in
  requests t = [hostRequest; metricRequest]
  /\ results t = [ {| status := WARNING; message := "OPCOUNTERS_CMD: 42 at 1433159940" |} ]
  /\ perfdata t = [ {| label := "OPCOUNTERS_CMD"; uom := ""; value := binary64.of_Z 42 |} ]
  /\ parsed t = ["50"; "40"].
Proof. vm_compute. repeat split. Qed.

(** A malformed warning string that is never parsed: the critical range
    is violated first. *)
Example run_unparsed_warning :
  let t := fst (main (hostFlags "300" "abc") (world pinged500 fresh42)) in
  malformed "abc" = true
  /\ results t = [ {| status := CRITICAL; message := "Last ping was 500 seconds ago" |} ]
  /\ parsed t = ["300"].
Proof. vm_compute. repeat split. Qed.

Example run_escape : escape "my db/a+b" = "my%20db%2Fa%2Bb".
Proof. reflexivity. Qed.

Lemma critical_precedes_warning_witness :
  results (fst (doHostCheck (hostFlags "300" "200") (world pinged500 fresh42) host500))
  = [ {| status := CRITICAL; message := "Last ping was 500 seconds ago" |} ]
  /\ results (fst (doHostCheck (hostFlags "600" "550") (world pinged500 fresh42) host500))
     = [ {| status := OK; message := "Last ping was 500 seconds ago" |} ]
  /\ results (fst (doMetricCheck (metricFlags "30" "20") (world pinged500 fresh42) api host500))
     = [ {| status := CRITICAL; message := "OPCOUNTERS_CMD: 42 at 1433159940" |} ]
  /\ results (fst (doMetricCheck (metricFlags "50" "45") (world pinged500 fresh42) api host500))
     = [ {| status := OK; message := "OPCOUNTERS_CMD: 42 at 1433159940" |} ].
Proof.
  assert (fresh : ageSeconds (world pinged500 fresh42) (Timestamp (point42 60)) <= 360)
    by (vm_compute; discriminate).
  split; [|split; [|split]].
  - apply (proj1 (proj2 (proj1 (@critical_precedes_warning std nagios model
             (hostFlags "300" "200") (world pinged500 fresh42)
             (range 0 300 false) (range 0 200 false) eq_refl eq_refl) host500)));
      reflexivity.
  - apply (proj2 (proj2 (proj1 (@critical_precedes_warning std nagios model
             (hostFlags "600" "550") (world pinged500 fresh42)
             (range 0 600 false) (range 0 550 false) eq_refl eq_refl) host500)));
      reflexivity.
  - apply (proj1 (proj2 (proj2 (@critical_precedes_warning std nagios model
             (metricFlags "30" "20") (world pinged500 fresh42)
             (range 0 30 false) (range 0 20 false) eq_refl eq_refl)
             api host500 freshMetric (point42 60) eq_refl eq_refl fresh)));
      reflexivity.
  - apply (proj2 (proj2 (proj2 (@critical_precedes_warning std nagios model
             (metricFlags "50" "45") (world pinged500 fresh42)
             (range 0 50 false) (range 0 45 false) eq_refl eq_refl)
             api host500 freshMetric (point42 60) eq_refl eq_refl fresh)));
      reflexivity.
Defined.

Lemma critical_hit_never_parses_warning_witness :
  malformed "abc" = true
  /\ fst (doHostCheck (hostFlags "300" "abc") (world pinged500 fresh42) host500)
     = [EvSince (noon - 500 * 1000000000) (500 * 1000000000);
        EvParseRange "300" (Ok (range 0 300 false));
        EvCheck (range 0 300 false) (binary64.of_Z 500) true;
        EvAddResult {| status := CRITICAL; message := "Last ping was 500 seconds ago" |}]
  /\ parsed (fst (evalMetric (metricFlags "30" "abc") (world pinged500 fresh42) freshMetric))
     = ["30"].
Proof.
  assert (fresh : ageSeconds (world pinged500 fresh42) (Timestamp (point42 60)) <= 360)
    by (vm_compute; discriminate).
  split; [reflexivity | split].
  - apply (proj2 (proj1 (@critical_hit_never_parses_warning std nagios model
             (hostFlags "300" "abc") (world pinged500 fresh42) (range 0 300 false) eq_refl)
             host500)).
    reflexivity.
  - apply (proj1 (proj2 (@critical_hit_never_parses_warning std nagios model
             (metricFlags "30" "abc") (world pinged500 fresh42) (range 0 30 false) eq_refl)
             api host500 freshMetric (point42 60) eq_refl eq_refl fresh)).
Defined.

Lemma stale_point_is_critical_witness :
  let t := fst (doMetricCheck (metricFlags "50" "40") (world pinged500 stale42) api host500) in
  t = [EvGet metricRequest (Response 200 stale42);
       EvUnmarshal stale42 None;
       EvSince (noon - 1000 * 1000000000) (1000 * 1000000000);
       EvAddResult {| status := CRITICAL;
                      message := "Last data point for OPCOUNTERS_CMD is 1000 seconds old." |}]
  /\ perfdata t = [] /\ parsed t = [] /\ tested t = [].
Proof.
  apply (@stale_point_is_critical std nagios model (metricFlags "50" "40")
           (world pinged500 stale42) api host500 staleMetric (point42 1000));
    vm_compute; reflexivity.
Defined.

Lemma no_data_point_is_unknown_witness :
  let t := fst (doMetricCheck (metricFlags "abc" "~") (world pinged500 noPoints) api host500) in
  t = [EvGet metricRequest (Response 200 noPoints);
       EvUnmarshal noPoints None;
       EvAddResult {| status := UNKNOWN;
                      message := "No data points found for OPCOUNTERS_CMD" |}]
  /\ clocked t = [] /\ perfdata t = [] /\ parsed t = [] /\ tested t = [].
Proof.
  apply (@no_data_point_is_unknown std nagios model (metricFlags "abc" "~")
           (world pinged500 noPoints) api host500 emptyMetric);
    vm_compute; reflexivity.
Defined.

Lemma perf_datum_attached_once_witness :
  perfdata (fst (doMetricCheck (metricFlags "50" "40") (world pinged500 fresh42) api host500))
  = [ {| label := "OPCOUNTERS_CMD"; uom := ""; value := binary64.of_Z 42 |} ].
Proof.
  assert (fresh : ageSeconds (world pinged500 fresh42) (Timestamp (point42 60)) <= 360)
    by (vm_compute; discriminate).
  apply (proj2 (proj2 (proj2 (@perf_datum_attached_once std nagios model
           (metricFlags "50" "40") (world pinged500 fresh42) api host500 freshMetric
           (point42 60) eq_refl eq_refl fresh)))).
Defined.

Lemma parse_error_keeps_perf_datum_witness :
  malformed "abc" = true
  /\ (let t := fst (doMetricCheck (metricFlags "abc" "40") (world pinged500 fresh42) api host500) in
      results t = [ {| status := UNKNOWN;
                       message := "Error parsing critical range. Error: " ++ abcError |} ]
      /\ perfdata t = [ {| label := "OPCOUNTERS_CMD"; uom := ""; value := binary64.of_Z 42 |} ])
  /\ (let t := fst (doMetricCheck (metricFlags "50" "abc") (world pinged500 fresh42) api host500) in
      results t = [ {| status := UNKNOWN;
                       message := "Error parsing warning range. Error: " ++ abcError |} ]
      /\ perfdata t = [ {| label := "OPCOUNTERS_CMD"; uom := ""; value := binary64.of_Z 42 |} ]).
Proof.
  assert (fresh : ageSeconds (world pinged500 fresh42) (Timestamp (point42 60)) <= 360)
    by (vm_compute; discriminate).
  split; [reflexivity | split].
  - apply (proj2 (proj1 (@parse_error_keeps_perf_datum std nagios model (metricFlags "abc" "40")
             (world pinged500 fresh42) api host500 freshMetric (point42 60)
             eq_refl eq_refl fresh) abcError eq_refl)).
  - apply (proj2 (proj2 (@parse_error_keeps_perf_datum std nagios model (metricFlags "50" "abc")
             (world pinged500 fresh42) api host500 freshMetric (point42 60)
             eq_refl eq_refl fresh) (range 0 50 false) abcError eq_refl eq_refl eq_refl)).
Defined.


(** C7 as the claim words it fails: ["[]"] and ["42"] are valid JSON, and
    the message is the generic one. *)
Lemma valid_json_without_fields :
  json.Valid "[]" = true
  /\ handleError 404 "[]" = "API response did not contain valid JSON. Body: []"
  /\ json.Valid "42" = true
  /\ handleError 404 "42" = "API response did not contain valid JSON. Body: 42".
Proof. repeat split. Qed.

Lemma api_error_message_witness :
  handleError 404 errorBody = "API Error: Not Found (No host db9:27017 exists in group 5a0a.)"
  /\ fst (main unknownHostFlags (world pinged500 fresh42))
     = [EvNewCheck;
        EvClient "monitor" "secret" None;
        EvGet "https://mms.mongodb.com/api/public/v1.0/groups/5a0a/hosts/byName/db9:27017"
          (Response 404 errorBody);
        EvAddResult
          {| status := UNKNOWN;
             message := "API Error: Not Found (No host db9:27017 exists in group 5a0a.)" |};
        EvFinish].
Proof.
  pose proof (@api_error_message std nagios model) as (_ & Hfields & _ & _ & _ & Hmain & _).
  split.
  - eapply (Hfields 404 errorBody _ "Not Found" "No host db9:27017 exists in group 5a0a.");
      vm_compute; reflexivity.
  - etransitivity;
      [ apply (Hmain unknownHostFlags (world pinged500 fresh42) 404 errorBody);
        try discriminate; vm_compute; reflexivity
      | vm_compute; reflexivity ].
Defined.

Lemma missing_group_or_host_prints_usage_witness :
  let t := fst (main defaultFlags (world pinged500 fresh42)) in
  stdout t = Usage /\ requests t = [] /\ results t = [] /\ perfdata t = []
  /\ last t EvFinish = EvExit 2.
Proof.
  intros t.
  destruct (@missing_group_or_host_prints_usage std nagios model defaultFlags
              (world pinged500 fresh42) (or_introl eq_refl)) as (Ht & Hs & Hq & Hr & Hp).
  split; [exact Hs | split; [exact Hq | split; [exact Hr | split; [exact Hp|]]]].
  unfold t. rewrite Ht. reflexivity.
Defined.

Lemma escape_percent_encodes_witness :
  escape "my db/a" = escape "my" ++ "%20" ++ escape "db/a"
  /\ occurs "/" (escape "my db/a") = false
  /\ occurs "&" (escape "a&b") = false
  /\ requests (fst (GetHostDBMetric (world pinged500 fresh42) api "5a0a" "56e9378f"
                      "DB_DATA_SIZE" "my db/a" "MINUTE" "1H"))
     = [dbMetricRequest].
Proof.
  pose proof (@escape_percent_encodes std nagios model) as (_ & Hsp & _ & Hraw & Hany & Hdb & _).
  split; [|split; [|split]].
  - apply (Hsp "my" "db/a").
  - apply Hraw.
  - apply Hany; [reflexivity | discriminate].
  - rewrite Hdb. reflexivity.
Defined.

Import cases.

Example run_command_line :
  setupFlags ["-H"; "db1:27017"; "--groupid=5a0a"; "-c"; "-5:"; "x"; "-w"; "1"]
  = flag.Parsed
      (set_critical "-5:" (set_groupId "5a0a" (set_hostname "db1:27017" defaultFlags)))
      ["x"; "-w"; "1"].
Proof. reflexivity. Qed.


Lemma client_failure_requests_nothing_witness :
  fst (main (hostFlags "300" "200") noClient)
  = [EvNewCheck;
     EvClient "monitor" "secret" (Some "digest: no credentials");
     EvAddResult {| status := UNKNOWN;
                    message := "Failed to create API. Error: digest: no credentials" |};
     EvFinish].
Proof.
  apply (@client_failure_requests_nothing std nagios model (hostFlags "300" "200") noClient
           "digest: no credentials"); [discriminate | discriminate | reflexivity].
Defined.

Lemma undecodable_answer_ends_run_witness :
  fst (main (metricFlags "50" "40") proxied)
  = [EvNewCheck;
     EvClient "monitor" "secret" None;
     EvGet hostRequest (Response 200 "<html>");
     EvUnmarshal "<html>" (Some "invalid JSON text");
     EvAddResult
       {| status := UNKNOWN;
          message := "Response did not contain valid JSON. Error: invalid JSON text, Body: <html>" |};
     EvFinish].
Proof.
  apply (proj1 (@undecodable_answer_ends_run std nagios model) (metricFlags "50" "40") proxied
           "<html>" "invalid JSON text");
    [discriminate | discriminate | reflexivity | reflexivity | reflexivity].
Defined.

Lemma doGet_outcomes_witness :
  snd (doGet noContent api "/groups/5a0a/hosts")
  = Err "API response did not contain valid JSON. Body: "
  /\ snd (doGet (world pinged500 fresh42) api "/groups/5a0a/hosts/byName/db1:27017")
     = Ok (hostBody pinged500).
Proof.
  pose proof (@doGet_outcomes std nagios noContent api "/groups/5a0a/hosts") as H.
  pose proof (@doGet_outcomes std nagios (world pinged500 fresh42) api
                "/groups/5a0a/hosts/byName/db1:27017") as H'.
  cbv zeta in H, H'. destruct H as (_ & _ & H & _). destruct H' as (_ & H' & _).
  split.
  - apply (H 204 ""); [reflexivity | discriminate].
  - apply (proj2 (H' (hostBody pinged500))). reflexivity.
Defined.




Lemma liveness_reads_only_last_ping_witness :
  perfdata (fst (main (hostFlags "300" "200") (world pinged500 fresh42))) = [].
Proof.
  apply (proj2 (@liveness_reads_only_last_ping std nagios model (hostFlags "300" "200")
                  (world pinged500 fresh42))).
  reflexivity.
Defined.

Lemma only_last_data_point_counts_witness :
  statuses (fst (evalMetric (metricFlags "50" "40") (world pinged500 fresh42) twoPoints))
  = [WARNING]
  /\ tested (fst (evalMetric (metricFlags "50" "40") (world pinged500 fresh42) twoPoints))
     = [binary64.of_Z 42; binary64.of_Z 42].
Proof.
  pose proof (@only_last_data_point_counts std nagios model (metricFlags "50" "40")
                (world pinged500 fresh42) twoPoints freshMetric
                [ {| Timestamp := noon - 120 * 1000000000; Value := binary64.of_Z 7 |} ] []
                (point42 60) eq_refl eq_refl) as H.
  cbv zeta in H. destruct H as (Hs & _ & Ht & _).
  split.
  - etransitivity; [exact Hs | vm_compute; reflexivity].
  - etransitivity; [exact Ht | vm_compute; reflexivity].
Defined.

Lemma plain_text_is_the_message_witness :
  message {| status := WARNING; message := "OPCOUNTERS_CMD: 42 at 1433159940" |}
  = ToStringLastDataPoint freshMetric
  /\ message {| status := CRITICAL; message := "Last ping was 500 seconds ago" |}
     = "Last ping was " ++ FormatFloat (Seconds (Since (world pinged500 fresh42) (LastPing host500)))
         ++ " seconds ago".
Proof.
  pose proof (@plain_text_is_the_message std nagios model) as H.
  split.
  - apply (proj1 (H (metricFlags "50" "40") (world pinged500 fresh42)) freshMetric (point42 60));
      [reflexivity | vm_compute; discriminate | vm_compute; reflexivity
      | vm_compute; left; reflexivity | discriminate].
  - apply (proj2 (H (hostFlags "300" "200") (world pinged500 fresh42)) host500);
      [vm_compute; reflexivity | vm_compute; left; reflexivity | discriminate].
Defined.

Lemma absent_error_fields_print_nil_witness :
  handleError 500 "{}" = "API Error: <nil> (<nil>)"
  /\ handleError 500 "null" = "API Error: <nil> (<nil>)".
Proof.
  destruct (@absent_error_fields_print_nil std 500 "{}") as (_ & _ & Hobject).
  destruct (@absent_error_fields_print_nil std 500 "null") as (_ & Hnull & _).
  split.
  - etransitivity;
      [ apply (proj1 (Hobject [] [] eq_refl eq_refl)); intros x []
      | reflexivity ].
  - apply Hnull. reflexivity.
Defined.

Lemma escape_injective_witness : "my db" = "my" ++ " " ++ "db".
Proof. apply (escape_injective "my db" ("my" ++ " " ++ "db")). reflexivity. Defined.

Lemma unnamed_required_flag_prints_usage_witness :
  stdout (fst (main (set_maxAge 600 (set_hostname "db1:27017" defaultFlags))
                 (world pinged500 fresh42)))
  = Usage.
Proof.
  apply (proj2 (@unnamed_required_flag_prints_usage std nagios model conv hostOnly
                  (set_maxAge 600 (set_hostname "db1:27017" defaultFlags)) []
                  (world pinged500 fresh42) eq_refl (or_introl eq_refl))).
Defined.

Lemma unnamed_flags_keep_defaults_witness :
  server (set_maxAge 600 (set_hostname "db1:27017" defaultFlags)) = "https://mms.mongodb.com"
  /\ warning (set_maxAge 600 (set_hostname "db1:27017" defaultFlags)) = "~:".
Proof.
  destruct (@unnamed_flags_keep_defaults conv hostOnly
              (set_maxAge 600 (set_hostname "db1:27017" defaultFlags)) [] eq_refl)
    as (_ & _ & _ & _ & _ & Hs & Hw & _).
  split; [apply Hs | apply Hw]; reflexivity.
Defined.

Lemma database_name_selects_request_witness :
  requests (fst (doMetricCheck (metricFlags "50" "40") (world pinged500 fresh42) api host500))
  = [metricRequest].
Proof.
  apply (proj1 (@database_name_selects_request std nagios model (metricFlags "50" "40")
                  (world pinged500 fresh42) api host500)).
  reflexivity.
Defined.

